(** * QNAP Backup Manager: scheduling and execution coordination core

    A shallow embedding of [src/backend/scheduler.py] (the job store, the
    execution history, the firing logic of [BackupScheduler]), of the
    task dispatch, the background scripts and the schedule creation
    endpoint of [src/backend/main.py] and of the control flow of
    [src/scripts/backup_collections.py], followed by the properties of
    the specification stated and settled over it.

    Conventions of the embedding:
    - a Python [datetime] is its count of microseconds since
      1970-01-01T00:00:00 (naive, local), a [Z];
    - a [dict] with string keys is a [gmap string _]; a dataclass is a
      record; an [Enum] is an inductive type with its [value] function;
    - code that raises returns a [result];
    - [datetime.now()], [uuid4()] and the injected backup callback are
      oracles threaded through the state ([World]);
    - croniter and APScheduler, which are not part of the repository, are
      the interface [TriggerLib]. *)

From Stdlib Require Import ZArith Lia String Ascii List Bool Sorted.
From stdpp Require Import base tactics option list gmap strings pretty fin_maps
  relations.

Local Open Scope string_scope.
Local Open Scope Z_scope.

(* ===================================================================== *)
(** * Python values, exceptions and string helpers                        *)
(* ===================================================================== *)

(** Exceptions the modelled code can raise.  [OutsideModel] is not a
    Python exception: it marks a value whose run-time type differs from
    the annotation of the field that receives it.  Python would store it
    (a dataclass performs no run-time check); the typed record cannot. *)
Inductive exn :=
| ValueError (msg : string)
| TypeError (msg : string)
| KeyError (msg : string)
| IndexError (msg : string)
| AttributeError (msg : string)
| HTTPException (status_code : Z) (detail : string)
| OutsideModel (field : string).

Inductive result (A : Type) :=
| Ok (a : A)
| Raise (e : exn).
Arguments Ok {A} a.
Arguments Raise {A} e.

Definition bind_result {A B} (r : result A) (k : A -> result B) : result B :=
  match r with
  | Ok a => k a
  | Raise e => Raise e
  end.

Notation "x <-! r ; k" := (bind_result r (fun x => k))
  (at level 100, r at next level, right associativity).

Definition map_result {A B} (f : A -> B) (r : result A) : result B :=
  x <-! r; Ok (f x).

Definition of_option {A} (o : option A) (e : exn) : result A :=
  match o with
  | Some a => Ok a
  | None => Raise e
  end.

(** The exceptions that Python raises: all but the marker. *)
Definition python_exception (e : exn) : Prop :=
  match e with
  | OutsideModel _ => False
  | _ => True
  end.

(** What the model follows of a call: its value, or the exception that
    Python raises. *)
Definition in_model {A} (r : result A) : Prop :=
  match r with
  | Ok _ => True
  | Raise e => python_exception e
  end.

(** [str(e)] of an exception. *)
Definition exn_str (e : exn) : string :=
  match e with
  | ValueError m | TypeError m | KeyError m | IndexError m
  | AttributeError m | HTTPException _ m | OutsideModel m => m
  end.

Definition is_digit (c : ascii) : bool :=
  (48 <=? Z.of_nat (nat_of_ascii c)) && (Z.of_nat (nat_of_ascii c) <=? 57).

Definition digit_val (c : ascii) : Z := Z.of_nat (nat_of_ascii c) - 48.

Definition digit_char (d : Z) : ascii := ascii_of_nat (Z.to_nat (48 + d)).

(** Value of a run of decimal digits, most significant first. *)
Fixpoint digits_val (acc : Z) (s : string) : option Z :=
  match s with
  | EmptyString => Some acc
  | String c s' =>
      if is_digit c then digits_val (10 * acc + digit_val c) s' else None
  end.

Definition parse_digits (s : string) : option Z :=
  match s with
  | EmptyString => None
  | _ => digits_val 0 s
  end.

Definition is_space (c : ascii) : bool :=
  let n := nat_of_ascii c in
  (Nat.eqb n 32 || (Nat.leb 9 n && Nat.leb n 13))%bool.

Fixpoint lstrip (s : string) : string :=
  match s with
  | String c s' => if is_space c then lstrip s' else s
  | EmptyString => EmptyString
  end.

Fixpoint rstrip (s : string) : string :=
  match s with
  | EmptyString => EmptyString
  | String c s' =>
      match rstrip s' with
      | EmptyString => if is_space c then EmptyString else String c EmptyString
      | r => String c r
      end
  end.

(** [int(s)] on the ASCII decimal literals: surrounding white space, an
    optional sign, one or more digits.  (Digit-group underscores and
    non-ASCII digits, which [int] also accepts, are not modelled.) *)
Definition py_int (s : string) : option Z :=
  match rstrip (lstrip s) with
  | String "-" r => Z.opp <$> parse_digits r
  | String "+" r => parse_digits r
  | r => parse_digits r
  end.

(** [s.split(sep)] for a one-character separator. *)
Fixpoint split_on (sep : ascii) (s : string) : list string :=
  match s with
  | EmptyString => [EmptyString]
  | String c s' =>
      if Ascii.eqb c sep then EmptyString :: split_on sep s'
      else match split_on sep s' with
           | w :: ws => String c w :: ws
           | [] => [String c EmptyString]
           end
  end.

(** [str(n).zfill(w)] for [0 <= n < 10^w]: [w] decimal digits. *)
Fixpoint zfill (w : nat) (n : Z) : string :=
  match w with
  | O => EmptyString
  | S w' => String (digit_char ((n / 10 ^ Z.of_nat w') mod 10)) (zfill w' n)
  end.

(** [l[:n]], with Python's reading of a negative bound. *)
Definition py_slice_to {A} (l : list A) (n : Z) : list A :=
  if n <? 0 then take (Z.to_nat (Z.of_nat (length l) + n)) l
  else take (Z.to_nat n) l.

(* ===================================================================== *)
(** * [datetime]                                                          *)
(* ===================================================================== *)

Module datetime.

(** Microseconds since 1970-01-01T00:00:00. *)
Definition t := Z.

Definition usec_per_sec : Z := 1000000.
Definition usec_per_min : Z := 60 * usec_per_sec.
Definition usec_per_day : Z := 86400 * usec_per_sec.

(** Days since the epoch to (year, month, day), proleptic Gregorian. *)
Definition civil_from_days (days : Z) : Z * Z * Z :=
  let z := days + 719468 in
  let era := z / 146097 in
  let doe := z - era * 146097 in
  let yoe := (doe - doe / 1460 + doe / 36524 - doe / 146096) / 365 in
  let doy := doe - (365 * yoe + yoe / 4 - yoe / 100) in
  let mp := (5 * doy + 2) / 153 in
  let d := doy - (153 * mp + 2) / 5 + 1 in
  let m := if mp <? 10 then mp + 3 else mp - 9 in
  let y := yoe + era * 400 in
  (if m <=? 2 then y + 1 else y, m, d).

Definition days_from_civil (y m d : Z) : Z :=
  let y := if m <=? 2 then y - 1 else y in
  let era := y / 400 in
  let yoe := y - era * 400 in
  let mp := if 2 <? m then m - 3 else m + 9 in
  let doy := (153 * mp + 2) / 5 + d - 1 in
  let doe := yoe * 365 + yoe / 4 - yoe / 100 + doy in
  era * 146097 + doe - 719468.

Definition day_of (dt : t) : Z := dt / usec_per_day.
Definition usec_of_day (dt : t) : Z := dt mod usec_per_day.

Definition year (dt : t) : Z := (civil_from_days (day_of dt)).1.1.
Definition month (dt : t) : Z := (civil_from_days (day_of dt)).1.2.
Definition day (dt : t) : Z := (civil_from_days (day_of dt)).2.
Definition hour (dt : t) : Z := usec_of_day dt / (3600 * usec_per_sec).
Definition minute (dt : t) : Z := (usec_of_day dt / usec_per_min) mod 60.
Definition second (dt : t) : Z := (usec_of_day dt / usec_per_sec) mod 60.
Definition microsecond (dt : t) : Z := dt mod usec_per_sec.

(** [dt.weekday()]: Monday is 0 (1970-01-01 was a Thursday). *)
Definition weekday (dt : t) : Z := (day_of dt + 3) mod 7.

Definition make (y mo d h mi s us : Z) : t :=
  days_from_civil y mo d * usec_per_day
  + ((h * 60 + mi) * 60 + s) * usec_per_sec + us.

(** The instants that a [datetime] object can hold: those of the years
    [MINYEAR = 1] to [MAXYEAR = 9999]. *)
Definition representable (dt : t) : Prop := 1 <= year dt <= 9999.

(** [dt.isoformat()] of a representable instant, whose year has four
    digits.  (Of any other [dt], which no [datetime] object holds, the
    four digits are those of the year modulo 10000.) *)
Definition isoformat (dt : t) : string :=
  zfill 4 (year dt) +:+ "-" +:+ zfill 2 (month dt) +:+ "-"
  +:+ zfill 2 (day dt) +:+ "T" +:+ zfill 2 (hour dt) +:+ ":"
  +:+ zfill 2 (minute dt) +:+ ":" +:+ zfill 2 (second dt)
  +:+ (if microsecond dt =? 0 then "" else "." +:+ zfill 6 (microsecond dt)).

(** [dt.strftime('%Y%m%d_%H%M%S')]: resolution of one second. *)
Definition strftime_Ymd_HMS (dt : t) : string :=
  zfill 4 (year dt) +:+ zfill 2 (month dt) +:+ zfill 2 (day dt) +:+ "_"
  +:+ zfill 2 (hour dt) +:+ zfill 2 (minute dt) +:+ zfill 2 (second dt).

Definition field_at (s : string) (pos len : nat) : option Z :=
  parse_digits (String.substring pos len s).

Definition char_at (s : string) (pos : nat) : option ascii :=
  String.get pos s.

Definition is_leap (y : Z) : bool :=
  ((y mod 4 =? 0) && negb (y mod 100 =? 0)) || (y mod 400 =? 0).

Definition days_in_month (y m : Z) : Z :=
  if m =? 2 then (if is_leap y then 29 else 28)
  else if (m =? 4) || (m =? 6) || (m =? 9) || (m =? 11) then 30 else 31.

Definition checked (y mo d h mi s us : Z) : option t :=
  if (1 <=? y) && (y <=? 9999) && (1 <=? mo) && (mo <=? 12)
     && (1 <=? d) && (d <=? days_in_month y mo)
     && (h <? 24) && (mi <? 60) && (s <? 60)
  then Some (make y mo d h mi s us) else None.

(** [datetime.fromisoformat(s)] on the naive forms
    [YYYY-MM-DD], [YYYY-MM-DD?HH:MM], [YYYY-MM-DD?HH:MM:SS] and
    [YYYY-MM-DD?HH:MM:SS.ffffff] ([?] is any one character, as
    Python's separator); [None] stands for [ValueError]. *)
Definition fromisoformat (s : string) : option t :=
  y ← field_at s 0 4; mo ← field_at s 5 2; d ← field_at s 8 2;
  if negb (bool_decide (char_at s 4 = Some "-"%char
                        ∧ char_at s 7 = Some "-"%char)) then None
  else
    let n := String.length s in
    if Nat.eqb n 10 then checked y mo d 0 0 0 0
    else
      h ← field_at s 11 2; mi ← field_at s 14 2;
      if negb (bool_decide (char_at s 13 = Some ":"%char)) then None
      else if Nat.eqb n 16 then checked y mo d h mi 0 0
      else
        sec ← field_at s 17 2;
        if negb (bool_decide (char_at s 16 = Some ":"%char)) then None
        else if Nat.eqb n 19 then checked y mo d h mi sec 0
        else
          us ← field_at s 20 6;
          if bool_decide (char_at s 19 = Some "."%char) && Nat.eqb n 26
          then checked y mo d h mi sec us else None.

End datetime.

(* ===================================================================== *)
(** * Enumerations                                                        *)
(* ===================================================================== *)

(** [class ScheduleType(str, Enum)]. *)
Inductive ScheduleType := CRON | INTERVAL | DAILY | WEEKLY | MONTHLY | ONCE.

(** [class ScheduleStatus(str, Enum)]. *)
Inductive ScheduleStatus := ACTIVE | PAUSED | DISABLED.

#[global] Instance ScheduleType_eq_dec : EqDecision ScheduleType.
Proof. solve_decision. Defined.

#[global] Instance ScheduleStatus_eq_dec : EqDecision ScheduleStatus.
Proof. solve_decision. Defined.

Definition ScheduleType_value (t : ScheduleType) : string :=
  match t with
  | CRON => "cron"
  | INTERVAL => "interval"
  | DAILY => "daily"
  | WEEKLY => "weekly"
  | MONTHLY => "monthly"
  | ONCE => "once"
  end.

Definition ScheduleStatus_value (t : ScheduleStatus) : string :=
  match t with
  | ACTIVE => "active"
  | PAUSED => "paused"
  | DISABLED => "disabled"
  end.

(** [ScheduleType(s)]: the member whose value is [s], else [ValueError]. *)
Definition ScheduleType_of (s : string) : result ScheduleType :=
  of_option
    (List.find (fun t => String.eqb (ScheduleType_value t) s)
       [CRON; INTERVAL; DAILY; WEEKLY; MONTHLY; ONCE])
    (ValueError ("'" +:+ s +:+ "' is not a valid ScheduleType")).

(** [ScheduleStatus(s)]. *)
Definition ScheduleStatus_of (s : string) : result ScheduleStatus :=
  of_option
    (List.find (fun t => String.eqb (ScheduleStatus_value t) s)
       [ACTIVE; PAUSED; DISABLED])
    (ValueError ("'" +:+ s +:+ "' is not a valid ScheduleStatus")).

(** The values a schedule dictionary holds: what JSON can carry, and the
    two enumerations (whose members are also [str] instances).  A
    dictionary is the list of its items, in insertion order. *)
#[warnings="-register-all"]
Inductive value :=
| VNone
| VBool (b : bool)
| VInt (n : Z)
| VStr (s : string)
| VList (l : list value)
| VType (t : ScheduleType)
| VStatus (t : ScheduleStatus)
| VDict (d : list (string * value)).

(** What [json.dump] followed by [json.load] makes of a value: a member
    of a [str]-based enumeration is written as its string value and read
    back as a plain string; everything else comes back as it was. *)
Fixpoint json_roundtrip (v : value) : value :=
  match v with
  | VType t => VStr (ScheduleType_value t)
  | VStatus t => VStr (ScheduleStatus_value t)
  | VList l => VList (List.map json_roundtrip l)
  | VDict d => VDict (List.map (fun kv => (kv.1, json_roundtrip kv.2)) d)
  | _ => v
  end.

(** [type(v).__name__]. *)
Definition type_name (v : value) : string :=
  match v with
  | VNone => "NoneType"
  | VBool _ => "bool"
  | VInt _ => "int"
  | VStr _ => "str"
  | VList _ => "list"
  | VType _ => "ScheduleType"
  | VStatus _ => "ScheduleStatus"
  | VDict _ => "dict"
  end.

(** The string behind a value for which [isinstance(v, str)] holds: a
    plain string or a member of one of the two enumerations. *)
Definition str_of (v : value) : option string :=
  match v with
  | VStr s => Some s
  | VType t => Some (ScheduleType_value t)
  | VStatus t => Some (ScheduleStatus_value t)
  | _ => None
  end.

Definition as_str (v : value) : option string :=
  match v with VStr s => Some s | _ => None end.

Definition as_int (v : value) : option Z :=
  match v with VInt n => Some n | _ => None end.

Definition as_bool (v : value) : option bool :=
  match v with VBool b => Some b | _ => None end.

Definition as_schedule_type (v : value) : option ScheduleType :=
  match v with VType t => Some t | _ => None end.

Definition as_status (v : value) : option ScheduleStatus :=
  match v with VStatus t => Some t | _ => None end.

Definition as_list {A} (f : value -> option A) (v : value) : option (list A) :=
  match v with VList l => mapM f l | _ => None end.

Definition as_optional {A} (f : value -> option A) (v : value)
  : option (option A) :=
  match v with VNone => Some None | _ => Some <$> f v end.

Definition as_str_list := as_list as_str.
Definition as_opt_str := as_optional as_str.
Definition as_opt_int := as_optional as_int.
Definition as_opt_int_list := as_optional (as_list as_int).

Definition of_str_list (l : list string) : value := VList (VStr <$> l).

Definition of_optional {A} (f : A -> value) (o : option A) : value :=
  match o with Some a => f a | None => VNone end.

Definition of_opt_str := of_optional VStr.
Definition of_opt_int := of_optional VInt.
Definition of_opt_int_list := of_optional (fun l => VList (VInt <$> l)).

(* ===================================================================== *)
(** * [ScheduleConfig]                                                    *)
(* ===================================================================== *)

Module ScheduleConfig.

(** The dataclass, fields in declaration order. *)
Record t := mk {
  id : string;
  name : string;
  description : string;
  backup_types : list string;
  schedule_type : ScheduleType;
  status : ScheduleStatus;
  cron_expression : option string;
  interval_minutes : option Z;
  time_of_day : option string;
  days_of_week : option (list Z);
  days_of_month : option (list Z);
  run_date : option string;
  created_at : string;
  updated_at : string;
  last_run : option string;
  next_run : option string;
  run_count : Z;
  last_status : option string;
  retry_on_failure : bool;
  max_retries : Z;
  notification_email : option string;
  sequential_execution : bool
}.

(** The attribute names of the dataclass. *)
Inductive Field :=
| F_id
| F_name
| F_description
| F_backup_types
| F_schedule_type
| F_status
| F_cron_expression
| F_interval_minutes
| F_time_of_day
| F_days_of_week
| F_days_of_month
| F_run_date
| F_created_at
| F_updated_at
| F_last_run
| F_next_run
| F_run_count
| F_last_status
| F_retry_on_failure
| F_max_retries
| F_notification_email
| F_sequential_execution.

#[global] Instance Field_eq_dec : EqDecision Field.
Proof. solve_decision. Defined.

Definition fields : list Field :=
  [F_id; F_name; F_description; F_backup_types;
   F_schedule_type; F_status; F_cron_expression; F_interval_minutes;
   F_time_of_day; F_days_of_week; F_days_of_month; F_run_date;
   F_created_at; F_updated_at; F_last_run; F_next_run;
   F_run_count; F_last_status; F_retry_on_failure; F_max_retries;
   F_notification_email; F_sequential_execution].

Definition field_name (f : Field) : string :=
  match f with
  | F_id => "id"
  | F_name => "name"
  | F_description => "description"
  | F_backup_types => "backup_types"
  | F_schedule_type => "schedule_type"
  | F_status => "status"
  | F_cron_expression => "cron_expression"
  | F_interval_minutes => "interval_minutes"
  | F_time_of_day => "time_of_day"
  | F_days_of_week => "days_of_week"
  | F_days_of_month => "days_of_month"
  | F_run_date => "run_date"
  | F_created_at => "created_at"
  | F_updated_at => "updated_at"
  | F_last_run => "last_run"
  | F_next_run => "next_run"
  | F_run_count => "run_count"
  | F_last_status => "last_status"
  | F_retry_on_failure => "retry_on_failure"
  | F_max_retries => "max_retries"
  | F_notification_email => "notification_email"
  | F_sequential_execution => "sequential_execution"
  end.

(** [getattr(schedule, f)], as a dynamic value. *)
Definition getattr (f : Field) (s : t) : value :=
  match f with
  | F_id => VStr (id s)
  | F_name => VStr (name s)
  | F_description => VStr (description s)
  | F_backup_types => of_str_list (backup_types s)
  | F_schedule_type => VType (schedule_type s)
  | F_status => VStatus (status s)
  | F_cron_expression => of_opt_str (cron_expression s)
  | F_interval_minutes => of_opt_int (interval_minutes s)
  | F_time_of_day => of_opt_str (time_of_day s)
  | F_days_of_week => of_opt_int_list (days_of_week s)
  | F_days_of_month => of_opt_int_list (days_of_month s)
  | F_run_date => of_opt_str (run_date s)
  | F_created_at => VStr (created_at s)
  | F_updated_at => VStr (updated_at s)
  | F_last_run => of_opt_str (last_run s)
  | F_next_run => of_opt_str (next_run s)
  | F_run_count => VInt (run_count s)
  | F_last_status => of_opt_str (last_status s)
  | F_retry_on_failure => VBool (retry_on_failure s)
  | F_max_retries => VInt (max_retries s)
  | F_notification_email => of_opt_str (notification_email s)
  | F_sequential_execution => VBool (sequential_execution s)
  end.

(** One assignment [schedule.f = v] per field. *)
Definition set_id (v : string) (s : t) : t :=
  let '(mk _ x1 x2 x3 x4 x5 x6 x7 x8 x9 x10 x11 x12 x13 x14 x15 x16 x17
    x18 x19 x20 x21) := s in
  mk v x1 x2 x3 x4 x5 x6 x7 x8 x9 x10 x11 x12 x13 x14 x15 x16 x17 x18 x19
    x20 x21.

Definition set_name (v : string) (s : t) : t :=
  let '(mk x0 _ x2 x3 x4 x5 x6 x7 x8 x9 x10 x11 x12 x13 x14 x15 x16 x17
    x18 x19 x20 x21) := s in
  mk x0 v x2 x3 x4 x5 x6 x7 x8 x9 x10 x11 x12 x13 x14 x15 x16 x17 x18 x19
    x20 x21.

Definition set_description (v : string) (s : t) : t :=
  let '(mk x0 x1 _ x3 x4 x5 x6 x7 x8 x9 x10 x11 x12 x13 x14 x15 x16 x17
    x18 x19 x20 x21) := s in
  mk x0 x1 v x3 x4 x5 x6 x7 x8 x9 x10 x11 x12 x13 x14 x15 x16 x17 x18 x19
    x20 x21.

Definition set_backup_types (v : list string) (s : t) : t :=
  let '(mk x0 x1 x2 _ x4 x5 x6 x7 x8 x9 x10 x11 x12 x13 x14 x15 x16 x17
    x18 x19 x20 x21) := s in
  mk x0 x1 x2 v x4 x5 x6 x7 x8 x9 x10 x11 x12 x13 x14 x15 x16 x17 x18 x19
    x20 x21.

Definition set_schedule_type (v : ScheduleType) (s : t) : t :=
  let '(mk x0 x1 x2 x3 _ x5 x6 x7 x8 x9 x10 x11 x12 x13 x14 x15 x16 x17
    x18 x19 x20 x21) := s in
  mk x0 x1 x2 x3 v x5 x6 x7 x8 x9 x10 x11 x12 x13 x14 x15 x16 x17 x18 x19
    x20 x21.

Definition set_status (v : ScheduleStatus) (s : t) : t :=
  let '(mk x0 x1 x2 x3 x4 _ x6 x7 x8 x9 x10 x11 x12 x13 x14 x15 x16 x17
    x18 x19 x20 x21) := s in
  mk x0 x1 x2 x3 x4 v x6 x7 x8 x9 x10 x11 x12 x13 x14 x15 x16 x17 x18 x19
    x20 x21.

Definition set_cron_expression (v : option string) (s : t) : t :=
  let '(mk x0 x1 x2 x3 x4 x5 _ x7 x8 x9 x10 x11 x12 x13 x14 x15 x16 x17
    x18 x19 x20 x21) := s in
  mk x0 x1 x2 x3 x4 x5 v x7 x8 x9 x10 x11 x12 x13 x14 x15 x16 x17 x18 x19
    x20 x21.

Definition set_interval_minutes (v : option Z) (s : t) : t :=
  let '(mk x0 x1 x2 x3 x4 x5 x6 _ x8 x9 x10 x11 x12 x13 x14 x15 x16 x17
    x18 x19 x20 x21) := s in
  mk x0 x1 x2 x3 x4 x5 x6 v x8 x9 x10 x11 x12 x13 x14 x15 x16 x17 x18 x19
    x20 x21.

Definition set_time_of_day (v : option string) (s : t) : t :=
  let '(mk x0 x1 x2 x3 x4 x5 x6 x7 _ x9 x10 x11 x12 x13 x14 x15 x16 x17
    x18 x19 x20 x21) := s in
  mk x0 x1 x2 x3 x4 x5 x6 x7 v x9 x10 x11 x12 x13 x14 x15 x16 x17 x18 x19
    x20 x21.

Definition set_days_of_week (v : option (list Z)) (s : t) : t :=
  let '(mk x0 x1 x2 x3 x4 x5 x6 x7 x8 _ x10 x11 x12 x13 x14 x15 x16 x17
    x18 x19 x20 x21) := s in
  mk x0 x1 x2 x3 x4 x5 x6 x7 x8 v x10 x11 x12 x13 x14 x15 x16 x17 x18 x19
    x20 x21.

Definition set_days_of_month (v : option (list Z)) (s : t) : t :=
  let '(mk x0 x1 x2 x3 x4 x5 x6 x7 x8 x9 _ x11 x12 x13 x14 x15 x16 x17 x18
    x19 x20 x21) := s in
  mk x0 x1 x2 x3 x4 x5 x6 x7 x8 x9 v x11 x12 x13 x14 x15 x16 x17 x18 x19
    x20 x21.

Definition set_run_date (v : option string) (s : t) : t :=
  let '(mk x0 x1 x2 x3 x4 x5 x6 x7 x8 x9 x10 _ x12 x13 x14 x15 x16 x17 x18
    x19 x20 x21) := s in
  mk x0 x1 x2 x3 x4 x5 x6 x7 x8 x9 x10 v x12 x13 x14 x15 x16 x17 x18 x19
    x20 x21.

Definition set_created_at (v : string) (s : t) : t :=
  let '(mk x0 x1 x2 x3 x4 x5 x6 x7 x8 x9 x10 x11 _ x13 x14 x15 x16 x17 x18
    x19 x20 x21) := s in
  mk x0 x1 x2 x3 x4 x5 x6 x7 x8 x9 x10 x11 v x13 x14 x15 x16 x17 x18 x19
    x20 x21.

Definition set_updated_at (v : string) (s : t) : t :=
  let '(mk x0 x1 x2 x3 x4 x5 x6 x7 x8 x9 x10 x11 x12 _ x14 x15 x16 x17 x18
    x19 x20 x21) := s in
  mk x0 x1 x2 x3 x4 x5 x6 x7 x8 x9 x10 x11 x12 v x14 x15 x16 x17 x18 x19
    x20 x21.

Definition set_last_run (v : option string) (s : t) : t :=
  let '(mk x0 x1 x2 x3 x4 x5 x6 x7 x8 x9 x10 x11 x12 x13 _ x15 x16 x17 x18
    x19 x20 x21) := s in
  mk x0 x1 x2 x3 x4 x5 x6 x7 x8 x9 x10 x11 x12 x13 v x15 x16 x17 x18 x19
    x20 x21.

Definition set_next_run (v : option string) (s : t) : t :=
  let '(mk x0 x1 x2 x3 x4 x5 x6 x7 x8 x9 x10 x11 x12 x13 x14 _ x16 x17 x18
    x19 x20 x21) := s in
  mk x0 x1 x2 x3 x4 x5 x6 x7 x8 x9 x10 x11 x12 x13 x14 v x16 x17 x18 x19
    x20 x21.

Definition set_run_count (v : Z) (s : t) : t :=
  let '(mk x0 x1 x2 x3 x4 x5 x6 x7 x8 x9 x10 x11 x12 x13 x14 x15 _ x17 x18
    x19 x20 x21) := s in
  mk x0 x1 x2 x3 x4 x5 x6 x7 x8 x9 x10 x11 x12 x13 x14 x15 v x17 x18 x19
    x20 x21.

Definition set_last_status (v : option string) (s : t) : t :=
  let '(mk x0 x1 x2 x3 x4 x5 x6 x7 x8 x9 x10 x11 x12 x13 x14 x15 x16 _ x18
    x19 x20 x21) := s in
  mk x0 x1 x2 x3 x4 x5 x6 x7 x8 x9 x10 x11 x12 x13 x14 x15 x16 v x18 x19
    x20 x21.

Definition set_retry_on_failure (v : bool) (s : t) : t :=
  let '(mk x0 x1 x2 x3 x4 x5 x6 x7 x8 x9 x10 x11 x12 x13 x14 x15 x16 x17 _
    x19 x20 x21) := s in
  mk x0 x1 x2 x3 x4 x5 x6 x7 x8 x9 x10 x11 x12 x13 x14 x15 x16 x17 v x19
    x20 x21.

Definition set_max_retries (v : Z) (s : t) : t :=
  let '(mk x0 x1 x2 x3 x4 x5 x6 x7 x8 x9 x10 x11 x12 x13 x14 x15 x16 x17
    x18 _ x20 x21) := s in
  mk x0 x1 x2 x3 x4 x5 x6 x7 x8 x9 x10 x11 x12 x13 x14 x15 x16 x17 x18 v
    x20 x21.

Definition set_notification_email (v : option string) (s : t) : t :=
  let '(mk x0 x1 x2 x3 x4 x5 x6 x7 x8 x9 x10 x11 x12 x13 x14 x15 x16 x17
    x18 x19 _ x21) := s in
  mk x0 x1 x2 x3 x4 x5 x6 x7 x8 x9 x10 x11 x12 x13 x14 x15 x16 x17 x18 x19
    v x21.

Definition set_sequential_execution (v : bool) (s : t) : t :=
  let '(mk x0 x1 x2 x3 x4 x5 x6 x7 x8 x9 x10 x11 x12 x13 x14 x15 x16 x17
    x18 x19 x20 _) := s in
  mk x0 x1 x2 x3 x4 x5 x6 x7 x8 x9 x10 x11 x12 x13 x14 x15 x16 x17 x18 x19
    x20 v.

(** [setattr(schedule, f, v)] for a value of the annotated type of [f];
    [None] for any other value (see [OutsideModel]). *)
Definition setattr (f : Field) (v : value) (s : t) : option t :=
  match f with
  | F_id => x ← as_str v; Some (set_id x s)
  | F_name => x ← as_str v; Some (set_name x s)
  | F_description => x ← as_str v; Some (set_description x s)
  | F_backup_types => x ← as_str_list v; Some (set_backup_types x s)
  | F_schedule_type => x ← as_schedule_type v; Some (set_schedule_type x s)
  | F_status => x ← as_status v; Some (set_status x s)
  | F_cron_expression => x ← as_opt_str v; Some (set_cron_expression x s)
  | F_interval_minutes => x ← as_opt_int v; Some (set_interval_minutes x s)
  | F_time_of_day => x ← as_opt_str v; Some (set_time_of_day x s)
  | F_days_of_week => x ← as_opt_int_list v; Some (set_days_of_week x s)
  | F_days_of_month => x ← as_opt_int_list v; Some (set_days_of_month x s)
  | F_run_date => x ← as_opt_str v; Some (set_run_date x s)
  | F_created_at => x ← as_str v; Some (set_created_at x s)
  | F_updated_at => x ← as_str v; Some (set_updated_at x s)
  | F_last_run => x ← as_opt_str v; Some (set_last_run x s)
  | F_next_run => x ← as_opt_str v; Some (set_next_run x s)
  | F_run_count => x ← as_int v; Some (set_run_count x s)
  | F_last_status => x ← as_opt_str v; Some (set_last_status x s)
  | F_retry_on_failure => x ← as_bool v; Some (set_retry_on_failure x s)
  | F_max_retries => x ← as_int v; Some (set_max_retries x s)
  | F_notification_email => x ← as_opt_str v; Some (set_notification_email x s)
  | F_sequential_execution => x ← as_bool v; Some (set_sequential_execution x s)
  end.

(** [hasattr(schedule, key)], restricted to the dataclass fields: the
    field that [key] names, if any. *)
Definition hasattr (key : string) : option Field :=
  List.find (fun f => String.eqb (field_name f) key) fields.

(** The names with two leading and two trailing underscores. *)
Definition dunder (key : string) : bool :=
  String.prefix "__" key
  && String.eqb (String.substring (String.length key - 2) 2 key) "__".

(** The names other than those of the fields of which
    [hasattr(schedule, key)] can hold: the two methods of the class, and
    the names with two leading and two trailing underscores, which are
    those of everything else that the dataclass and [object] define
    ([__dict__], [__class__], [__doc__], [__init__], [__eq__],
    [__dataclass_fields__] and so on; which of them there are depends
    on the interpreter). *)
Definition other_attribute (key : string) : bool :=
  String.eqb key "to_dict" || String.eqb key "from_dict" || dunder key.

(** [vars(schedule).items()]: the attributes of the instance. *)
Definition items (s : t) : list (string * value) :=
  (fun f => (field_name f, getattr f s)) <$> fields.

(** The object whose [__dict__] is the dictionary of the items [d],
    when these are the fields, each once and with a value of its
    annotated type: every field of the blank record is assigned.
    [None] for any other dictionary (see [OutsideModel]). *)
Definition instance_of (d : list (string * value)) : option t :=
  if bool_decide (d.*1 ≡ₚ field_name <$> fields)
  then
    foldl (fun acc f =>
             s ← acc;
             v ← (list_to_map d : gmap string value) !! field_name f;
             setattr f v s)
          (Some {| id := ""; name := ""; description := ""; backup_types := [];
                   schedule_type := CRON; status := ACTIVE;
                   cron_expression := None; interval_minutes := None;
                   time_of_day := None; days_of_week := None;
                   days_of_month := None; run_date := None;
                   created_at := ""; updated_at := "";
                   last_run := None; next_run := None; run_count := 0;
                   last_status := None; retry_on_failure := true;
                   max_retries := 3; notification_email := None;
                   sequential_execution := true |})
          fields
  else None.

(** [asdict(self)]: every field under its name.  Enumeration members
    stay members. *)
Definition to_dict (s : t) : gmap string value :=
  list_to_map ((fun f => (field_name f, getattr f s)) <$> fields).

(** The fields without a default, which the constructor requires. *)
Definition required : list Field :=
  [F_id; F_name; F_description; F_backup_types; F_schedule_type].

(** The defaults of the dataclass.  [created] and [updated] are the two
    readings of [datetime.now()] of the [default_factory] fields; the
    required fields are placeholders, always overwritten by [cls]. *)
Definition defaults (created updated : datetime.t) : t :=
  {| id := ""; name := ""; description := ""; backup_types := [];
     schedule_type := CRON; status := ACTIVE;
     cron_expression := None; interval_minutes := None;
     time_of_day := None; days_of_week := None; days_of_month := None;
     run_date := None;
     created_at := datetime.isoformat created;
     updated_at := datetime.isoformat updated;
     last_run := None; next_run := None; run_count := 0;
     last_status := None; retry_on_failure := true; max_retries := 3;
     notification_email := None; sequential_execution := true |}.

(** The call of the generated [__init__] with the entries of [data] as
    keyword arguments. *)
Definition cls (created updated : datetime.t) (data : gmap string value)
  : result t :=
  if negb (bool_decide (map_Forall (fun k _ => is_Some (hasattr k)) data))
  then Raise (TypeError "__init__() got an unexpected keyword argument")
  else if negb (forallb (fun f => bool_decide (is_Some (data !! field_name f)))
                  required)
  then Raise (TypeError "__init__() missing required positional arguments")
  else
    foldl (fun acc f =>
             s <-! acc;
             match data !! field_name f with
             | Some v => of_option (setattr f v s) (OutsideModel (field_name f))
             | None => Ok s
             end)
          (Ok (defaults created updated)) fields.

(** [ScheduleType(v)] and [ScheduleStatus(v)] as [from_dict] and
    [update_schedule] call them, after [isinstance(v, str)] held. *)
Definition to_schedule_type (v : string) : result value :=
  t <-! ScheduleType_of v; Ok (VType t).

Definition to_status (v : string) : result value :=
  t <-! ScheduleStatus_of v; Ok (VStatus t).

(** [if isinstance(data.get(key), str): data[key] = E(data[key])]. *)
Definition convert_enum (key : string) (E : string -> result value)
    (data : gmap string value) : result (gmap string value) :=
  match data !! key ≫= str_of with
  | Some s => v <-! E s; Ok (<[key := v]> data)
  | None => Ok data
  end.

(** [ScheduleConfig.from_dict(data)]. *)
Definition from_dict (created updated : datetime.t)
    (data : gmap string value) : result t :=
  data <-! convert_enum "schedule_type" to_schedule_type data;
  data <-! convert_enum "status" to_status data;
  cls created updated data.

End ScheduleConfig.

(* ===================================================================== *)
(** * The environment                                                     *)
(* ===================================================================== *)

(** How an awaited call ends: it returns, it raises an [Exception], or a
    [BaseException] that [except Exception] does not catch travels
    through it (the cancellation of the task). *)
Inductive Outcome :=
| Returned
| Raised (e : exn)
| Cancelled.

(** The persisted job set as [_load_schedules] finds it.  [Document]
    holds what [json.load] returns: the records under ['schedules']
    (an absent key reads as the empty list) and the stamp under
    ['updated_at']. *)
Inductive File :=
| Missing
| Unreadable (e : exn)
| Document (schedules : list (gmap string value)) (updated_at : string).

(** The records of the module logger, by level.  The messages are kept
    in ASCII: the accents and pictographs of the source are left out. *)
Inductive LogRecord :=
| info (msg : string)
| warning (msg : string)
| error (msg : string).

(** What the code observes of the world: the successive readings of
    [datetime.now()], the successive [str(uuid4())], the configuration
    file, the log, and the backup-callback invocations started so far
    (newest first). *)
Record World := mkWorld {
  clock : nat -> datetime.t;
  reads : nat;
  uuids : nat -> string;
  draws : nat;
  file : File;
  writable : bool;
  log : list LogRecord;
  calls : list (string * string)
}.

Definition M (A : Type) : Type := World -> A * World.

Definition ret {A} (a : A) : M A := fun w => (a, w).

Definition bindM {A B} (c : M A) (k : A -> M B) : M B :=
  fun w => let '(a, w') := c w in k a w'.

Notation "'let*' x := c 'in' k" := (bindM c (fun x => k))
  (at level 10, x pattern, c at level 100, k at level 200).

Notation "c ;;; k" := (bindM c (fun _ => k))
  (at level 100, k at level 200, right associativity).

(** [datetime.now()]. *)
Definition now : M datetime.t := fun w =>
  (clock w (reads w),
   mkWorld (clock w) (S (reads w)) (uuids w) (draws w) (file w)
           (writable w) (log w) (calls w)).

(** [str(uuid4())]. *)
Definition uuid4 : M string := fun w =>
  (uuids w (draws w),
   mkWorld (clock w) (reads w) (uuids w) (S (draws w)) (file w)
           (writable w) (log w) (calls w)).

Definition logger (r : LogRecord) : M unit := fun w =>
  (tt, mkWorld (clock w) (reads w) (uuids w) (draws w) (file w)
               (writable w) (r :: log w) (calls w)).

Definition read_file : M File := fun w => (file w, w).

(** [n] further readings of the clock, their values unused here. *)
Definition tick (n : nat) : M unit := fun w =>
  (tt, mkWorld (clock w) (n + reads w) (uuids w) (draws w) (file w)
               (writable w) (log w) (calls w)).

(** [open(path, 'w')] and [json.dump]: [false] when the write raises. *)
Definition write_file (f : File) : M bool := fun w =>
  if writable w
  then (true, mkWorld (clock w) (reads w) (uuids w) (draws w) f
                      (writable w) (log w) (calls w))
  else (false, w).

(** The start of [await self.backup_callback(backup_type, schedule_id)]. *)
Definition record_call (backup_type schedule_id : string) : M unit := fun w =>
  (tt, mkWorld (clock w) (reads w) (uuids w) (draws w) (file w)
               (writable w) (log w) ((backup_type, schedule_id) :: calls w)).

(* ===================================================================== *)
(** * [ScheduleHistory]                                                   *)
(* ===================================================================== *)

Module ScheduleHistory.

(** One entry dictionary; [duration_seconds] is kept as the exact count
    of microseconds that [total_seconds()] divides by 10^6. *)
Record Entry := mkEntry {
  e_id : string;
  e_schedule_id : string;
  e_schedule_name : string;
  e_backup_types : list string;
  e_status : string;
  e_duration_seconds : Z;
  e_message : string;
  e_timestamp : string
}.

Record t := mk {
  max_entries : Z;
  entries : list Entry
}.

(** [__init__(self, max_entries=100)]. *)
Definition init (max_entries : Z) : t := mk max_entries [].

(** [add]: the entry goes to the head, then the list is cut to
    [max_entries]. *)
Definition add (schedule_id schedule_name : string)
    (backup_types : list string) (status : string) (duration_seconds : Z)
    (message : string) (self : t) : M t :=
  let* u := uuid4 in
  let* ts := now in
  let entry := mkEntry (String.substring 0 8 u) schedule_id schedule_name
                 backup_types status duration_seconds message
                 (datetime.isoformat ts) in
  let entries1 := entry :: entries self in
  if max_entries self <? Z.of_nat (length entries1)
  then ret (mk (max_entries self) (py_slice_to entries1 (max_entries self)))
  else ret (mk (max_entries self) entries1).

(** The arguments of one call of [add], and a sequence of calls. *)
Definition Args : Type := string * string * list string * string * Z * string.

Definition add_args (a : Args) (self : t) : M t :=
  let '(schedule_id, schedule_name, backup_types, status, duration, message) := a in
  add schedule_id schedule_name backup_types status duration message self.

Fixpoint add_all (calls : list Args) (self : t) : M t :=
  match calls with
  | [] => ret self
  | a :: rest => let* self := add_args a self in add_all rest self
  end.

(** [get_recent(limit)]. *)
Definition get_recent (limit : Z) (self : t) : list Entry :=
  py_slice_to (entries self) limit.

(** [get_by_schedule(schedule_id, limit)]. *)
Definition get_by_schedule (schedule_id : string) (limit : Z) (self : t)
  : list Entry :=
  py_slice_to
    (List.filter (fun e => String.eqb (e_schedule_id e) schedule_id)
       (entries self))
    limit.

End ScheduleHistory.

(* ===================================================================== *)
(** * croniter and APScheduler                                            *)
(* ===================================================================== *)

(** A trigger object, as the arguments [_get_trigger] builds it from. *)
Inductive Trigger :=
| CronTrigger_from_crontab (expr : option string)
| IntervalTrigger (minutes : option Z)
| CronTrigger (day_of_week day : option string) (hour minute : Z)
| DateTrigger (run_date : datetime.t).

(** The two scheduling libraries, which are not part of the repository:
    - [croniter_get_next expr start] is
      [croniter(expr, start).get_next(datetime)];
    - [trigger_init t] is the constructor call that builds [t], which
      raises on arguments it rejects;
    - [get_next_fire_time t now] is [t.get_next_fire_time(None, now)]. *)
Class TriggerLib := {
  croniter_get_next : option string -> datetime.t -> result datetime.t;
  trigger_init : Trigger -> result unit;
  get_next_fire_time : Trigger -> datetime.t -> result (option datetime.t)
}.

(* ===================================================================== *)
(** * [BackupScheduler]                                                   *)
(* ===================================================================== *)

Module BackupScheduler.
Import ScheduleConfig.

(** The injected [backup_callback(backup_type, schedule_id)]: how its
    invocation ends, which may depend on everything observable when it
    does. *)
Definition Callback : Type := World -> string -> string -> Outcome.

(** The APScheduler instance: whether it runs, and its job store, each
    job with its trigger and its [next_run_time]. *)
Record AsyncIOScheduler := mkScheduler {
  running : bool;
  jobs : gmap string (Trigger * option datetime.t)
}.

(** The attributes of a [BackupScheduler].  ([config_file] is a path;
    what it names is [file] of the [World].) *)
Record t := mk {
  backup_callback : option Callback;
  schedules : gmap string ScheduleConfig.t;
  scheduler : AsyncIOScheduler;
  history : ScheduleHistory.t;
  _running_backup : bool
}.

Definition set_schedules (m : gmap string ScheduleConfig.t) (self : t) : t :=
  mk (backup_callback self) m (scheduler self) (history self)
     (_running_backup self).

Definition set_scheduler (a : AsyncIOScheduler) (self : t) : t :=
  mk (backup_callback self) (schedules self) a (history self)
     (_running_backup self).

Definition set_history (h : ScheduleHistory.t) (self : t) : t :=
  mk (backup_callback self) (schedules self) (scheduler self) h
     (_running_backup self).

Definition set_running_backup (b : bool) (self : t) : t :=
  mk (backup_callback self) (schedules self) (scheduler self)
     (history self) b.

(** The state of the schedule object behind a reference taken under
    [schedule_id]: the entry of the store, which is that same object
    for as long as it is stored; [seen], its state when the reference
    was last used, once it has been deleted. *)
Definition deref (self : t) (schedule_id : string) (seen : ScheduleConfig.t)
  : ScheduleConfig.t :=
  default seen (schedules self !! schedule_id).

(** Assignments to the attributes of that object, seen through the
    store. *)
Definition store (schedule_id : string) (o : ScheduleConfig.t) (self : t) : t :=
  set_schedules (alter (fun _ => o) schedule_id (schedules self)) self.

Section WithTriggers.
Context `{TriggerLib}.

(** [hour, minute = map(int, schedule.time_of_day.split(':'))]. *)
Definition hour_minute (time_of_day : option string) : result (Z * Z) :=
  match time_of_day with
  | None => Raise (AttributeError "'NoneType' object has no attribute 'split'")
  | Some s =>
      match split_on ":" s with
      | [h; m] =>
          match py_int h, py_int m with
          | Some h, Some m => Ok (h, m)
          | _, _ => Raise (ValueError "invalid literal for int() with base 10")
          end
      | _ => Raise (ValueError "wrong number of values to unpack")
      end
  end.

(** [','.join(str(d) for d in days)]. *)
Definition join_days (days : option (list Z)) : result string :=
  match days with
  | None => Raise (TypeError "'NoneType' object is not iterable")
  | Some l => Ok (String.concat "," (pretty <$> l))
  end.

(** The call of a trigger constructor. *)
Definition construct (trigger : Trigger) : result Trigger :=
  _ <-! trigger_init trigger; Ok trigger.

(** [_get_trigger].  (Its closing [raise ValueError] for an unsupported
    type is out of reach of the six members.) *)
Definition _get_trigger (schedule : ScheduleConfig.t) : result Trigger :=
  match schedule_type schedule with
  | CRON => construct (CronTrigger_from_crontab (cron_expression schedule))
  | INTERVAL => construct (IntervalTrigger (interval_minutes schedule))
  | DAILY =>
      hm <-! hour_minute (time_of_day schedule);
      construct (CronTrigger None None hm.1 hm.2)
  | WEEKLY =>
      hm <-! hour_minute (time_of_day schedule);
      days <-! join_days (days_of_week schedule);
      construct (CronTrigger (Some days) None hm.1 hm.2)
  | MONTHLY =>
      hm <-! hour_minute (time_of_day schedule);
      days <-! join_days (days_of_month schedule);
      construct (CronTrigger None (Some days) hm.1 hm.2)
  | ONCE =>
      match run_date schedule with
      | None => Raise (TypeError "fromisoformat: argument must be str")
      | Some s =>
          run_date <-! of_option (datetime.fromisoformat s)
                         (ValueError "Invalid isoformat string");
          construct (DateTrigger run_date)
      end
  end.

(** The [except Exception] of [_calculate_next_run]. *)
Definition next_run_or_none (r : result (option datetime.t))
  : M (option string) :=
  match r with
  | Ok next_time => ret (datetime.isoformat <$> next_time)
  | Raise e =>
      logger (error ("Error calculando next_run: " +:+ exn_str e));;;
      ret None
  end.

(** [_calculate_next_run]. *)
Definition _calculate_next_run (schedule : ScheduleConfig.t)
  : M (option string) :=
  match schedule_type schedule with
  | CRON =>
      let* start := now in
      next_run_or_none
        (map_result Some
           (croniter_get_next (cron_expression schedule) start))
  | ONCE => ret (run_date schedule)
  | _ =>
      match _get_trigger schedule with
      | Ok trigger =>
          let* reference := now in
          next_run_or_none (get_next_fire_time trigger reference)
      | Raise e => next_run_or_none (Raise e)
      end
  end.

(** A world whose clock reads [reference] every time. *)
Definition frozen (reference : datetime.t) : World :=
  mkWorld (fun _ => reference) 0 (fun _ => "") 0 Missing false [] [].

(** [_calculate_next_run] as a function of the reference time, the
    reading of [datetime.now()] it makes. *)
Definition next_fire (schedule : ScheduleConfig.t) (reference : datetime.t)
  : option string :=
  (_calculate_next_run schedule (frozen reference)).1.

(** [ScheduleConfig.from_dict(schedule_data)] with its clock: each
    of [created_at] and [updated_at] that the record lacks costs one
    reading of [datetime.now()], made once the arguments are bound. *)
Definition from_dict_now (data : gmap string value)
  : M (result ScheduleConfig.t) := fun w =>
  let absent k := if data !! k is Some _ then 0%nat else 1%nat in
  let created := clock w (reads w) in
  let updated := clock w (absent "created_at" + reads w)%nat in
  match ScheduleConfig.from_dict created updated data with
  | Ok schedule =>
      (Ok schedule, (tick (absent "created_at" + absent "updated_at") w).2)
  | Raise e => (Raise e, w)
  end.

(** The [for] loop of [_load_schedules]: it stops at the first record
    on which [from_dict] raises, and hands the exception on. *)
Fixpoint load_records (records : list (gmap string value)) (self : t)
  : M (t * option exn) :=
  match records with
  | [] => ret (self, None)
  | schedule_data :: rest =>
      let* r := from_dict_now schedule_data in
      match r with
      | Ok schedule =>
          load_records rest
            (set_schedules (<[id schedule := schedule]> (schedules self))
               self)
      | Raise e => ret (self, Some e)
      end
  end.

(** [_load_schedules]. *)
Definition _load_schedules (self : t) : M t :=
  let* f := read_file in
  match f with
  | Missing => ret self
  | Unreadable e =>
      logger (error ("Error cargando schedules: " +:+ exn_str e));;;
      ret self
  | Document records _ =>
      let* (self, raised) := load_records records self in
      match raised with
      | None =>
          logger (info ("Cargados " +:+ pretty (size (schedules self))
                        +:+ " schedules"));;;
          ret self
      | Some e =>
          logger (error ("Error cargando schedules: " +:+ exn_str e));;;
          ret self
      end
  end.

(** [__init__]: an empty store, a stopped APScheduler, an empty
    history of at most 100 entries, the gate open; then the load. *)
Definition init (backup_callback : option Callback) : M t :=
  _load_schedules
    (mk backup_callback ∅ (mkScheduler false ∅) (ScheduleHistory.init 100)
        false).

(** What [json.dump] writes for the store, as [json.load] reads it
    back.  (The records are in the order of [map_to_list], not in
    insertion order.) *)
Definition dumped (self : t) : list (gmap string value) :=
  (fun s => json_roundtrip <$> to_dict s) <$> (map_to_list (schedules self)).*2.

(** [_save_schedules]. *)
Definition _save_schedules (self : t) : M unit :=
  let* stamp := now in
  let* written := write_file (Document (dumped self) (datetime.isoformat stamp)) in
  if written : bool then logger (info "Schedules guardados")
  else logger (error "Error guardando schedules").

(** [self.scheduler.remove_job(schedule_id)]. *)
Definition remove_job (schedule_id : string) (self : t) : t :=
  set_scheduler
    (mkScheduler (running (scheduler self))
       (delete schedule_id (jobs (scheduler self))))
    self.

(** [_register_schedule(schedule)], for the schedule stored under
    [schedule_id].  [add_job] on a running scheduler computes the
    [next_run_time] of the job from its trigger. *)
Definition _register_schedule (schedule_id : string) (self : t) : M t :=
  match schedules self !! schedule_id with
  | None => ret self
  | Some schedule =>
      let self := remove_job schedule_id self in
      match _get_trigger schedule with
      | Raise e =>
          logger (error ("Error registrando schedule " +:+ name schedule
                         +:+ ": " +:+ exn_str e));;;
          ret self
      | Ok trigger =>
          let* at_add := now in
          match get_next_fire_time trigger at_add with
          | Raise e =>
              logger (error ("Error registrando schedule " +:+ name schedule
                             +:+ ": " +:+ exn_str e));;;
              ret self
          | Ok next_run_time =>
              let self :=
                set_scheduler
                  (mkScheduler (running (scheduler self))
                     (<[schedule_id := (trigger, next_run_time)]>
                        (jobs (scheduler self))))
                  self in
              let self :=
                match next_run_time with
                | Some x =>
                    store schedule_id
                      (set_next_run (Some (datetime.isoformat x)) schedule)
                      self
                | None => self
                end in
              logger (info ("Schedule registrado: " +:+ name schedule));;;
              ret self
          end
      end
  end.

(** [_unregister_schedule]. *)
Definition _unregister_schedule (schedule_id : string) (self : t) : M t :=
  match jobs (scheduler self) !! schedule_id with
  | Some _ =>
      logger (info ("Schedule eliminado del scheduler: " +:+ schedule_id));;;
      ret (remove_job schedule_id self)
  | None => ret self
  end.

(** ** One firing, between its suspension points *)

(** A call of the coroutine [_execute_scheduled_backup(schedule_id)]:
    created and not yet started; suspended in
    [await self.backup_callback(backup_type, schedule_id)], with the
    locals [schedule] (as last seen), [start_time] and the types the
    loop has still to visit; or ended. *)
Inductive Firing :=
| Created (schedule_id : string)
| Awaiting (schedule_id : string) (schedule : ScheduleConfig.t)
    (start_time : datetime.t) (backup_type : string) (rest : list string)
| Ended.

(** The [finally] block. *)
Definition finally (self : t) : M t :=
  let self := set_running_backup false self in
  _save_schedules self;;;
  ret self.

(** The statistics update that follows the invocations, then the
    [finally] block. *)
Definition on_success (schedule_id : string) (seen : ScheduleConfig.t)
    (start_time : datetime.t) (self : t) : M t :=
  let schedule := deref self schedule_id seen in
  let* completed := now in
  let schedule := set_last_run (Some (datetime.isoformat completed)) schedule in
  let schedule := set_run_count (run_count schedule + 1) schedule in
  let schedule := set_last_status (Some "success") schedule in
  let* next := _calculate_next_run schedule in
  let schedule := set_next_run next schedule in
  let self := store schedule_id schedule self in
  let* stop := now in
  let* history :=
    ScheduleHistory.add schedule_id (name schedule) (backup_types schedule)
      "success" (stop - start_time) "Backup completado correctamente"
      (history self) in
  let self := set_history history self in
  logger (info ("Backup programado completado: " +:+ name schedule));;;
  finally self.

(** The [except Exception as e] block, then the [finally] block. *)
Definition on_failure (schedule_id : string) (seen : ScheduleConfig.t)
    (start_time : datetime.t) (e : exn) (self : t) : M t :=
  let schedule := deref self schedule_id seen in
  let schedule := set_last_status (Some "failed") schedule in
  let self := store schedule_id schedule self in
  let* stop := now in
  let* history :=
    ScheduleHistory.add schedule_id (name schedule) (backup_types schedule)
      "failed" (stop - start_time) (exn_str e) (history self) in
  let self := set_history history self in
  logger (error ("Error en backup programado " +:+ name schedule +:+ ": "
                 +:+ exn_str e));;;
  finally self.

(** The invocations the [try] block is going to make, in order: none
    without a callback; every type of the list when the schedule is
    sequential; else [schedule.backup_types[0]], an [IndexError] on
    an empty list. *)
Definition invocations (self : t) (schedule : ScheduleConfig.t)
  : result (list string) :=
  match backup_callback self with
  | None => Ok []
  | Some _ =>
      if sequential_execution schedule then Ok (backup_types schedule)
      else match backup_types schedule with
           | [] => Raise (IndexError "list index out of range")
           | backup_type :: _ => Ok [backup_type]
           end
  end.

(** Go on with the invocations left: suspend in the next one, or
    finish with the statistics. *)
Definition proceed (schedule_id : string) (seen : ScheduleConfig.t)
    (start_time : datetime.t) (todo : list string) (self : t)
  : M (t * Firing) :=
  match todo with
  | backup_type :: rest =>
      record_call backup_type schedule_id;;;
      ret (self, Awaiting schedule_id (deref self schedule_id seen)
                   start_time backup_type rest)
  | [] =>
      let* self := on_success schedule_id seen start_time self in
      ret (self, Ended)
  end.

(** From the entry of [_execute_scheduled_backup] to its first
    suspension point, or to its end. *)
Definition begin (schedule_id : string) (self : t) : M (t * Firing) :=
  match schedules self !! schedule_id with
  | None =>
      logger (error ("Schedule " +:+ schedule_id +:+ " no encontrado"));;;
      ret (self, Ended)
  | Some schedule =>
      if negb (bool_decide (status schedule = ACTIVE)) then
        logger (info ("Schedule " +:+ name schedule
                      +:+ " no esta activo, saltando"));;;
        ret (self, Ended)
      else if _running_backup self then
        logger (warning ("Ya hay un backup en ejecucion, encolando "
                         +:+ name schedule));;;
        ret (self, Ended)
      else
        let self := set_running_backup true self in
        let* start_time := now in
        logger (info ("Ejecutando backup programado: " +:+ name schedule));;;
        match invocations self schedule with
        | Ok todo => proceed schedule_id schedule start_time todo self
        | Raise e =>
            let* self := on_failure schedule_id schedule start_time e self in
            ret (self, Ended)
        end
  end.

(** From the end of an awaited invocation to the next suspension
    point, or to the end. *)
Definition resume (schedule_id : string) (seen : ScheduleConfig.t)
    (start_time : datetime.t) (rest : list string) (o : Outcome) (self : t)
  : M (t * Firing) :=
  match o with
  | Returned => proceed schedule_id seen start_time rest self
  | Raised e =>
      let* self := on_failure schedule_id seen start_time e self in
      ret (self, Ended)
  | Cancelled =>
      let* self := finally self in
      ret (self, Ended)
  end.

(** How the invocation a firing is suspended in ends. *)
Definition outcome_of (self : t) (backup_type schedule_id : string)
  : M Outcome := fun w =>
  match backup_callback self with
  | Some callback => (callback w backup_type schedule_id, w)
  | None => (Returned, w)
  end.

(** One step of a firing. *)
Definition step (f : Firing) (self : t) : M (t * Firing) :=
  match f with
  | Created schedule_id => begin schedule_id self
  | Awaiting schedule_id seen start_time backup_type rest =>
      let* o := outcome_of self backup_type schedule_id in
      resume schedule_id seen start_time rest o self
  | Ended => ret (self, Ended)
  end.

(** A firing run without any other coroutine in between. *)
Fixpoint run (fuel : nat) (f : Firing) (self : t) : M (t * Firing) :=
  match fuel, f with
  | _, Ended => ret (self, Ended)
  | O, _ => ret (self, f)
  | S fuel, _ =>
      let* (self, f) := step f self in
      run fuel f self
  end.

(** [await self._execute_scheduled_backup(schedule_id)], run to its
    end: the entry step, then one step per invocation. *)
Definition _execute_scheduled_backup (schedule_id : string) (self : t)
  : M (t * Firing) :=
  let types :=
    match schedules self !! schedule_id with
    | Some schedule => backup_types schedule
    | None => []
    end in
  run (S (S (length types))) (Created schedule_id) self.

(** ** The event loop *)

(** The scheduler object, the world, and the firings the event loop
    holds as tasks. *)
Record Loop := mkLoop {
  self_ : t;
  world : World;
  tasks : list Firing
}.

(** One turn of the event loop: it runs one of its live tasks to the next
    suspension point ([loop_run]), or a timer elapses, or [run_now] is
    called, and one more firing is dispatched ([loop_fire]). *)
Inductive loop_step : Loop -> Loop -> Prop :=
| loop_run (l : Loop) (i : nat) (f f' : Firing) (self' : t) (w' : World) :
    tasks l !! i = Some f ->
    f <> Ended ->
    step f (self_ l) (world l) = ((self', f'), w') ->
    loop_step l (mkLoop self' w' (<[i := f']> (tasks l)))
| loop_fire (l : Loop) (schedule_id : string) :
    loop_step l (mkLoop (self_ l) (world l) (tasks l ++ [Created schedule_id])).

(** [run_now]: the firing becomes a task of the loop; nothing of it
    has run when [run_now] returns. *)
Definition run_now (schedule_id : string) (l : Loop) : bool * Loop :=
  if schedules (self_ l) !! schedule_id is Some _
  then (true, mkLoop (self_ l) (world l) (tasks l ++ [Created schedule_id]))
  else (false, l).

(** ** The public API on the store *)

(** One turn of the loop of [update_schedule] over [updates.items()].
    [hasattr(schedule, key)] holds of the fields and of other attributes.
    A field other than [id] and [created_at] is assigned.  The
    assignment to [__dict__] replaces the attributes of the object as a
    whole, [id] and [created_at] among them, and raises for a value that
    is no dictionary; that to another attribute that is no field is not
    followed ([OutsideModel]).  A key that names no attribute is
    skipped. *)
Definition update_field (key : string) (v : value) (schedule : ScheduleConfig.t)
  : result ScheduleConfig.t :=
  match hasattr key with
  | Some f =>
      if bool_decide (f = F_id \/ f = F_created_at) then Ok schedule
      else
        v <-! match f, str_of v with
              | F_schedule_type, Some s => to_schedule_type s
              | F_status, Some s => to_status s
              | _, _ => Ok v
              end;
        of_option (setattr f v schedule) (OutsideModel key)
  | None =>
      if String.eqb key "__dict__" then
        match v with
        | VDict d => of_option (instance_of d) (OutsideModel key)
        | _ =>
            Raise (TypeError ("__dict__ must be set to a dictionary, not a '"
                              +:+ type_name v +:+ "'"))
        end
      else if other_attribute key then Raise (OutsideModel key)
      else Ok schedule
  end.

(** The whole loop: the object as the loop leaves it, and the
    exception that ended it early, if any. *)
Fixpoint update_fields (updates : list (string * value))
    (schedule : ScheduleConfig.t) : ScheduleConfig.t * option exn :=
  match updates with
  | [] => (schedule, None)
  | (key, v) :: rest =>
      match update_field key v schedule with
      | Ok schedule => update_fields rest schedule
      | Raise e => (schedule, Some e)
      end
  end.

(** [update_schedule(schedule_id, updates)]: [Ok None] for an unknown
    id, [Ok (Some schedule)] for the updated schedule, [Raise e] when
    a conversion or an assignment raises in the middle of the loop.
    [_register_schedule] above names the job by the key of the store,
    which is [schedule.id] unless the store holds the schedule under
    another key: the registration of such a schedule is not followed
    ([OutsideModel]). *)
Definition update_schedule (schedule_id : string)
    (updates : list (string * value)) (self : t)
  : M (t * result (option ScheduleConfig.t)) :=
  match schedules self !! schedule_id with
  | None => ret (self, Ok None)
  | Some schedule =>
      match update_fields updates schedule with
      | (schedule, Some e) =>
          ret (store schedule_id schedule self, Raise e)
      | (schedule, None) =>
          let* stamp := now in
          let schedule := set_updated_at (datetime.isoformat stamp) schedule in
          let* next := _calculate_next_run schedule in
          let schedule := set_next_run next schedule in
          let self := store schedule_id schedule self in
          if bool_decide (status schedule = ACTIVE)
             && running (scheduler self)
             && negb (bool_decide (id schedule = schedule_id))
          then ret (self, Raise (OutsideModel "id"))
          else
            let* self :=
              if bool_decide (status schedule = ACTIVE)
                 && running (scheduler self)
              then _register_schedule schedule_id self
              else _unregister_schedule schedule_id self in
            _save_schedules self;;;
            ret (self, Ok (schedules self !! schedule_id))
      end
  end.

(** [pause_schedule] and [resume_schedule]. *)
Definition pause_schedule (schedule_id : string) :=
  update_schedule schedule_id [("status", VStatus PAUSED)].

Definition resume_schedule (schedule_id : string) :=
  update_schedule schedule_id [("status", VStatus ACTIVE)].

(** [create_schedule(config)]. *)
Definition create_schedule (config : gmap string value) (self : t)
  : M (t * result ScheduleConfig.t) :=
  let* u := uuid4 in
  let schedule_id := String.substring 0 12 u in
  let config := <["id" := VStr schedule_id]> config in
  let* created := now in
  let config := <["created_at" := VStr (datetime.isoformat created)]> config in
  let* updated := now in
  let config := <["updated_at" := VStr (datetime.isoformat updated)]> config in
  let* r := from_dict_now config in
  match r with
  | Raise e => ret (self, Raise e)
  | Ok schedule =>
      let* next := _calculate_next_run schedule in
      let schedule := set_next_run next schedule in
      let self :=
        set_schedules (<[schedule_id := schedule]> (schedules self)) self in
      let* self :=
        if bool_decide (status schedule = ACTIVE) && running (scheduler self)
        then _register_schedule schedule_id self
        else ret self in
      _save_schedules self;;;
      ret (self, of_option (schedules self !! schedule_id)
                   (KeyError schedule_id))
  end.

(** [get_schedule]. *)
Definition get_schedule (schedule_id : string) (self : t)
  : option ScheduleConfig.t :=
  schedules self !! schedule_id.

(** [get_history]. *)
Definition get_history (schedule_id : option string) (limit : Z) (self : t)
  : list ScheduleHistory.Entry :=
  match schedule_id with
  | Some "" | None => ScheduleHistory.get_recent limit (history self)
  | Some schedule_id =>
      ScheduleHistory.get_by_schedule schedule_id limit (history self)
  end.

(** [delete_schedule]. *)
Definition delete_schedule (schedule_id : string) (self : t) : M (t * bool) :=
  match schedules self !! schedule_id with
  | None => ret (self, false)
  | Some _ =>
      let* self := _unregister_schedule schedule_id self in
      let self := set_schedules (delete schedule_id (schedules self)) self in
      _save_schedules self;;;
      ret (self, true)
  end.


(** The loop of [start] over the schedules: each active one is
    registered. *)
Fixpoint register_active (l : list (string * ScheduleConfig.t)) (self : t)
  : M t :=
  match l with
  | [] => ret self
  | (schedule_id, schedule) :: rest =>
      let* self :=
        if bool_decide (status schedule = ACTIVE)
        then _register_schedule schedule_id self
        else ret self in
      register_active rest self
  end.

(** [start]. *)
Definition start (self : t) : M t :=
  if running (scheduler self) then ret self
  else
    let self := set_scheduler (mkScheduler true (jobs (scheduler self))) self in
    let* self := register_active (map_to_list (schedules self)) self in
    logger (info "Scheduler iniciado");;;
    ret self.

(** The truth value of an optional string: [None] and the empty string
    are false. *)
Definition truthy (o : option string) : option string :=
  match o with
  | Some "" | None => None
  | Some s => Some s
  end.







End WithTriggers.
End BackupScheduler.

(* ===================================================================== *)
(** * Task dispatch of [main.py]                                          *)
(* ===================================================================== *)

Module Main.

(** [class BackupType(str, Enum)]. *)
Inductive BackupType := MONGODB | MILVUS | POSTGRES | ADDITIONAL | GLOBAL.

(** [class BackupStatus(str, Enum)]. *)
Inductive BackupStatus := PENDING | RUNNING | COMPLETED | FAILED.

Definition BackupType_value (t : BackupType) : string :=
  match t with
  | MONGODB => "mongodb"
  | MILVUS => "milvus"
  | POSTGRES => "postgres"
  | ADDITIONAL => "additional"
  | GLOBAL => "global"
  end.


(** A task dictionary.  [schedule_id] is [Some] for the records of
    [scheduled_backup_callback], which alone carry the keys
    ['scheduled'] and ['schedule_id']. *)
Record Task := mkTask {
  task_id : string;
  backup_type : string;
  status : BackupStatus;
  started_at : string;
  completed_at : option string;
  output : list string;
  error : option string;
  schedule_id : option string
}.

(** The dictionary objects allocated so far, by address, and the global
    [backup_tasks], which maps a task id to one of them.  Assigning a
    second dictionary to an id leaves the first one alive for whoever
    still holds it. *)
Record State := mkState {
  heap : list Task;
  backup_tasks : gmap string nat
}.

Definition empty : State := mkState [] ∅.

(** [backup_tasks[task_id] = {...}] with a fresh dictionary. *)
Definition assign (task : Task) (st : State) : State :=
  mkState (heap st ++ [task])
          (<[task_id task := length (heap st)]> (backup_tasks st)).

(** [backup_tasks[task_id]], as the record it refers to. *)
Definition get_task (id : string) (st : State) : option Task :=
  a ← backup_tasks st !! id; heap st !! a.

(** A mutation of the dictionary at an address. *)
Definition mutate (a : nat) (f : Task -> Task) (st : State) : State :=
  mkState (alter f a (heap st)) (backup_tasks st).

Definition set_status (s : BackupStatus) (t : Task) : Task :=
  mkTask (task_id t) (backup_type t) s (started_at t) (completed_at t)
         (output t) (error t) (schedule_id t).

Definition set_error (e : option string) (t : Task) : Task :=
  mkTask (task_id t) (backup_type t) (status t) (started_at t)
         (completed_at t) (output t) e (schedule_id t).

Definition set_completed_at (c : option string) (t : Task) : Task :=
  mkTask (task_id t) (backup_type t) (status t) (started_at t) c
         (output t) (error t) (schedule_id t).

Definition append_output (line : string) (t : Task) : Task :=
  mkTask (task_id t) (backup_type t) (status t) (started_at t)
         (completed_at t) (output t ++ [line]) (error t) (schedule_id t).

(** A coroutine [run_backup_script(task_id, backup_type)]: handed to the
    background tasks and not yet started; holding [task], a reference
    to a dictionary, and suspended on its own subprocess; or ended. *)
Inductive Script :=
| Queued (task_id : string) (backup_type : BackupType)
| Streaming (task : nat)
| Finished.

(** What a suspended script receives from its own subprocess: one line
    of the merged output, or the end of the stream with the exit
    code. *)
Inductive ProcessEvent :=
| Line (bytes : string)
| Exit (returncode : Z).

(** The two guards of the manual dispatchers. *)
Definition guards (docker qnap_mounted : bool) : result unit :=
  if negb docker then Raise (HTTPException 503 "Docker no esta corriendo")
  else if negb qnap_mounted then Raise (HTTPException 503 "QNAP no esta montado")
  else Ok tt.

(** The record a dispatcher creates. *)
Definition pending (id type now : string) (output : list string)
    (schedule_id : option string) : Task :=
  mkTask id type PENDING now None output None schedule_id.

(** [start_backup(backup_type, background_tasks)]: the task id and the
    script handed to the background tasks. *)
Definition start_backup (docker qnap_mounted : bool) (backup_type : BackupType)
    (st : State) : M (State * result (string * Script)) :=
  match guards docker qnap_mounted with
  | Raise e => ret (st, Raise e)
  | Ok _ =>
      let* stamp := now in
      let id := "backup_" +:+ BackupType_value backup_type +:+ "_"
                +:+ datetime.strftime_Ymd_HMS stamp in
      let* started := now in
      let st := assign (pending id (BackupType_value backup_type)
                          (datetime.isoformat started) [] None) st in
      ret (st, Ok (id, Queued id backup_type))
  end.

(** [start_restore(request, background_tasks)], up to the task id and
    the record; [timestamp] is [request.timestamp]. *)
Definition start_restore (docker qnap_mounted : bool) (timestamp : string)
    (st : State) : M (State * result string) :=
  match guards docker qnap_mounted with
  | Raise e => ret (st, Raise e)
  | Ok _ =>
      let* stamp := now in
      let id := "restore_" +:+ timestamp +:+ "_"
                +:+ datetime.strftime_Ymd_HMS stamp in
      let* started := now in
      let st := assign (pending id "restore" (datetime.isoformat started)
                          [] None) st in
      ret (st, Ok id)
  end.


(** [script_map.get(backup_type, "backup_global.sh")]. *)
Definition script_name (backup_type : BackupType) : string :=
  match backup_type with
  | MONGODB => "backup_mongodb_docker.sh"
  | MILVUS => "backup_volumes_docker.sh"
  | POSTGRES => "backup_postgres_docker.sh"
  | GLOBAL | ADDITIONAL => "backup_global.sh"
  end.

(** The end of [run_backup_script]: [completed_at] is stamped. *)
Definition complete (task : nat) (st : State) : M State :=
  let* stamp := now in
  ret (mutate task (set_completed_at (Some (datetime.isoformat stamp))) st).

(** [run_backup_script] from its entry to the first [readline].
    [spawned] is the outcome of [create_subprocess_shell]. *)
Definition script_begin (id : string) (spawned : result unit) (st : State)
  : M (State * result Script) :=
  match backup_tasks st !! id with
  | None => ret (st, Raise (KeyError id))
  | Some task =>
      let st := mutate task (set_status RUNNING) st in
      match spawned with
      | Ok _ => ret (st, Ok (Streaming task))
      | Raise e =>
          let st := mutate task (set_status FAILED) st in
          let st := mutate task (set_error (Some (exn_str e))) st in
          let* st := complete task st in
          ret (st, Ok Finished)
      end
  end.

(** [run_backup_script] from one event of its subprocess to the next
    suspension point. *)
Definition script_resume (task : nat) (ev : ProcessEvent) (st : State)
  : M (State * Script) :=
  match ev with
  | Line bytes =>
      let decoded := rstrip (lstrip bytes) in
      if String.eqb decoded "" then ret (st, Streaming task)
      else ret (mutate task (append_output decoded) st, Streaming task)
  | Exit returncode =>
      let st :=
        if returncode =? 0 then mutate task (set_status COMPLETED) st
        else
          mutate task (set_error (Some ("Exit code: " +:+ pretty returncode)))
            (mutate task (set_status FAILED) st) in
      let* st := complete task st in
      ret (st, Finished)
  end.

(** The events of its subprocess, handed one by one to a suspended
    script. *)
Fixpoint script_feed (events : list ProcessEvent) (sc : Script) (st : State)
  : M (State * Script) :=
  match events, sc with
  | ev :: rest, Streaming task =>
      let* (st, sc) := script_resume task ev st in
      script_feed rest sc st
  | _, _ => ret (st, sc)
  end.

(** [run_backup_script(task_id, backup_type)] against a subprocess that
    produces [events]: [Raise] is the [KeyError] of
    [backup_tasks[task_id]], which nothing catches. *)
Definition run_backup_script (id : string) (spawned : result unit)
    (events : list ProcessEvent) (st : State) : M (State * result Script) :=
  let* (st, r) := script_begin id spawned st in
  match r with
  | Ok sc =>
      let* (st, sc) := script_feed events sc st in
      ret (st, Ok sc)
  | Raise e => ret (st, Raise e)
  end.

(** [get_task_status(task_id)]. *)
Definition get_task_status (id : string) (st : State) : result Task :=
  match backup_tasks st !! id with
  | None => Raise (HTTPException 404 "Tarea no encontrada")
  | Some a => of_option (heap st !! a) (OutsideModel id)
  end.

(** [list_tasks()].  (In the order of [map_to_list], not in insertion
    order.) *)
Definition list_tasks (st : State) : list Task :=
  omap (fun a => heap st !! a) (map_to_list (backup_tasks st)).*2.


(** ** [run_restore_script] *)

(** [name.rfind('.')]. *)
Fixpoint rfind_dot (s : string) : option nat :=
  match s with
  | EmptyString => None
  | String c s' =>
      match rfind_dot s' with
      | Some i => Some (S i)
      | None => if Ascii.eqb c "." then Some 0%nat else None
      end
  end.

(** [Path(...).stem] of a file name. *)
Definition stem (name : string) : string :=
  match rfind_dot name with
  | Some i =>
      if (0 <? i)%nat && (i <? String.length name - 1)%nat
      then String.substring 0 i name
      else name
  | None => name
  end.

(** [s.replace(old, "")] for a non-empty [old]; [skip] characters of
    an occurrence found are still to be dropped. *)
Fixpoint remove_from (old : string) (skip : nat) (s : string) : string :=
  match s with
  | EmptyString => EmptyString
  | String c s' =>
      match skip with
      | S skip' => remove_from old skip' s'
      | O =>
          if String.prefix old s
          then remove_from old (String.length old - 1) s'
          else String c (remove_from old 0 s')
      end
  end.

(** What a restore observes: whether a path is a directory, the names
    of the files that [glob("*.tar.gz")] yields in one, and for a
    command what [create_subprocess_shell] does with it: an exception,
    or a process that ends with a return code. *)
Record Volumes := mkVolumes {
  isdir : string -> bool;
  glob_tar_gz : string -> list string;
  subprocess : string -> result Z
}.

(** The directory of a component of a backup, [None] for a name that
    is not one of the four. *)
Definition backup_path_of (backup_base timestamp component : string)
  : option string :=
  if String.eqb component "mongodb"
  then Some (backup_base +:+ "/mongodb/mongodb_backup_" +:+ timestamp)
  else if String.eqb component "milvus"
  then Some (backup_base +:+ "/volumes/milvus_backup_" +:+ timestamp)
  else if String.eqb component "postgres"
  then Some (backup_base +:+ "/postgres/postgres_backup_" +:+ timestamp)
  else if String.eqb component "additional"
  then Some (backup_base +:+ "/volumes/additional_" +:+ timestamp)
  else None.

(** The loop over the archives of one directory: the record as the
    loop leaves it, and the exception that ended it, if any. *)
Fixpoint restore_archives (env : Volumes) (actual_path : string)
    (files : list string) (task : Task) : Task * option exn :=
  match files with
  | [] => (task, None)
  | file :: rest =>
      let vol_name := remove_from ".tar" 0 (stem file) in
      match subprocess env ("docker volume create " +:+ vol_name) with
      | Raise e => (task, Some e)
      | Ok _ =>
          match subprocess env
                  ("docker run --rm -v " +:+ vol_name +:+ ":/target -v "
                   +:+ actual_path
                   +:+ ":/backup:ro alpine:latest sh -c 'tar -xzf /backup/"
                   +:+ file +:+ " -C /target'") with
          | Raise e => (task, Some e)
          | Ok returncode =>
              restore_archives env actual_path rest
                (append_output
                   (if returncode =? 0 then "   ✅ " +:+ vol_name
                    else "   ❌ " +:+ vol_name)
                   task)
          end
      end
  end.

(** The loop over the components. *)
Fixpoint restore_components (env : Volumes) (backup_base timestamp : string)
    (components : list string) (task : Task) : Task * option exn :=
  match components with
  | [] => (task, None)
  | component :: rest =>
      let task := append_output ("🔄 Restaurando " +:+ component +:+ "...") task in
      match backup_path_of backup_base timestamp component with
      | None => restore_components env backup_base timestamp rest task
      | Some backup_path =>
          if negb (isdir env backup_path)
          then restore_components env backup_base timestamp rest
                 (append_output
                    ("⚠️ No se encontró backup de " +:+ component +:+ " para "
                     +:+ timestamp) task)
          else
            let volumes_subdir := backup_path +:+ "/volumes" in
            let '(actual_path, task) :=
              if isdir env volumes_subdir
              then (volumes_subdir,
                    append_output "   📁 Usando subdirectorio volumes/" task)
              else (backup_path, task) in
            match restore_archives env actual_path
                    (glob_tar_gz env actual_path) task with
            | (task, Some e) => (task, Some e)
            | (task, None) =>
                restore_components env backup_base timestamp rest
                  (append_output ("✅ " +:+ component +:+ " restaurado") task)
            end
      end
  end.

(** [run_restore_script(task_id, timestamp, components)], run without
    another coroutine in between. *)
Definition run_restore_script (env : Volumes) (backup_base : string)
    (id timestamp : string) (components : list string) (st : State)
  : M (State * result unit) :=
  match backup_tasks st !! id with
  | None => ret (st, Raise (KeyError id))
  | Some a =>
      match heap st !! a with
      | None => ret (st, Raise (OutsideModel id))
      | Some task =>
          let '(task, raised) :=
            restore_components env backup_base timestamp components
              (set_status RUNNING task) in
          let task :=
            match raised with
            | None => set_status COMPLETED task
            | Some e => set_error (Some (exn_str e)) (set_status FAILED task)
            end in
          let* st := complete a (mutate a (fun _ => task) st) in
          ret (st, Ok tt)
      end
  end.

End Main.

(* ===================================================================== *)
(** * A reference trigger library                                         *)
(* ===================================================================== *)

Module SpecTriggers.

(** Modelled from the spec: croniter and APScheduler are libraries that
    the repository imports and does not contain.  This module is an
    instance of [TriggerLib] that computes what section 4.1 describes,
    over the days of the proleptic Gregorian calendar; [lib], at its
    end, states what is taken from the spec. *)

(** The field sets of a cron-style recurrence.  [either_day] is the
    crontab rule for a day of month and a day of week that are both
    restricted: one of them matching is enough. *)
Record Fields := mkFields {
  minutes : list Z;
  hours : list Z;
  days : list Z;
  months : list Z;
  weekdays : list Z;
  either_day : bool
}.

Definition range (lo hi : Z) : list Z :=
  (fun i => lo + Z.of_nat i) <$> seq 0 (Z.to_nat (hi - lo + 1)).

Definition mem (x : Z) (l : list Z) : bool := existsb (Z.eqb x) l.

(** [*], [a] or [a-b] within [lo..hi]. *)
Definition parse_range (lo hi : Z) (s : string) : option (list Z) :=
  if String.eqb s "*" then Some (range lo hi)
  else match split_on "-" s with
       | [a] =>
           a ← parse_digits a;
           if (lo <=? a) && (a <=? hi) then Some [a] else None
       | [a; b] =>
           a ← parse_digits a; b ← parse_digits b;
           if (lo <=? a) && (a <=? b) && (b <=? hi) then Some (range a b)
           else None
       | _ => None
       end.

(** A range with an optional [/step]. *)
Definition parse_item (lo hi : Z) (s : string) : option (list Z) :=
  match split_on "/" s with
  | [base] => parse_range lo hi base
  | [base; step] =>
      n ← parse_digits step; vals ← parse_range lo hi base;
      if 0 <? n
      then Some (List.filter (fun v => (v - List.hd 0 vals) mod n =? 0) vals)
      else None
  | _ => None
  end.

(** A comma-separated field. *)
Definition parse_field (lo hi : Z) (s : string) : option (list Z) :=
  mjoin <$> mapM (parse_item lo hi) (split_on "," s).

(** The five fields of a crontab line: minute, hour, day of month,
    month, day of week. *)
Definition parse_crontab (either : bool) (dow_hi : Z) (expr : string)
  : option Fields :=
  match List.filter (fun w => negb (String.eqb w "")) (split_on " " expr) with
  | [mi; h; d; mo; wd] =>
      mi' ← parse_field 0 59 mi; h' ← parse_field 0 23 h;
      d' ← parse_field 1 31 d; mo' ← parse_field 1 12 mo;
      wd' ← parse_field 0 dow_hi wd;
      Some (mkFields mi' h' d' mo' ((fun v => v mod 7) <$> wd')
              (either && negb (String.eqb d "*") && negb (String.eqb wd "*")))
  | _ => None
  end.

(** Whether day [d] (days since the epoch) is a day of the recurrence;
    [dow] numbers the days of the week. *)
Definition day_matches (f : Fields) (dow : Z -> Z) (d : Z) : bool :=
  let '(_, mo, dom) := datetime.civil_from_days d in
  mem mo (months f)
  && (if either_day f then mem dom (days f) || mem (dow d) (weekdays f)
      else mem dom (days f) && mem (dow d) (weekdays f)).

Definition earliest (l : list Z) : option Z :=
  foldr (fun x acc => Some (match acc with Some a => Z.min x a | None => x end))
        None l.

(** The first instant of day [d] at one of the hours and minutes and
    strictly after [reference]. *)
Definition first_after (f : Fields) (d reference : Z) : option Z :=
  earliest
    (List.filter (fun x => reference <? x)
       (h ← hours f; m ← minutes f;
        [d * datetime.usec_per_day + (h * 60 + m) * datetime.usec_per_min])).

Fixpoint search (f : Fields) (dow : Z -> Z) (reference : Z) (horizon : nat)
    (d : Z) : option Z :=
  match horizon with
  | O => None
  | S horizon =>
      match (if day_matches f dow d then first_after f d reference else None) with
      | Some x => Some x
      | None => search f dow reference horizon (d + 1)
      end
  end.

(** Monday is 0 (APScheduler); Sunday is 0 (crontab). *)
Definition monday0 (d : Z) : Z := (d + 3) mod 7.
Definition sunday0 (d : Z) : Z := (d + 4) mod 7.

(** The next instant of the recurrence strictly after [reference],
    looked for over eight years of days. *)
Definition next_fire (f : Fields) (dow : Z -> Z) (reference : datetime.t)
  : option datetime.t :=
  search f dow reference 2923 (datetime.day_of reference).

Definition fields_of (t : Trigger) : option Fields :=
  match t with
  | CronTrigger_from_crontab (Some expr) => parse_crontab false 6 expr
  | CronTrigger day_of_week day hour minute =>
      wd ← from_option (parse_field 0 6) (Some (range 0 6)) day_of_week;
      d ← from_option (parse_field 1 31) (Some (range 1 31)) day;
      if (0 <=? hour) && (hour <? 24) && (0 <=? minute) && (minute <? 60)
      then Some (mkFields [minute] [hour] d (range 1 12) wd false)
      else None
  | _ => None
  end.

Definition rejected : exn := ValueError "invalid trigger arguments".

(** Modelled from the spec: croniter and APScheduler are libraries the
    repository imports and does not contain.  Section 4.1 gives what
    they compute: a cron expression in the five-field syntax yields
    the next matching instant strictly after the reference time, and a
    malformed one fails; an interval yields the reference time plus the
    interval; daily, weekly (0 is Monday) and monthly yield the next
    occurrence of the hour and minute strictly after the reference time
    on an admissible day, a day of month that a month lacks being
    skipped and an empty day set being rejected; a date trigger yields
    its date.  An interval of zero counts as one second and a negative
    one is rejected. *)
Definition lib : TriggerLib := {|
  croniter_get_next expr start :=
    match expr ≫= parse_crontab true 7 with
    | Some f => of_option (next_fire f sunday0 start) rejected
    | None => Raise rejected
    end;
  trigger_init t :=
    match t with
    | DateTrigger _ => Ok tt
    | IntervalTrigger (Some m) => if m <? 0 then Raise rejected else Ok tt
    | IntervalTrigger None => Raise rejected
    | _ => if fields_of t is Some _ then Ok tt else Raise rejected
    end;
  get_next_fire_time t reference :=
    match t with
    | DateTrigger run_date => Ok (Some run_date)
    | IntervalTrigger (Some m) =>
        if m <? 0 then Raise rejected
        else Ok (Some (reference + Z.max datetime.usec_per_sec
                                     (m * datetime.usec_per_min)))
    | IntervalTrigger None => Raise rejected
    | _ =>
        match fields_of t with
        | Some f => Ok (next_fire f monday0 reference)
        | None => Raise rejected
        end
    end
|}.

End SpecTriggers.

(* ===================================================================== *)
(** * Statements of the specification that the code does not meet          *)
(* ===================================================================== *)


(** Sections 3 and 4.2 on the identity of a job: whatever the updates
    are, [update_schedule] leaves the schedule stored under its id with
    its [id] and its [created_at] as they were. *)
Definition update_keeps_id_and_created_at (lib : TriggerLib) : Prop :=
  forall (schedule_id : string) (updates : list (string * value))
         (self : BackupScheduler.t) (w : World) (s : ScheduleConfig.t),
    BackupScheduler.schedules self !! schedule_id = Some s ->
    exists s',
      BackupScheduler.schedules
        (BackupScheduler.update_schedule schedule_id updates self w).1.1
        !! schedule_id = Some s'
      /\ ScheduleConfig.id s' = ScheduleConfig.id s
      /\ ScheduleConfig.created_at s' = ScheduleConfig.created_at s.

(** The keys of the updates name fields of the dataclass or no
    attribute at all: none is the name of a method or has two leading
    and two trailing underscores. *)
Definition plain_keys (updates : list (string * value)) : Prop :=
  Forall (fun kv => ScheduleConfig.other_attribute kv.1 = false) updates.

(* ===================================================================== *)
(** * Sample data                                                         *)
(* ===================================================================== *)

(** A daily schedule at 02:00 for the global backup. *)
Definition sample_schedule (id : string) : ScheduleConfig.t :=
  ScheduleConfig.set_id id
    (ScheduleConfig.set_name "nightly"
       (ScheduleConfig.set_backup_types ["global"]
          (ScheduleConfig.set_schedule_type DAILY
             (ScheduleConfig.set_time_of_day (Some "02:00")
                (ScheduleConfig.defaults 0 0))))).

(** Its record in the persisted job set. *)
Definition sample_record (id : string) : gmap string value :=
  json_roundtrip <$> ScheduleConfig.to_dict (sample_schedule id).

(** The same record with a recurrence kind that is not one of the six. *)
Definition broken_record (id : string) : gmap string value :=
  <["schedule_type" := VStr "hourly"]> (sample_record id).

(** A world whose clock starts at [start] and advances by a microsecond
    per reading. *)
Definition world_at (start : datetime.t) (f : File) : World :=
  mkWorld (fun n => Z.of_nat n + start) 0
          (fun n => "3f2b8c1e-77aa-4d0e-9c11-5a6b7c8d9e0f") 0 f true [] [].

(** The same, from 2024-01-01 at 10:00. *)
Definition sample_world (f : File) : World :=
  world_at (datetime.make 2024 1 1 10 0 0 0) f.

(** A scheduler as [__init__] leaves it, holding the given schedules
    under their ids. *)
Definition sample_scheduler (callback : option BackupScheduler.Callback)
    (schedules : list ScheduleConfig.t) : BackupScheduler.t :=
  BackupScheduler.mk callback
    (list_to_map ((fun s => (ScheduleConfig.id s, s)) <$> schedules))
    (BackupScheduler.mkScheduler false ∅) (ScheduleHistory.init 100) false.

(* ===================================================================== *)
(** * Predicates of the properties                                        *)
(* ===================================================================== *)

(** Whether a firing has a backup invocation in flight. *)
Definition in_flight (f : BackupScheduler.Firing) : bool :=
  match f with
  | BackupScheduler.Awaiting _ _ _ _ _ => true
  | _ => false
  end.

(** The number of firings with an invocation in flight. *)
Definition flying (l : list BackupScheduler.Firing) : nat :=
  length (List.filter in_flight l).

(** The gate is set exactly while one firing has an invocation in
    flight. *)
Definition gate_invariant (l : BackupScheduler.Loop) : Prop :=
  flying (BackupScheduler.tasks l)
  = if BackupScheduler._running_backup (BackupScheduler.self_ l)
    then 1%nat else 0%nat.

(** A computation is quiet when it starts no backup invocation and
    leaves the clock alone. *)
Definition quiet {A} (c : M A) : Prop :=
  forall w, calls (c w).2 = calls w /\ clock (c w).2 = clock w.

(** The event loop runs its task [i] to the next suspension point. *)
Definition run_task `{TriggerLib} (i : nat) (l : BackupScheduler.Loop)
  : BackupScheduler.Loop :=
  match BackupScheduler.tasks l !! i with
  | Some f =>
      let r := BackupScheduler.step f (BackupScheduler.self_ l)
                 (BackupScheduler.world l) in
      BackupScheduler.mkLoop r.1.1 r.2 (<[i := r.1.2]> (BackupScheduler.tasks l))
  | None => l
  end.

(** A backup callback that always returns, and one that always raises. *)
Definition always_returns : BackupScheduler.Callback :=
  fun _ _ _ => Returned.

Definition always_raises : BackupScheduler.Callback :=
  fun _ _ _ => Raised (ValueError "backup failed").

(** Section 4.3 on [run_now]: for an existing id it acknowledges, and the
    firing it spawns invokes the backup callback whenever the gate is
    open, whatever else holds of the schedule. *)
Definition run_now_is_subject_only_to_the_gate : Prop :=
  forall (lib : TriggerLib) (l : BackupScheduler.Loop) (schedule_id : string)
         (s : ScheduleConfig.t) (callback : BackupScheduler.Callback)
         (backup_type : string) (rest : list string),
    BackupScheduler.schedules (BackupScheduler.self_ l) !! schedule_id = Some s ->
    BackupScheduler.backup_callback (BackupScheduler.self_ l) = Some callback ->
    ScheduleConfig.backup_types s = backup_type :: rest ->
    BackupScheduler._running_backup (BackupScheduler.self_ l) = false ->
    let l' := (BackupScheduler.run_now schedule_id l).2 in
    (BackupScheduler.run_now schedule_id l).1 = true
    /\ in_flight
         (BackupScheduler.step (BackupScheduler.Created schedule_id)
            (BackupScheduler.self_ l') (BackupScheduler.world l')).1.2
       = true.

(** The sample schedule as it stands when its timer elapses on
    2024-01-01 at 02:00: [next_run] is that instant. *)
Definition due_schedule (id : string) : ScheduleConfig.t :=
  ScheduleConfig.set_next_run (Some "2024-01-01T02:00:00") (sample_schedule id).

(** A one-shot schedule is exhausted at a reference time when its
    configured datetime has passed and it has already fired. *)
Definition exhausted (s : ScheduleConfig.t) (reference : datetime.t) : Prop :=
  ScheduleConfig.schedule_type s = ONCE
  /\ is_Some (ScheduleConfig.last_run s)
  /\ exists t, ScheduleConfig.run_date s ≫= datetime.fromisoformat = Some t
               /\ t <= reference.

(** Section 8 on the trigger engine: an exhausted one-shot schedule gets
    none, and whatever timestamp is returned is strictly greater than
    the reference time. *)
Definition next_run_is_after_the_reference_time (lib : TriggerLib) : Prop :=
  forall (s : ScheduleConfig.t) (reference : datetime.t),
    (exhausted s reference -> BackupScheduler.next_fire s reference = None)
    /\ forall stamp,
         BackupScheduler.next_fire s reference = Some stamp ->
         exists t, datetime.fromisoformat stamp = Some t /\ reference < t.

(** What section 4.1 asks of the two libraries: the instant they compute
    for a recurrence is strictly after the reference time. *)
Definition strictly_after (lib : TriggerLib) : Prop :=
  (forall expr start t, croniter_get_next expr start = Ok t -> start < t)
  /\ (forall trigger reference t,
        (forall d, trigger <> DateTrigger d) ->
        get_next_fire_time trigger reference = Ok (Some t) ->
        reference < t).

(** The instant that the library computes for a recurring schedule at
    a reference time: croniter for a cron expression, the trigger of
    APScheduler for the other kinds. *)
Definition library_fire_time `{TriggerLib} (s : ScheduleConfig.t)
    (reference t : datetime.t) : Prop :=
  if bool_decide (ScheduleConfig.schedule_type s = CRON)
  then croniter_get_next (ScheduleConfig.cron_expression s) reference = Ok t
  else exists trigger,
         BackupScheduler._get_trigger s = Ok trigger
         /\ get_next_fire_time trigger reference = Ok (Some t).

(** A one-shot schedule for 2024-01-01 at 02:00 that fired then. *)
Definition fired_once (id : string) : ScheduleConfig.t :=
  ScheduleConfig.set_last_run (Some "2024-01-01T02:00:00.000150")
    (ScheduleConfig.set_run_date (Some "2024-01-01 02:00:00")
       (ScheduleConfig.set_schedule_type ONCE (sample_schedule id))).



(* ===================================================================== *)
(** * [scripts/backup_collections.py]                                     *)
(* ===================================================================== *)

Module Collections.

(** An entry of [MILVUS_INSTANCES]. *)
Record Instance := mkInstance {
  name : string;
  host : string;
  port : Z
}.

Definition MILVUS_INSTANCES : list Instance :=
  [ mkInstance "milvus-1" "localhost" 19530;
    mkInstance "milvus-2" "localhost" 19531;
    mkInstance "milvus-3" "localhost" 19532;
    mkInstance "milvus-4" "localhost" 19533;
    mkInstance "milvus-5" "localhost" 19534;
    mkInstance "macrochat" "localhost" 19540 ].

(** What the script observes of the Milvus servers and of the file
    system: whether [connections.connect] returns for an alias; what
    [utility.list_collections] gives; the exception [instance_dir.mkdir]
    raises, if any; for a collection, the [num_entities] that the body
    of [backup_collection_schema] reaches, or the exception that ends
    it, and the same for [backup_collection_data]; and the exceptions
    of the [mkdir] of [__init__] and of the writing of the summary. *)
Record Env := mkEnv {
  reachable : string -> bool;
  listed : string -> result (list string);
  instance_dir : string -> option exn;
  schema : string -> string -> result Z;
  data : string -> string -> result unit;
  backup_dir : option exn;
  summary : option exn
}.

(** The calls made on the connections and on the collections. *)
Inductive Event :=
| Connect (alias : string)
| Disconnect (alias : string)
| Schema (alias collection : string)
| Data (alias collection : string).

(** The dictionary [backup_instance] returns; ['message'] and
    ['error'] are the keys it adds on two of its paths. *)
Record Result := mkResult {
  r_instance : string;
  r_host : string;
  r_status : string;
  r_collections : list (string * Z);
  r_message : option string;
  r_error : option string
}.

(** [connect]: [False] when [connections.connect] raises. *)
Definition connect (env : Env) (alias : string) : bool * list Event :=
  (reachable env alias, [Connect alias]).

(** [disconnect]: whatever [connections.disconnect] raises is dropped. *)
Definition disconnect (alias : string) : list Event := [Disconnect alias].

(** [list_collections]: the empty list when the call raises. *)
Definition list_collections (env : Env) (alias : string) : list string :=
  match listed env alias with
  | Ok collections => collections
  | Raise _ => []
  end.

(** [backup_collection_schema]: the ['num_entities'] of the dictionary
    it returns, [None] for the empty dictionary of its [except]. *)
Definition backup_collection_schema (env : Env) (collection alias : string)
  : option Z * list Event :=
  (match schema env alias collection with
   | Ok num_entities => Some num_entities
   | Raise _ => None
   end, [Schema alias collection]).

(** [backup_collection_data]: [False] when its body raises. *)
Definition backup_collection_data (env : Env) (collection alias : string)
  : bool * list Event :=
  (match data env alias collection with
   | Ok _ => true
   | Raise _ => false
   end, [Data alias collection]).

(** The [for coll_name in collections] loop of [backup_instance]: the
    entries appended to [result["collections"]]. *)
Fixpoint backup_collections (env : Env) (alias : string)
    (collections : list string) : list (string * Z) * list Event :=
  match collections with
  | [] => ([], [])
  | coll_name :: rest =>
      let '(schema, ev1) := backup_collection_schema env coll_name alias in
      let '(_, ev2) := backup_collection_data env coll_name alias in
      let '(entries, ev3) := backup_collections env alias rest in
      ((coll_name, default 0 schema) :: entries, (ev1 ++ ev2 ++ ev3)%list)
  end.

(** [backup_instance]. *)
Definition backup_instance (env : Env) (instance : Instance)
  : Result * list Event :=
  let alias := name instance in
  let result := mkResult alias (host instance +:+ ":" +:+ pretty (port instance))
                  "failed" [] None None in
  let '(connected, ev0) := connect env alias in
  if negb connected then (result, ev0)
  else
    let collections := list_collections env alias in
    match collections with
    | [] =>
        (mkResult (r_instance result) (r_host result) "success" []
           (Some "No collections found") None,
         (ev0 ++ disconnect alias)%list)
    | _ =>
        match instance_dir env alias with
        | Some e =>
            (mkResult (r_instance result) (r_host result) "failed" []
               None (Some (exn_str e)),
             (ev0 ++ disconnect alias)%list)
        | None =>
            let '(entries, ev1) := backup_collections env alias collections in
            (mkResult (r_instance result) (r_host result) "success" entries
               None None,
             (ev0 ++ ev1 ++ disconnect alias)%list)
        end
    end.

(** The loop of [run_full_backup] over the instances. *)
Fixpoint backup_instances (env : Env) (instances : list Instance)
  : list Result * list Event :=
  match instances with
  | [] => ([], [])
  | instance :: rest =>
      let '(result, ev1) := backup_instance env instance in
      let '(results, ev2) := backup_instances env rest in
      (result :: results, (ev1 ++ ev2)%list)
  end.

(** [MilvusBackup(backup_path).run_full_backup()]: the list under
    ['instances'], or the exception of [mkdir] or of the writing of the
    summary. *)
Definition run_full_backup (env : Env) : result (list Result) * list Event :=
  match backup_dir env with
  | Some e => (Raise e, [])
  | None =>
      let '(results, events) := backup_instances env MILVUS_INSTANCES in
      match summary env with
      | Some e => (Raise e, events)
      | None => (Ok results, events)
      end
  end.

(** [main]: the exit status. *)
Definition main (env : Env) : result Z :=
  results <-! (run_full_backup env).1;
  Ok (if forallb (fun r => String.eqb (r_status r) "success") results
      then 0 else 1).

End Collections.

(** The number of [Connect] and of [Disconnect] events for an alias. *)
Definition connects (alias : string) (events : list Collections.Event) : nat :=
  length (List.filter
            (fun ev => match ev with
                       | Collections.Connect a => String.eqb a alias
                       | _ => false
                       end) events).

Definition disconnects (alias : string) (events : list Collections.Event) : nat :=
  length (List.filter
            (fun ev => match ev with
                       | Collections.Disconnect a => String.eqb a alias
                       | _ => false
                       end) events).

(** An instance can be backed up: it is reachable and, when it has
    collections, its directory can be made. *)
Definition backs_up (env : Collections.Env) (instance : Collections.Instance)
  : bool :=
  Collections.reachable env (Collections.name instance)
  && match Collections.list_collections env (Collections.name instance) with
     | [] => true
     | _ =>
         match Collections.instance_dir env (Collections.name instance) with
         | None => true
         | Some _ => false
         end
     end.


(** The arguments of the call of [add] that made an entry. *)
Definition entry_args (e : ScheduleHistory.Entry) : ScheduleHistory.Args :=
  (ScheduleHistory.e_schedule_id e, ScheduleHistory.e_schedule_name e,
   ScheduleHistory.e_backup_types e, ScheduleHistory.e_status e,
   ScheduleHistory.e_duration_seconds e, ScheduleHistory.e_message e).


(** The model follows [from_dict] on every record of the persisted job
    set: the values of the fields have the annotated types. *)
Definition typed_file (w : World) : Prop :=
  match file w with
  | Document records _ =>
      Forall (fun data => forall created updated,
                in_model (ScheduleConfig.from_dict created updated data))
        records
  | _ => True
  end.

(** The states of the scheduler object: the one [__init__] makes, and
    those the public operations and the steps of the firings lead to,
    in any world, as far as the model follows the calls; the updates
    are those with plain keys. *)
Inductive reachable `{TriggerLib} : BackupScheduler.t -> Prop :=
| reach_init (backup_callback : option BackupScheduler.Callback) (w : World) :
    typed_file w ->
    reachable (BackupScheduler.init backup_callback w).1
| reach_start (self : BackupScheduler.t) (w : World) :
    reachable self -> reachable (BackupScheduler.start self w).1
| reach_create (self : BackupScheduler.t) (w : World)
    (config : gmap string value) :
    reachable self ->
    in_model (BackupScheduler.create_schedule config self w).1.2 ->
    reachable (BackupScheduler.create_schedule config self w).1.1
| reach_update (self : BackupScheduler.t) (w : World) (schedule_id : string)
    (updates : list (string * value)) :
    reachable self ->
    plain_keys updates ->
    in_model (BackupScheduler.update_schedule schedule_id updates self w).1.2 ->
    reachable (BackupScheduler.update_schedule schedule_id updates self w).1.1
| reach_delete (self : BackupScheduler.t) (w : World) (schedule_id : string) :
    reachable self ->
    reachable (BackupScheduler.delete_schedule schedule_id self w).1.1
| reach_step (self : BackupScheduler.t) (w : World)
    (f : BackupScheduler.Firing) :
    reachable self -> reachable (BackupScheduler.step f self w).1.1.

(* ===================================================================== *)
(** * The schedule endpoints of [main.py]                                 *)
(* ===================================================================== *)

Module Handlers.

(** [ScheduleCreateRequest], as the handler receives it. *)
Record ScheduleCreateRequest := mkCreate {
  name : string;
  description : string;
  backup_types : list string;
  schedule_type : string;
  cron_expression : option string;
  interval_minutes : option Z;
  time_of_day : option string;
  days_of_week : option (list Z);
  days_of_month : option (list Z);
  run_date : option string;
  sequential_execution : bool;
  retry_on_failure : bool;
  max_retries : Z
}.

(** [request.model_dump()]. *)
Definition model_dump (request : ScheduleCreateRequest) : gmap string value :=
  <["name" := VStr (name request)]>
  (<["description" := VStr (description request)]>
  (<["backup_types" := of_str_list (backup_types request)]>
  (<["schedule_type" := VStr (schedule_type request)]>
  (<["cron_expression" := of_opt_str (cron_expression request)]>
  (<["interval_minutes" := of_opt_int (interval_minutes request)]>
  (<["time_of_day" := of_opt_str (time_of_day request)]>
  (<["days_of_week" := of_opt_int_list (days_of_week request)]>
  (<["days_of_month" := of_opt_int_list (days_of_month request)]>
  (<["run_date" := of_opt_str (run_date request)]>
  (<["sequential_execution" := VBool (sequential_execution request)]>
  (<["retry_on_failure" := VBool (retry_on_failure request)]>
  (<["max_retries" := VInt (max_retries request)]> ∅)))))))))))).

(** [not x] for the optional parameters: [None], the empty string, zero
    and the empty list are false. *)
Definition missing_str (o : option string) : bool :=
  match o with
  | None | Some "" => true
  | Some _ => false
  end.

Definition missing_int (o : option Z) : bool :=
  match o with
  | None => true
  | Some n => n =? 0
  end.

Definition missing_list (o : option (list Z)) : bool :=
  match o with
  | None | Some [] => true
  | Some _ => false
  end.

Definition valid_types : list string :=
  ["mongodb"; "milvus"; "postgres"; "additional"; "global"].

(** The checks of [create_schedule(request)], in their order: the
    [HTTPException] of the first one that fails. *)
Definition validate (request : ScheduleCreateRequest) : result unit :=
  match List.find (fun bt => negb (existsb (String.eqb bt) valid_types))
          (backup_types request) with
  | Some bt => Raise (HTTPException 400 ("Tipo de backup inválido: " +:+ bt))
  | None =>
      let kind := schedule_type request in
      if String.eqb kind "cron" && missing_str (cron_expression request)
      then Raise (HTTPException 400
                    "Se requiere cron_expression para tipo cron")
      else if String.eqb kind "interval"
              && missing_int (interval_minutes request)
      then Raise (HTTPException 400
                    "Se requiere interval_minutes para tipo interval")
      else if existsb (String.eqb kind) ["daily"; "weekly"; "monthly"]
              && missing_str (time_of_day request)
      then Raise (HTTPException 400
                    ("Se requiere time_of_day para tipo " +:+ kind))
      else if String.eqb kind "weekly" && missing_list (days_of_week request)
      then Raise (HTTPException 400
                    "Se requiere days_of_week para tipo weekly")
      else if String.eqb kind "monthly"
              && missing_list (days_of_month request)
      then Raise (HTTPException 400
                    "Se requiere days_of_month para tipo monthly")
      else if String.eqb kind "once" && missing_str (run_date request)
      then Raise (HTTPException 400 "Se requiere run_date para tipo once")
      else Ok tt
  end.

(** [create_schedule(request)]: the global [backup_scheduler] as it
    leaves it, and the schedule whose [schedule_to_response] it
    returns, or the exception it raises. *)
Definition create_schedule `{TriggerLib}
    (backup_scheduler : option BackupScheduler.t)
    (request : ScheduleCreateRequest)
  : M (option BackupScheduler.t * result ScheduleConfig.t) :=
  match backup_scheduler with
  | None => ret (None, Raise (HTTPException 503 "Scheduler no inicializado"))
  | Some self =>
      match validate request with
      | Raise e => ret (Some self, Raise e)
      | Ok _ =>
          let* (self, r) :=
            BackupScheduler.create_schedule (model_dump request) self in
          match r with
          | Ok schedule => ret (Some self, Ok schedule)
          | Raise (ValueError m) => ret (Some self, Raise (HTTPException 400 m))
          | Raise e => ret (Some self, Raise e)
          end
      end
  end.

End Handlers.

(** The schedule that [ScheduleConfig.from_dict] makes of a request of
    the given kind, with the identity [create_schedule] gives it. *)
Definition created (request : Handlers.ScheduleCreateRequest)
    (kind : ScheduleType) (id created_at updated_at : string)
  : ScheduleConfig.t :=
  {| ScheduleConfig.id := id;
     ScheduleConfig.name := Handlers.name request;
     ScheduleConfig.description := Handlers.description request;
     ScheduleConfig.backup_types := Handlers.backup_types request;
     ScheduleConfig.schedule_type := kind;
     ScheduleConfig.status := ACTIVE;
     ScheduleConfig.cron_expression := Handlers.cron_expression request;
     ScheduleConfig.interval_minutes := Handlers.interval_minutes request;
     ScheduleConfig.time_of_day := Handlers.time_of_day request;
     ScheduleConfig.days_of_week := Handlers.days_of_week request;
     ScheduleConfig.days_of_month := Handlers.days_of_month request;
     ScheduleConfig.run_date := Handlers.run_date request;
     ScheduleConfig.created_at := created_at;
     ScheduleConfig.updated_at := updated_at;
     ScheduleConfig.last_run := None;
     ScheduleConfig.next_run := None;
     ScheduleConfig.run_count := 0;
     ScheduleConfig.last_status := None;
     ScheduleConfig.retry_on_failure := Handlers.retry_on_failure request;
     ScheduleConfig.max_retries := Handlers.max_retries request;
     ScheduleConfig.notification_email := None;
     ScheduleConfig.sequential_execution := Handlers.sequential_execution request |}.

(** The parameter that the kind of a schedule needs is there. *)
Definition has_its_parameter (s : ScheduleConfig.t) : Prop :=
  match ScheduleConfig.schedule_type s with
  | CRON => Handlers.missing_str (ScheduleConfig.cron_expression s) = false
  | INTERVAL => Handlers.missing_int (ScheduleConfig.interval_minutes s) = false
  | DAILY => Handlers.missing_str (ScheduleConfig.time_of_day s) = false
  | WEEKLY =>
      Handlers.missing_str (ScheduleConfig.time_of_day s) = false
      /\ Handlers.missing_list (ScheduleConfig.days_of_week s) = false
  | MONTHLY =>
      Handlers.missing_str (ScheduleConfig.time_of_day s) = false
      /\ Handlers.missing_list (ScheduleConfig.days_of_month s) = false
  | ONCE => Handlers.missing_str (ScheduleConfig.run_date s) = false
  end.

(** A task record differs from another one at most by lines appended
    to its output. *)
Definition extends (t t' : Main.Task) (lines : list string) : Prop :=
  Main.output t' = (Main.output t ++ lines)%list
  /\ Main.task_id t' = Main.task_id t
  /\ Main.backup_type t' = Main.backup_type t
  /\ Main.status t' = Main.status t
  /\ Main.started_at t' = Main.started_at t
  /\ Main.completed_at t' = Main.completed_at t
  /\ Main.error t' = Main.error t
  /\ Main.schedule_id t' = Main.schedule_id t.

(** The line that announces a component, and the line for a component
    whose backup is not there. *)
Definition announced (component : string) : string :=
  "🔄 Restaurando " +:+ component +:+ "...".

Definition not_found (component timestamp : string) : string :=
  "⚠️ No se encontró backup de " +:+ component +:+ " para " +:+ timestamp.

(* ===================================================================== *)
(** * Properties                                                          *)
(* ===================================================================== *)

(** ** Execution history *)

Section History.
Import ScheduleHistory.

Lemma py_slice_to_cap {A} (l : list A) (n : Z) :
  0 <= n -> py_slice_to l n = take (Z.to_nat n) l.
Proof.
  intros Hn. unfold py_slice_to.
  destruct (Z.ltb_spec n 0); [lia | reflexivity].
Qed.

(** One call of [add] on a history within its cap. *)
Lemma add_entries (a : Args) (h : t) (w : World) :
  1 <= max_entries h ->
  Z.of_nat (length (entries h)) <= max_entries h ->
  exists e,
    entries (add_args a h w).1
      = e :: take (Z.to_nat (max_entries h - 1)) (entries h)
    /\ max_entries (add_args a h w).1 = max_entries h
    /\ (e_schedule_id e, e_schedule_name e, e_backup_types e, e_status e,
        e_duration_seconds e, e_message e) = a.
Proof.
  intros Hmax Hlen.
  destruct a as [[[[[sid sname] types] st] dur] msg].
  unfold add_args, add, bindM, uuid4, now, ret; cbn [fst snd].
  set (e := mkEntry _ _ _ _ _ _ _ _).
  exists e.
  destruct (Z.ltb_spec (max_entries h) (Z.of_nat (length (e :: entries h))))
    as [Hover | Hfit]; cbn [fst entries max_entries].
  - rewrite py_slice_to_cap by lia.
    replace (Z.to_nat (max_entries h)) with (S (Z.to_nat (max_entries h - 1)))
      by lia.
    auto.
  - cbn [length] in Hfit.
    rewrite take_ge by lia. auto.
Qed.

Lemma add_all_invariant (calls : list Args) (h : t) (w : World) :
  1 <= max_entries h ->
  Z.of_nat (length (entries h)) <= max_entries h ->
  max_entries (add_all calls h w).1 = max_entries h
  /\ Z.of_nat (length (entries (add_all calls h w).1)) <= max_entries h.
Proof.
  revert h w. induction calls as [|a calls IH]; intros h w Hmax Hlen.
  - cbn. auto.
  - cbn [add_all]. unfold bindM.
    destruct (add_args a h w) as [h1 w1] eqn:Hadd.
    destruct (add_entries a h w Hmax Hlen) as (e & Hent & Hm & _).
    rewrite Hadd in Hent, Hm. cbn [fst] in Hent, Hm.
    destruct (IH h1 w1) as [IH1 IH2].
    + lia.
    + rewrite Hent, Hm. cbn [length]. rewrite length_take. lia.
    + rewrite IH1, Hm. split; [reflexivity | lia].
Qed.
End History.

(** C5.  From the empty history of [__init__] with a cap of at least one
    entry, after any sequence of [add] calls the list holds at most [cap]
    entries; one more [add] puts its entry at the head and keeps the
    previous entries in order up to [cap - 1] of them, so that on a full
    list exactly the entry at the tail, the oldest, is dropped. *)
Theorem history_never_exceeds_cap
    (cap : Z) (calls : list ScheduleHistory.Args) (w : World)
    (a : ScheduleHistory.Args) (w' : World) :
  1 <= cap ->
  let h := (ScheduleHistory.add_all calls (ScheduleHistory.init cap) w).1 in
  let h' := (ScheduleHistory.add_args a h w').1 in
  Z.of_nat (length (ScheduleHistory.entries h)) <= cap
  /\ Z.of_nat (length (ScheduleHistory.entries h')) <= cap
  /\ exists e,
       ScheduleHistory.entries h'
         = e :: take (Z.to_nat (cap - 1)) (ScheduleHistory.entries h)
       /\ (ScheduleHistory.e_schedule_id e, ScheduleHistory.e_schedule_name e,
           ScheduleHistory.e_backup_types e, ScheduleHistory.e_status e,
           ScheduleHistory.e_duration_seconds e, ScheduleHistory.e_message e)
          = a.
Proof.
  intros Hcap h h'.
  destruct (add_all_invariant calls (ScheduleHistory.init cap) w) as [Hm Hl];
    [cbn; lia | cbn; lia |].
  cbn [ScheduleHistory.init ScheduleHistory.max_entries] in Hm, Hl.
  fold h in Hm, Hl.
  destruct (add_entries a h w') as (e & Hent & _ & Ha); [lia | lia |].
  fold h' in Hent. rewrite Hm in Hent.
  split; [exact Hl | split].
  - rewrite Hent. cbn [length]. rewrite length_take. lia.
  - exists e. auto.
Qed.

(** The cap at two entries: a third call drops the first. *)
Lemma history_never_exceeds_cap_witness :
  let w := mkWorld (fun n => Z.of_nat n) 0 (fun _ => "0123456789abcdef") 0
             Missing true [] [] in
  let h := (ScheduleHistory.add_all
              [("a", "A", ["mongodb"], "success", 1, "ok");
               ("b", "B", ["global"], "failed", 2, "boom")]
              (ScheduleHistory.init 2) w).1 in
  let h' := (ScheduleHistory.add_args ("c", "C", [], "success", 3, "ok") h w).1 in
  1 <= 2
  /\ Z.of_nat (length (ScheduleHistory.entries h')) <= 2
  /\ ScheduleHistory.e_schedule_id <$> ScheduleHistory.entries h = ["b"; "a"]
  /\ ScheduleHistory.e_schedule_id <$> ScheduleHistory.entries h' = ["c"; "b"].
Proof.
  intros w h h'.
  assert (Hcap : 1 <= 2) by lia.
  pose proof (history_never_exceeds_cap 2
    [("a", "A", ["mongodb"], "success", 1, "ok");
     ("b", "B", ["global"], "failed", 2, "boom")] w
    ("c", "C", [], "success", 3, "ok") w Hcap) as (_ & Hle & _).
  split; [exact Hcap | split; [exact Hle | split; reflexivity]].
Defined.

(** ** Serialisation of a schedule *)

Section RoundTrip.
Import ScheduleConfig.

Lemma ScheduleType_of_value (t : ScheduleType) :
  ScheduleType_of (ScheduleType_value t) = Ok t.
Proof. destruct t; reflexivity. Qed.

Lemma ScheduleStatus_of_value (t : ScheduleStatus) :
  ScheduleStatus_of (ScheduleStatus_value t) = Ok t.
Proof. destruct t; reflexivity. Qed.

Lemma as_str_list_of (l : list string) : as_str_list (of_str_list l) = Some l.
Proof.
  unfold as_str_list, as_list, of_str_list.
  induction l as [|x l IH]; [reflexivity |].
  cbn. cbn in IH. rewrite IH. reflexivity.
Qed.

Lemma as_opt_str_of (o : option string) : as_opt_str (of_opt_str o) = Some o.
Proof. destruct o; reflexivity. Qed.

Lemma as_opt_int_of (o : option Z) : as_opt_int (of_opt_int o) = Some o.
Proof. destruct o; reflexivity. Qed.

Lemma as_opt_int_list_of (o : option (list Z)) :
  as_opt_int_list (of_opt_int_list o) = Some o.
Proof.
  destruct o as [l|]; [| reflexivity].
  unfold as_opt_int_list, as_optional, of_opt_int_list, of_optional, as_list.
  cbn. induction l as [|x l IH]; [reflexivity |].
  cbn. cbn in IH. destruct (mapM as_int (VInt <$> l)); [| discriminate].
  cbn in *. congruence.
Qed.

(** JSON leaves the values of every field but the two enumerations as
    they are. *)
Lemma json_roundtrip_str_list (l : list string) :
  json_roundtrip (of_str_list l) = of_str_list l.
Proof.
  unfold of_str_list. cbn. f_equal.
  induction l as [|x l IH]; [reflexivity | cbn; f_equal; exact IH].
Qed.

Lemma json_roundtrip_opt_int_list (o : option (list Z)) :
  json_roundtrip (of_opt_int_list o) = of_opt_int_list o.
Proof.
  destruct o as [l|]; [| reflexivity].
  unfold of_opt_int_list, of_optional. cbn. f_equal.
  induction l as [|x l IH]; [reflexivity | cbn; f_equal; exact IH].
Qed.

Lemma json_roundtrip_opt_str (o : option string) :
  json_roundtrip (of_opt_str o) = of_opt_str o.
Proof. destruct o; reflexivity. Qed.

Lemma json_roundtrip_opt_int (o : option Z) :
  json_roundtrip (of_opt_int o) = of_opt_int o.
Proof. destruct o; reflexivity. Qed.

Lemma hasattr_field_name (f : Field) : hasattr (field_name f) = Some f.
Proof. destruct f; reflexivity. Qed.

Lemma to_dict_lookup (s : t) (f : Field) :
  to_dict s !! field_name f = Some (getattr f s).
Proof. destruct f; vm_compute; reflexivity. Qed.


(** The constructor rebuilds a schedule from a dictionary that holds
    the value of each of its fields and no other key. *)
Lemma cls_of_fields (created updated : datetime.t)
    (data : gmap string value) (s : t) :
  (forall f, data !! field_name f = Some (getattr f s)) ->
  (forall k, is_Some (data !! k) -> is_Some (hasattr k)) ->
  cls created updated data = Ok s.
Proof.
  intros Hget Hkeys. unfold cls.
  rewrite bool_decide_eq_true_2; cycle 1.
  { intros k v Hk. apply Hkeys. eauto. }
  cbn [negb].
  replace (forallb _ required) with true; cycle 1.
  { symmetry. apply forallb_forall. intros f _.
    apply bool_decide_eq_true_2. rewrite Hget. eauto. }
  cbn [negb]. unfold fields. cbn [foldl].
  rewrite !Hget. destruct s. cbn [getattr].
  cbn -[as_str_list as_opt_str as_opt_int as_opt_int_list of_str_list
        of_opt_str of_opt_int of_opt_int_list].
  rewrite ?as_str_list_of, ?as_opt_str_of, ?as_opt_int_of, ?as_opt_int_list_of.
  reflexivity.
Qed.

Lemma to_dict_keys (s : t) (k : string) :
  is_Some (to_dict s !! k) -> is_Some (hasattr k).
Proof.
  intros [v Hv]. unfold to_dict in Hv.
  apply elem_of_list_to_map_2 in Hv.
  apply list_elem_of_fmap in Hv as (f & Heq & _).
  inversion Heq; subst. rewrite hasattr_field_name. eauto.
Qed.

Lemma json_roundtrip_getattr (f : Field) (s : t) :
  f <> F_schedule_type -> f <> F_status ->
  json_roundtrip (getattr f s) = getattr f s.
Proof.
  intros Ht Hs.
  destruct f; try congruence; cbn [getattr];
    auto using json_roundtrip_str_list, json_roundtrip_opt_int_list,
               json_roundtrip_opt_str, json_roundtrip_opt_int.
Qed.

Lemma field_name_inj (f g : Field) : field_name f = field_name g -> f = g.
Proof.
  intros Heq.
  assert (Hs : Some f = Some g)
    by (rewrite <- (hasattr_field_name f), <- (hasattr_field_name g);
        congruence).
  congruence.
Qed.

(** [from_dict] on a dictionary whose two enumeration entries are
    strings or members, and whose other entries are the field values. *)
Lemma from_dict_of_fields (created updated : datetime.t)
    (data : gmap string value) (s : t) :
  (forall f, f <> F_schedule_type -> f <> F_status ->
             data !! field_name f = Some (getattr f s)) ->
  data !! "schedule_type" ≫= str_of = Some (ScheduleType_value (schedule_type s)) ->
  data !! "status" ≫= str_of = Some (ScheduleStatus_value (status s)) ->
  (forall k, is_Some (data !! k) -> is_Some (hasattr k)) ->
  from_dict created updated data = Ok s.
Proof.
  intros Hget Htype Hstatus Hkeys.
  unfold from_dict, convert_enum.
  rewrite Htype. unfold to_schedule_type at 1.
  rewrite ScheduleType_of_value. cbn [bind_result].
  rewrite lookup_insert_ne by discriminate.
  rewrite Hstatus. unfold to_status at 1.
  rewrite ScheduleStatus_of_value. cbn [bind_result].
  apply cls_of_fields.
  - intros f.
    destruct (decide (f = F_status)) as [-> | Hs].
    { cbn [field_name getattr]. apply lookup_insert_eq. }
    rewrite lookup_insert_ne
      by (intros Heq; apply Hs; symmetry; exact (field_name_inj F_status f Heq)).
    destruct (decide (f = F_schedule_type)) as [-> | Ht].
    { cbn [field_name getattr]. apply lookup_insert_eq. }
    rewrite lookup_insert_ne
      by (intros Heq; apply Ht; symmetry;
          exact (field_name_inj F_schedule_type f Heq)).
    auto.
  - intros k Hk.
    destruct (decide ("status" = k)) as [<- | Hs]; [vm_compute; eauto |].
    rewrite lookup_insert_ne in Hk by done.
    destruct (decide ("schedule_type" = k)) as [<- | Ht]; [vm_compute; eauto |].
    rewrite lookup_insert_ne in Hk by done. auto.
Qed.

(** Through JSON and back. *)
Lemma from_dict_json_to_dict (created updated : datetime.t) (s : t) :
  from_dict created updated (json_roundtrip <$> to_dict s) = Ok s.
Proof.
  pose proof (to_dict_lookup s F_schedule_type) as Htype.
  pose proof (to_dict_lookup s F_status) as Hstatus.
  cbn [field_name getattr] in Htype, Hstatus.
  apply from_dict_of_fields.
  - intros f Ht Hs. rewrite lookup_fmap, to_dict_lookup. cbn.
    f_equal. apply json_roundtrip_getattr; assumption.
  - rewrite lookup_fmap, Htype. reflexivity.
  - rewrite lookup_fmap, Hstatus. reflexivity.
  - intros k Hk. rewrite lookup_fmap in Hk. apply (to_dict_keys s).
    destruct (to_dict s !! k); [eauto | destruct Hk; discriminate].
Qed.

End RoundTrip.

(** C6.  A schedule written by [to_dict] and carried through JSON, as
    [_save_schedules] does, is rebuilt by [from_dict], as [_load_schedules]
    does, equal to the original in every field, the members of the two
    enumerations included; and so it is without the passage through
    JSON. *)
Theorem to_dict_from_dict_roundtrip
    (s : ScheduleConfig.t) (created updated : datetime.t) :
  ScheduleConfig.from_dict created updated
    (json_roundtrip <$> ScheduleConfig.to_dict s) = Ok s
  /\ ScheduleConfig.from_dict created updated (ScheduleConfig.to_dict s) = Ok s.
Proof.
  split; [apply from_dict_json_to_dict |].
  pose proof (to_dict_lookup s ScheduleConfig.F_schedule_type) as Htype.
  pose proof (to_dict_lookup s ScheduleConfig.F_status) as Hstatus.
  cbn [ScheduleConfig.field_name ScheduleConfig.getattr] in Htype, Hstatus.
  apply from_dict_of_fields.
  - intros f _ _. apply to_dict_lookup.
  - rewrite Htype. reflexivity.
  - rewrite Hstatus. reflexivity.
  - apply to_dict_keys.
Qed.

(** ** Persisting and reloading the job set *)

Section Persistence.
Import ScheduleConfig BackupScheduler.

(** A record that [_save_schedules] wrote holds both stamps: reading it
    back costs no reading of the clock. *)
Lemma from_dict_dumped (s : ScheduleConfig.t) (w : World) :
  BackupScheduler.from_dict_now (json_roundtrip <$> to_dict s) w = (Ok s, w).
Proof.
  unfold BackupScheduler.from_dict_now.
  pose proof (to_dict_lookup s F_created_at) as Hc.
  pose proof (to_dict_lookup s F_updated_at) as Hu.
  cbn [field_name] in Hc, Hu.
  rewrite !lookup_fmap, Hc, Hu. cbn [fmap option_fmap option_map].
  rewrite from_dict_json_to_dict.
  destruct w. reflexivity.
Qed.

Lemma load_records_dumped (ss : list ScheduleConfig.t) (self : t) (w : World) :
  load_records ((fun s => json_roundtrip <$> to_dict s) <$> ss) self w
  = ((set_schedules
        (foldl (fun m s => <[id s := s]> m) (schedules self) ss) self,
      None), w).
Proof.
  revert self. induction ss as [| s ss IH]; intros self.
  - destruct self. reflexivity.
  - cbn [fmap list_fmap load_records]. unfold bindM.
    rewrite from_dict_dumped, IH. reflexivity.
Qed.

Lemma foldl_insert_lookup (l : list (string * ScheduleConfig.t))
    (m0 : gmap string ScheduleConfig.t) (k : string) :
  NoDup l.*1 ->
  (forall k' s, (k', s) ∈ l -> id s = k') ->
  foldl (fun m s => <[id s := s]> m) m0 l.*2 !! k
  = match (list_to_map l : gmap string ScheduleConfig.t) !! k with
    | Some s => Some s
    | None => m0 !! k
    end.
Proof.
  revert m0. induction l as [| [k0 s0] l IH]; intros m0 Hnodup Hids.
  - reflexivity.
  - cbn [fmap list_fmap snd fst foldl] in *.
    apply NoDup_cons in Hnodup as [Hfresh Hnodup].
    assert (Hk0 : id s0 = k0) by (apply Hids; left).
    rewrite IH; [| exact Hnodup | intros k' s Hin; apply Hids; right; exact Hin].
    rewrite Hk0. cbn [list_to_map foldr uncurry fst snd].
    destruct (decide (k = k0)) as [-> | Hne].
    + rewrite (not_elem_of_list_to_map_1 _ _ Hfresh), !lookup_insert_eq.
      reflexivity.
    + rewrite !lookup_insert_ne by congruence. reflexivity.
Qed.

(** The job set written by [_save_schedules] and read back by
    [_load_schedules] into an empty store is the job set that was
    saved. *)
Lemma save_then_load (self : t) (w : World) :
  writable w = true ->
  (forall k s, schedules self !! k = Some s -> id s = k) ->
  schedules
    (_load_schedules (set_schedules ∅ self) (_save_schedules self w).2).1
  = schedules self.
Proof.
  intros Hwritable Hids.
  unfold _save_schedules, bindM, now, write_file. cbn [fst snd writable].
  rewrite Hwritable. unfold logger. cbn [snd].
  unfold _load_schedules, bindM, read_file. cbn [fst snd file].
  unfold dumped. rewrite load_records_dumped. cbn [fst snd].
  unfold logger, ret. cbn [fst schedules set_schedules].
  apply map_eq. intros k.
  rewrite foldl_insert_lookup.
  - rewrite list_to_map_to_list, lookup_empty.
    destruct (schedules self !! k); reflexivity.
  - apply NoDup_fst_map_to_list.
  - intros k' s Hin. apply elem_of_map_to_list in Hin. exact (Hids k' s Hin).
Qed.
End Persistence.

(** ** Loading the persisted job set *)

Section Loading.
Import BackupScheduler.

End Loading.




(** ** Updating a schedule *)

Section Update.
Import ScheduleConfig BackupScheduler.
Context `{TriggerLib}.

(** An assignment to one attribute leaves the others as they are. *)
Lemma setattr_frame (g f : Field) (v : value) (s s' : ScheduleConfig.t) :
  setattr g v s = Some s' -> f <> g -> getattr f s' = getattr f s.
Proof.
  intros Hset Hne.
  destruct g; cbn [setattr] in Hset;
    apply bind_Some in Hset as (x & _ & [= <-]);
    destruct f; try congruence; destruct s; reflexivity.
Qed.





Lemma getattr_set_next_run (x : option string) (s : ScheduleConfig.t)
    (f : Field) :
  f <> F_next_run -> getattr f (set_next_run x s) = getattr f s.
Proof. intros Hne. destruct f; try congruence; destruct s; reflexivity. Qed.

Lemma schedules_store (sid : string) (o : ScheduleConfig.t) (self : t)
    (k : string) :
  schedules (store sid o self) !! k
  = if decide (k = sid) then (fun _ => o) <$> schedules self !! k
    else schedules self !! k.
Proof.
  unfold store, set_schedules. cbn [schedules].
  destruct (decide (k = sid)) as [-> | Hne].
  - apply lookup_alter_eq.
  - apply lookup_alter_ne. congruence.
Qed.

(** Registration touches the store at most in [next_run] of the
    schedule it registers. *)
Lemma _register_schedule_frame (sid : string) (self : t) (w : World)
    (s : ScheduleConfig.t) :
  schedules self !! sid = Some s ->
  (exists s', schedules (_register_schedule sid self w).1 !! sid = Some s'
              /\ forall f, f <> F_next_run -> getattr f s' = getattr f s)
  /\ forall k, k <> sid ->
       schedules (_register_schedule sid self w).1 !! k = schedules self !! k.
Proof.
  intros Hs. unfold _register_schedule. rewrite Hs.
  destruct (_get_trigger s) as [trigger | e].
  2:{ split; [exists s; split; [exact Hs | reflexivity] | reflexivity]. }
  unfold bindM, now, logger, ret; cbn [fst snd].
  destruct (get_next_fire_time trigger _) as [[x |] | e]; cbn [fst snd].
  - split.
    + eexists. rewrite schedules_store, decide_True by reflexivity.
      cbn [schedules set_scheduler remove_job]. rewrite Hs. cbn.
      split; [reflexivity |]. intros f Hf. apply getattr_set_next_run, Hf.
    + intros k Hk. rewrite schedules_store, decide_False by exact Hk.
      reflexivity.
  - split; [exists s; split; [exact Hs | reflexivity] | reflexivity].
  - split; [exists s; split; [exact Hs | reflexivity] | reflexivity].
Qed.

Lemma _unregister_schedule_schedules (sid : string) (self : t) (w : World) :
  schedules (_unregister_schedule sid self w).1 = schedules self.
Proof.
  unfold _unregister_schedule.
  destruct (jobs (scheduler self) !! sid); reflexivity.
Qed.
End Update.

(** C10, as stated, fails: an update under the key [__dict__] replaces
    all the attributes of the schedule, so the schedule stored under
    ["a"] ends with the [id] ["b"] and another [created_at]. *)
Lemma update_of_dict_attribute_rewrites_id :
  ~ update_keeps_id_and_created_at SpecTriggers.lib.
Proof.
  intros Hclaim.
  pose (self := sample_scheduler None [sample_schedule "a"]).
  pose (updates :=
          [("__dict__",
            VDict (ScheduleConfig.items
                     (ScheduleConfig.set_created_at "2000-01-01T00:00:00"
                        (sample_schedule "b"))))]).
  destruct (Hclaim "a" updates self (sample_world Missing) (sample_schedule "a")
              eq_refl) as (s' & Hs' & Hid & _).
  assert (Hnew : ScheduleConfig.id
                   <$> BackupScheduler.schedules
                         (BackupScheduler.update_schedule (H := SpecTriggers.lib)
                            "a" updates self (sample_world Missing)).1.1 !! "a"
                 = Some "b") by (vm_compute; reflexivity).
  rewrite Hs' in Hnew. cbn in Hnew. rewrite Hid in Hnew. discriminate.
Qed.



(** ** The gate *)

(** ** What a computation leaves of the world as it is *)

Lemma quiet_ret {A} (a : A) : quiet (ret a).
Proof. intros w. split; reflexivity. Qed.

Lemma quiet_bind {A B} (c : M A) (k : A -> M B) :
  quiet c -> (forall a, quiet (k a)) -> quiet (bindM c k).
Proof.
  intros Hc Hk w. unfold bindM.
  destruct (c w) as [a w1] eqn:Hcw.
  destruct (Hc w) as [Hc1 Hc2]. rewrite Hcw in Hc1, Hc2. cbn in Hc1, Hc2.
  destruct (Hk a w1) as [Hk1 Hk2]. split; congruence.
Qed.

Lemma quiet_now : quiet now.
Proof. intros w. split; reflexivity. Qed.

Lemma quiet_uuid4 : quiet uuid4.
Proof. intros w. split; reflexivity. Qed.

Lemma quiet_logger (r : LogRecord) : quiet (logger r).
Proof. intros w. split; reflexivity. Qed.

Lemma quiet_write_file (f : File) : quiet (write_file f).
Proof. intros w. unfold write_file. destruct (writable w); split; reflexivity. Qed.

Create HintDb quiet.
#[local] Hint Resolve quiet_ret quiet_now quiet_uuid4 quiet_logger
  quiet_write_file : quiet.

Ltac quiet :=
  repeat first
    [ progress cbv zeta
    | apply quiet_bind; [| intros ?]
    | solve [eauto with quiet]
    | match goal with
      | |- quiet (match ?x with _ => _ end) => destruct x
      | |- quiet (let '(_, _) := ?x in _) => destruct x
      end ].

Section Firing.
Import ScheduleConfig BackupScheduler.
Context `{TriggerLib}.

Lemma quiet_add sid sname types st dur msg (h : ScheduleHistory.t) :
  quiet (ScheduleHistory.add sid sname types st dur msg h).
Proof. unfold ScheduleHistory.add. quiet. Qed.

Lemma quiet_calculate_next_run (s : ScheduleConfig.t) :
  quiet (_calculate_next_run s).
Proof. unfold _calculate_next_run, next_run_or_none. quiet. Qed.

Lemma quiet_save_schedules (self : t) : quiet (_save_schedules self).
Proof. unfold _save_schedules. quiet. Qed.

#[local] Hint Resolve quiet_add quiet_calculate_next_run
  quiet_save_schedules : quiet.

Lemma quiet_finally (self : t) : quiet (finally self).
Proof. unfold finally. quiet. Qed.

#[local] Hint Resolve quiet_finally : quiet.

Lemma quiet_on_success sid seen start (self : t) :
  quiet (on_success sid seen start self).
Proof. unfold on_success. quiet. Qed.

Lemma quiet_on_failure sid seen start e (self : t) :
  quiet (on_failure sid seen start e self).
Proof. unfold on_failure. quiet. Qed.

(** ** The gate along one firing *)

Lemma finally_gate (self : t) (w : World) :
  _running_backup (finally self w).1 = false.
Proof.
  unfold finally, bindM.
  destruct (_save_schedules _ w) as [[] w1]. reflexivity.
Qed.

Lemma on_success_gate sid seen start (self : t) (w : World) :
  _running_backup (on_success sid seen start self w).1 = false.
Proof.
  unfold on_success, bindM.
  repeat match goal with
         | |- context [let '(_, _) := ?c in _] => destruct c
         end.
  apply finally_gate.
Qed.

Lemma on_failure_gate sid seen start e (self : t) (w : World) :
  _running_backup (on_failure sid seen start e self w).1 = false.
Proof.
  unfold on_failure, bindM.
  repeat match goal with
         | |- context [let '(_, _) := ?c in _] => destruct c
         end.
  apply finally_gate.
Qed.

(** [proceed] either suspends in the next invocation, the gate as it
    was, or ends with the gate cleared. *)
Lemma proceed_gate sid seen start todo (self self' : t) (w w' : World)
    (f' : Firing) :
  proceed sid seen start todo self w = ((self', f'), w') ->
  (in_flight f' = true /\ self' = self)
  \/ (f' = Ended /\ _running_backup self' = false).
Proof.
  unfold proceed. destruct todo as [| backup_type rest].
  - unfold bindM, ret.
    pose proof (on_success_gate sid seen start self w) as Hgate.
    destruct (on_success sid seen start self w) as [self1 w1].
    intros [= <- <- <-]. right. auto.
  - unfold bindM, record_call, ret. intros [= <- <- <-]. left. auto.
Qed.

(** A firing that finds the gate set ends at once: the scheduler is as
    it was and no invocation has been started. *)
Lemma begin_gate_set sid (self self' : t) (w w' : World) (f' : Firing) :
  _running_backup self = true ->
  begin sid self w = ((self', f'), w') ->
  self' = self /\ f' = Ended /\ calls w' = calls w.
Proof.
  intros Hgate. unfold begin.
  destruct (schedules self !! sid) as [s |].
  - destruct (negb (bool_decide (status s = ACTIVE))).
    + intros [= <- <- <-]. auto.
    + rewrite Hgate. intros [= <- <- <-]. auto.
  - intros [= <- <- <-]. auto.
Qed.

Lemma begin_gate_free sid (self self' : t) (w w' : World) (f' : Firing) :
  _running_backup self = false ->
  begin sid self w = ((self', f'), w') ->
  (in_flight f' = true /\ _running_backup self' = true)
  \/ (f' = Ended /\ _running_backup self' = false).
Proof.
  intros Hgate. unfold begin.
  destruct (schedules self !! sid) as [s |].
  2:{ intros [= <- <- <-]. right. auto. }
  destruct (negb (bool_decide (status s = ACTIVE))).
  { intros [= <- <- <-]. right. auto. }
  rewrite Hgate. unfold bindM at 1. unfold now at 1. unfold bindM at 1.
  unfold logger at 1. cbn [fst snd].
  destruct (invocations _ s) as [todo | e].
  - intros Hp. apply proceed_gate in Hp as [[Hf ->] | [-> Hg]]; auto.
  - unfold bindM, ret.
    match goal with
    | |- context [on_failure ?a ?b ?c ?d ?e ?w] =>
        pose proof (on_failure_gate a b c d e w) as Hfail;
        destruct (on_failure a b c d e w) as [self1 w1]
    end.
    intros [= <- <- <-]. right. auto.
Qed.

Lemma resume_gate sid seen start rest o (self self' : t) (w w' : World)
    (f' : Firing) :
  resume sid seen start rest o self w = ((self', f'), w') ->
  (in_flight f' = true /\ self' = self)
  \/ (f' = Ended /\ _running_backup self' = false).
Proof.
  unfold resume. destruct o as [| e |].
  - apply proceed_gate.
  - unfold bindM, ret.
    pose proof (on_failure_gate sid seen start e self w) as Hfail.
    destruct (on_failure sid seen start e self w) as [self1 w1].
    intros [= <- <- <-]. right. auto.
  - unfold bindM, ret.
    pose proof (finally_gate self w) as Hfin.
    destruct (finally self w) as [self1 w1].
    intros [= <- <- <-]. right. auto.
Qed.

(** Every way out of a firing that holds the gate clears it. *)
Lemma step_in_flight (f f' : Firing) (self self' : t) (w w' : World) :
  in_flight f = true ->
  step f self w = ((self', f'), w') ->
  (in_flight f' = true /\ self' = self)
  \/ (f' = Ended /\ _running_backup self' = false).
Proof.
  destruct f as [| sid seen start backup_type rest |]; try discriminate.
  intros _. cbn [step]. unfold bindM, outcome_of.
  destruct (backup_callback self); apply resume_gate.
Qed.

(** ** The gate over the event loop *)

Lemma flying_app (l1 l2 : list Firing) : flying (l1 ++ l2) = (flying l1 + flying l2)%nat.
Proof. unfold flying. rewrite List.filter_app, length_app. reflexivity. Qed.

Lemma flying_insert (l : list Firing) (i : nat) (f f' : Firing) :
  l !! i = Some f ->
  (flying (<[i := f']> l) + (if in_flight f then 1 else 0)
   = flying l + (if in_flight f' then 1 else 0))%nat.
Proof.
  revert i. induction l as [| g l IH]; intros [| i] Hi; try discriminate.
  - cbn in Hi. inversion Hi; subst g. unfold flying.
    change (<[0%nat := f']> (f :: l)) with (f' :: l). cbn [List.filter].
    destruct (in_flight f), (in_flight f'); cbn [length]; lia.
  - cbn in Hi. specialize (IH i Hi). unfold flying in *.
    change (<[S i := f']> (g :: l)) with (g :: <[i := f']> l).
    cbn [List.filter].
    destruct (in_flight g); cbn [length]; lia.
Qed.

Lemma flying_unique (l : list Firing) (i j : nat) (fi fj : Firing) :
  (flying l <= 1)%nat ->
  l !! i = Some fi -> l !! j = Some fj ->
  in_flight fi = true -> in_flight fj = true -> i = j.
Proof.
  revert i j. induction l as [| g l IH]; intros i j Hle Hi Hj Hfi Hfj.
  - discriminate.
  - unfold flying in *. cbn in Hle.
    assert (Hnone : forall k f, in_flight g = true -> l !! k = Some f ->
                                in_flight f = true -> False).
    { intros k f Hg Hk Hf. rewrite Hg in Hle. cbn in Hle.
      assert (Hin : f ∈ List.filter in_flight l).
      { apply list_elem_of_In, List.filter_In. split; [| exact Hf].
        apply list_elem_of_In, list_elem_of_lookup. eauto. }
      destruct (List.filter in_flight l); [inversion Hin | cbn in Hle; lia]. }
    destruct i as [| i], j as [| j]; cbn in Hi, Hj.
    + reflexivity.
    + inversion Hi; subst g. exfalso. eauto.
    + inversion Hj; subst g. exfalso. eauto.
    + f_equal. apply (IH i j); try assumption.
      destruct (in_flight g); cbn in Hle; lia.
Qed.

Lemma gate_invariant_step (l l' : Loop) :
  gate_invariant l -> loop_step l l' -> gate_invariant l'.
Proof.
  unfold gate_invariant. intros Hinv Hstep.
  destruct Hstep as [l i f f' self' w' Hi Hlive Hrun | l sid];
    cbn [tasks self_].
  2:{ rewrite flying_app. unfold flying at 2. cbn. lia. }
  pose proof (flying_insert (tasks l) i f f' Hi) as Hcount.
  destruct (in_flight f) eqn:Hf.
  - (* the firing that holds the gate *)
    assert (Hgate : _running_backup (self_ l) = true).
    { destruct (_running_backup (self_ l)); [reflexivity |].
      assert (Hin : f ∈ List.filter in_flight (tasks l)).
      { apply list_elem_of_In, List.filter_In. split; [| exact Hf].
        apply list_elem_of_In, list_elem_of_lookup. eauto. }
      unfold flying in Hinv.
      destruct (List.filter in_flight (tasks l)); [inversion Hin | discriminate]. }
    rewrite Hgate in Hinv.
    destruct (step_in_flight f f' _ _ _ _ Hf Hrun) as [[Hf' ->] | [-> Hg]].
    + rewrite Hf' in Hcount. rewrite Hgate. lia.
    + rewrite Hg. cbn in Hcount. lia.
  - destruct f as [sid | |]; try discriminate; [| congruence].
    cbn [step] in Hrun.
    destruct (_running_backup (self_ l)) eqn:Hgate.
    + destruct (begin_gate_set sid _ _ _ _ _ Hgate Hrun) as (-> & -> & _).
      rewrite Hgate. cbn in Hcount. lia.
    + destruct (begin_gate_free sid _ _ _ _ _ Hgate Hrun)
        as [[Hf' Hg] | [-> Hg]]; rewrite Hg.
      * rewrite Hf' in Hcount. lia.
      * cbn in Hcount. lia.
Qed.

Lemma gate_invariant_reachable (l0 l : Loop) :
  gate_invariant l0 -> rtc loop_step l0 l -> gate_invariant l.
Proof.
  intros Hinv Hreach. induction Hreach as [| l0 l1 l Hstep _ IH].
  - exact Hinv.
  - apply IH. exact (gate_invariant_step l0 l1 Hinv Hstep).
Qed.

Lemma run_task_step (i : nat) (l : Loop) (f : Firing) :
  tasks l !! i = Some f -> f <> Ended -> loop_step l (run_task i l).
Proof.
  intros Hi Hlive. unfold run_task. rewrite Hi.
  apply (loop_run l i f _ _ _ Hi Hlive).
  destruct (step f (self_ l) (world l)) as [[self' f'] w']. reflexivity.
Qed.
End Firing.

(** C1.  From a loop whose gate is open and none of whose firings has an
    invocation in flight, whatever firings are dispatched and however
    the event loop interleaves them: in every state reached, at most one
    firing has the backup callback in flight; a firing that starts while
    the gate is set ends at once, the scheduler as it was (nothing is
    queued) and no invocation started; and every step that ends a firing
    which held the gate, or which found it open, leaves the gate
    cleared, whether the callback returned, raised or was cancelled. *)
Theorem at_most_one_backup_in_flight `{TriggerLib}
    (l0 l : BackupScheduler.Loop) :
  BackupScheduler._running_backup (BackupScheduler.self_ l0) = false ->
  flying (BackupScheduler.tasks l0) = 0%nat ->
  rtc BackupScheduler.loop_step l0 l ->
  (forall i j fi fj,
     BackupScheduler.tasks l !! i = Some fi ->
     BackupScheduler.tasks l !! j = Some fj ->
     in_flight fi = true -> in_flight fj = true -> i = j)
  /\ (forall schedule_id self' f' w',
        BackupScheduler._running_backup (BackupScheduler.self_ l) = true ->
        BackupScheduler.step (BackupScheduler.Created schedule_id)
          (BackupScheduler.self_ l) (BackupScheduler.world l)
        = ((self', f'), w') ->
        self' = BackupScheduler.self_ l /\ f' = BackupScheduler.Ended
        /\ calls w' = calls (BackupScheduler.world l))
  /\ (forall f self' w',
        f <> BackupScheduler.Ended ->
        in_flight f = true
        \/ BackupScheduler._running_backup (BackupScheduler.self_ l) = false ->
        BackupScheduler.step f (BackupScheduler.self_ l) (BackupScheduler.world l)
        = ((self', BackupScheduler.Ended), w') ->
        BackupScheduler._running_backup self' = false).
Proof.
  intros Hgate Hnone Hreach.
  assert (Hinv : gate_invariant l).
  { apply (gate_invariant_reachable l0 l); [| exact Hreach].
    unfold gate_invariant. rewrite Hgate. exact Hnone. }
  split; [| split].
  - intros i j fi fj. apply flying_unique.
    unfold gate_invariant in Hinv. rewrite Hinv.
    destruct (BackupScheduler._running_backup (BackupScheduler.self_ l)); lia.
  - intros sid self' f' w' Hset Hrun. cbn [BackupScheduler.step] in Hrun.
    exact (begin_gate_set sid _ _ _ _ _ Hset Hrun).
  - intros f self' w' Hlive Hf Hrun.
    destruct (in_flight f) eqn:Hfly.
    + destruct (step_in_flight f _ _ _ _ _ Hfly Hrun) as [[Hf' _] | [_ Hg]];
        [discriminate | exact Hg].
    + destruct Hf as [Hf | Hfree]; [discriminate |].
      destruct f as [sid | |]; try discriminate; [| congruence].
      cbn [BackupScheduler.step] in Hrun.
      destruct (begin_gate_free sid _ _ _ _ _ Hfree Hrun) as [[Hf' _] | [_ Hg]];
        [discriminate | exact Hg].
Qed.

(** Two firings dispatched together: the first takes the gate and
    suspends in its invocation; the second, run meanwhile, is skipped. *)
Lemma at_most_one_backup_in_flight_witness :
  let lib := SpecTriggers.lib in
  let l0 := BackupScheduler.mkLoop
              (sample_scheduler (Some always_returns)
                 [sample_schedule "a"; sample_schedule "b"])
              (sample_world Missing)
              [BackupScheduler.Created "a"; BackupScheduler.Created "b"] in
  let l := run_task 1 (run_task 0 l0) in
  in_flight <$> BackupScheduler.tasks l = [true; false]
  /\ calls (BackupScheduler.world l) = [("global", "a")]
  /\ forall i j fi fj,
       BackupScheduler.tasks l !! i = Some fi ->
       BackupScheduler.tasks l !! j = Some fj ->
       in_flight fi = true -> in_flight fj = true -> i = j.
Proof.
  intros lib l0 l.
  split; [vm_compute; reflexivity | split; [vm_compute; reflexivity |]].
  apply (at_most_one_backup_in_flight l0 l); [reflexivity | reflexivity |].
  eapply rtc_l; [| eapply rtc_l; [| apply rtc_refl]].
  - apply (run_task_step 0 l0 (BackupScheduler.Created "a"));
      [reflexivity | discriminate].
  - apply (run_task_step 1 (run_task 0 l0) (BackupScheduler.Created "b"));
      [vm_compute; reflexivity | discriminate].
Defined.

(** ** [run_now] *)

(** C9, as stated, fails: for a paused schedule [run_now] acknowledges,
    the gate is open, and the firing it spawns ends without invoking the
    callback. *)
Lemma run_now_on_a_paused_schedule_invokes_nothing :
  ~ run_now_is_subject_only_to_the_gate.
Proof.
  intros Hclaim.
  destruct (Hclaim SpecTriggers.lib
    (BackupScheduler.mkLoop
       (sample_scheduler (Some always_returns)
          [ScheduleConfig.set_status PAUSED (sample_schedule "a")])
       (sample_world Missing) [])
    "a" (ScheduleConfig.set_status PAUSED (sample_schedule "a"))
    always_returns "global" []) as [_ Hflight];
    try (vm_compute; reflexivity).
  vm_compute in Hflight. discriminate.
Qed.

(** C9, amended.  For an unknown id [run_now] returns false and changes
    nothing.  For an existing id it returns true at once: the scheduler
    and the world are as they were, nothing of the firing has run, and
    the firing is one more task of the event loop.  When that task
    starts, on a schedule with a callback and a type to back up, the
    backup invocation proceeds exactly if the schedule is active and the
    gate is open; otherwise the firing ends without invoking. *)
Theorem run_now_spawns_a_gated_firing `{TriggerLib}
    (l : BackupScheduler.Loop) (schedule_id : string) :
  match BackupScheduler.schedules (BackupScheduler.self_ l) !! schedule_id with
  | None => BackupScheduler.run_now schedule_id l = (false, l)
  | Some _ =>
      BackupScheduler.run_now schedule_id l
      = (true,
         BackupScheduler.mkLoop (BackupScheduler.self_ l) (BackupScheduler.world l)
           (BackupScheduler.tasks l ++ [BackupScheduler.Created schedule_id]))
  end
  /\ forall (self : BackupScheduler.t) (w : World) (s : ScheduleConfig.t)
            (callback : BackupScheduler.Callback) (backup_type : string)
            (rest : list string),
       BackupScheduler.schedules self !! schedule_id = Some s ->
       BackupScheduler.backup_callback self = Some callback ->
       ScheduleConfig.backup_types s = backup_type :: rest ->
       let r := BackupScheduler.step (BackupScheduler.Created schedule_id) self w in
       if bool_decide (ScheduleConfig.status s = ACTIVE)
          && negb (BackupScheduler._running_backup self)
       then in_flight r.1.2 = true
            /\ calls r.2 = (backup_type, schedule_id) :: calls w
       else r.1.2 = BackupScheduler.Ended /\ r.1.1 = self /\ calls r.2 = calls w.
Proof.
  split.
  - unfold BackupScheduler.run_now.
    destruct (BackupScheduler.schedules (BackupScheduler.self_ l) !! schedule_id);
      reflexivity.
  - intros self w s callback backup_type rest Hs Hcb Htypes r. subst r.
    cbn [BackupScheduler.step]. unfold BackupScheduler.begin. rewrite Hs.
    destruct (bool_decide (ScheduleConfig.status s = ACTIVE));
      cbn [negb andb]; [| auto].
    destruct (BackupScheduler._running_backup self) eqn:Hgate;
      cbn [negb]; [auto |].
    unfold bindM at 1. unfold now at 1. unfold bindM at 1. unfold logger at 1.
    cbn [fst snd].
    unfold BackupScheduler.invocations.
    cbn [BackupScheduler.backup_callback BackupScheduler.set_running_backup].
    rewrite Hcb, Htypes.
    destruct (ScheduleConfig.sequential_execution s); split; reflexivity.
Qed.

(** [run_now] on an active schedule with the gate open: acknowledged,
    nothing run yet; the task, once started, has the invocation in
    flight. *)
Lemma run_now_spawns_a_gated_firing_witness :
  let lib := SpecTriggers.lib in
  let self := sample_scheduler (Some always_returns) [sample_schedule "a"] in
  let l := BackupScheduler.mkLoop self (sample_world Missing) [] in
  BackupScheduler.run_now "a" l
  = (true, BackupScheduler.mkLoop self (sample_world Missing)
             [BackupScheduler.Created "a"])
  /\ in_flight (BackupScheduler.step (BackupScheduler.Created "a") self
                  (sample_world Missing)).1.2 = true.
Proof.
  intros lib self l.
  destruct (run_now_spawns_a_gated_firing l "a") as [Hack Hfire].
  split.
  - exact Hack.
  - apply (Hfire self (sample_world Missing) (sample_schedule "a")
             always_returns "global" []); vm_compute; reflexivity.
Defined.

(** ** One firing run to its end *)

Section Run.
Import ScheduleConfig BackupScheduler.
Context `{TriggerLib}.

Lemma next_run_or_none_fst (r : result (option datetime.t)) (w w' : World) :
  (next_run_or_none r w).1 = (next_run_or_none r w').1.
Proof. destruct r; reflexivity. Qed.

(** What [_calculate_next_run] returns is a function of the schedule
    and of its reading of the clock. *)
Lemma _calculate_next_run_fire (s : ScheduleConfig.t) (w : World) :
  (_calculate_next_run s w).1 = next_fire s (clock w (reads w)).
Proof.
  unfold next_fire, _calculate_next_run.
  destruct (schedule_type s); try reflexivity;
    unfold bindM, now; cbn [fst snd clock reads frozen];
    first [ apply next_run_or_none_fst
          | destruct (_get_trigger s); cbn [fst snd clock reads frozen];
            apply next_run_or_none_fst ].
Qed.

Lemma _calculate_next_run_reads (s : ScheduleConfig.t) (w : World) :
  clock (_calculate_next_run s w).2 = clock w.
Proof. apply quiet_calculate_next_run. Qed.

(** It looks at the recurrence of the schedule only. *)
Lemma next_fire_set_next_run (x : option string) (s : ScheduleConfig.t)
    (reference : datetime.t) :
  next_fire (set_next_run x s) reference = next_fire s reference.
Proof. destruct s. reflexivity. Qed.

Lemma finally_fst (self : t) (w : World) :
  (finally self w).1 = set_running_backup false self.
Proof.
  unfold finally, bindM. destruct (_save_schedules _ w) as [[] w1].
  reflexivity.
Qed.

Lemma deref_stored (self : t) (sid : string) (seen s : ScheduleConfig.t) :
  schedules self !! sid = Some s -> deref self sid seen = s.
Proof. intros Hs. unfold deref. rewrite Hs. reflexivity. Qed.

Lemma add_head sid sname types st dur msg (h : ScheduleHistory.t) (w : World) :
  1 <= ScheduleHistory.max_entries h ->
  exists e,
    ScheduleHistory.entries (ScheduleHistory.add sid sname types st dur msg h w).1
    = e :: take (Z.to_nat (ScheduleHistory.max_entries h - 1))
             (ScheduleHistory.entries h)
    /\ ScheduleHistory.max_entries
         (ScheduleHistory.add sid sname types st dur msg h w).1
       = ScheduleHistory.max_entries h
    /\ ScheduleHistory.e_schedule_id e = sid
    /\ ScheduleHistory.e_schedule_name e = sname
    /\ ScheduleHistory.e_backup_types e = types
    /\ ScheduleHistory.e_status e = st
    /\ ScheduleHistory.e_message e = msg.
Proof.
  intros Hmax.
  unfold ScheduleHistory.add, bindM, uuid4, now, ret; cbn [fst snd].
  set (e := ScheduleHistory.mkEntry _ _ _ _ _ _ _ _).
  exists e.
  destruct (Z.ltb_spec (ScheduleHistory.max_entries h)
              (Z.of_nat (length (e :: ScheduleHistory.entries h))))
    as [Hover | Hfit];
    cbn [fst ScheduleHistory.entries ScheduleHistory.max_entries].
  - rewrite py_slice_to_cap by lia.
    replace (Z.to_nat (ScheduleHistory.max_entries h))
      with (S (Z.to_nat (ScheduleHistory.max_entries h - 1))) by lia.
    cbn [take]. repeat split; reflexivity.
  - cbn [length] in Hfit. rewrite take_ge by lia. repeat split; reflexivity.
Qed.

(** The statistics update, in full. *)
Lemma on_success_spec sid seen start (self : t) (w : World)
    (s : ScheduleConfig.t) :
  schedules self !! sid = Some s ->
  1 <= ScheduleHistory.max_entries (history self) ->
  let r := on_success sid seen start self w in
  _running_backup r.1 = false
  /\ (forall k, k <> sid -> schedules r.1 !! k = schedules self !! k)
  /\ exists s' e,
       schedules r.1 !! sid = Some s'
       /\ last_status s' = Some "success"
       /\ run_count s' = run_count s + 1
       /\ last_run s' = Some (datetime.isoformat (clock w (reads w)))
       /\ next_run s' = next_fire s' (clock w (S (reads w)))
       /\ status s' = status s
       /\ ScheduleHistory.entries (history r.1)
          = e :: take (Z.to_nat (ScheduleHistory.max_entries (history self) - 1))
                   (ScheduleHistory.entries (history self))
       /\ ScheduleHistory.e_schedule_id e = sid
       /\ ScheduleHistory.e_schedule_name e = name s
       /\ ScheduleHistory.e_backup_types e = backup_types s
       /\ ScheduleHistory.e_status e = "success".
Proof.
  intros Hs Hmax r. subst r.
  destruct (on_success sid seen start self w) as [self' w'] eqn:Hrun.
  cbn [fst]. unfold on_success in Hrun.
  rewrite (deref_stored self sid seen s Hs) in Hrun.
  unfold bindM at 1 in Hrun. unfold now at 1 in Hrun. cbn [fst snd] in Hrun.
  set (s1 := set_last_status _ _) in Hrun.
  unfold bindM at 1 in Hrun.
  pose proof (_calculate_next_run_fire s1
                (mkWorld (clock w) (S (reads w)) (uuids w) (draws w) (file w)
                   (writable w) (log w) (calls w))) as Hnext.
  destruct (_calculate_next_run s1 _) as [next w1].
  cbn [fst clock reads] in Hnext.
  unfold bindM at 1 in Hrun. unfold now at 1 in Hrun. cbn [fst snd] in Hrun.
  unfold bindM at 1 in Hrun.
  match type of Hrun with
  | context [ScheduleHistory.add ?a ?b ?c ?d ?e ?f ?h ?w0] =>
      destruct (add_head a b c d e f h w0) as (en & Hent & _ & Hen);
        [exact Hmax |];
      destruct (ScheduleHistory.add a b c d e f h w0) as [h1 w2]
  end.
  cbn [fst] in Hent.
  unfold bindM at 1 in Hrun. unfold logger at 1 in Hrun. cbn [fst snd] in Hrun.
  match type of Hrun with
  | finally ?x ?w0 = _ =>
      pose proof (finally_fst x w0) as Hfin; rewrite Hrun in Hfin
  end.
  cbn [fst] in Hfin. subst self'.
  cbn [_running_backup set_running_backup schedules history set_history].
  split; [reflexivity | split].
  - intros k Hk. rewrite schedules_store, decide_False by exact Hk. reflexivity.
  - exists (set_next_run next s1), en.
    rewrite schedules_store, decide_True, Hs by reflexivity.
    rewrite next_fire_set_next_run, <- Hnext.
    destruct Hen as (? & ? & ? & ? & ?).
    destruct s. cbn in *. repeat split; assumption || reflexivity.
Qed.

(** The failure path, in full: of the schedule it assigns
    [last_status] and nothing else. *)
Lemma on_failure_spec sid seen start err (self : t) (w : World)
    (s : ScheduleConfig.t) :
  schedules self !! sid = Some s ->
  1 <= ScheduleHistory.max_entries (history self) ->
  let r := on_failure sid seen start err self w in
  _running_backup r.1 = false
  /\ (forall k, k <> sid -> schedules r.1 !! k = schedules self !! k)
  /\ schedules r.1 !! sid = Some (set_last_status (Some "failed") s)
  /\ exists e,
       ScheduleHistory.entries (history r.1)
       = e :: take (Z.to_nat (ScheduleHistory.max_entries (history self) - 1))
                (ScheduleHistory.entries (history self))
       /\ ScheduleHistory.e_schedule_id e = sid
       /\ ScheduleHistory.e_schedule_name e = name s
       /\ ScheduleHistory.e_backup_types e = backup_types s
       /\ ScheduleHistory.e_status e = "failed"
       /\ ScheduleHistory.e_message e = exn_str err.
Proof.
  intros Hs Hmax r. subst r.
  destruct (on_failure sid seen start err self w) as [self' w'] eqn:Hrun.
  cbn [fst]. unfold on_failure in Hrun.
  rewrite (deref_stored self sid seen s Hs) in Hrun.
  unfold bindM at 1 in Hrun. unfold now at 1 in Hrun. cbn [fst snd] in Hrun.
  unfold bindM at 1 in Hrun.
  match type of Hrun with
  | context [ScheduleHistory.add ?a ?b ?c ?d ?e ?f ?h ?w0] =>
      destruct (add_head a b c d e f h w0) as (en & Hent & _ & Hen);
        [exact Hmax |];
      destruct (ScheduleHistory.add a b c d e f h w0) as [h1 w2]
  end.
  cbn [fst] in Hent.
  unfold bindM at 1 in Hrun. unfold logger at 1 in Hrun. cbn [fst snd] in Hrun.
  match type of Hrun with
  | finally ?x ?w0 = _ =>
      pose proof (finally_fst x w0) as Hfin; rewrite Hrun in Hfin
  end.
  cbn [fst] in Hfin. subst self'.
  cbn [_running_backup set_running_backup schedules history set_history].
  split; [reflexivity | split; [| split]].
  - intros k Hk. rewrite schedules_store, decide_False by exact Hk. reflexivity.
  - rewrite schedules_store, decide_True, Hs by reflexivity. reflexivity.
  - exists en. destruct Hen as (? & ? & ? & ? & ?).
    destruct s. cbn in *. repeat split; assumption || reflexivity.
Qed.

Lemma on_success_seen sid (seen s : ScheduleConfig.t) start (self : t)
    (w : World) :
  schedules self !! sid = Some s ->
  on_success sid seen start self w = on_success sid s start self w.
Proof.
  intros Hs. unfold on_success.
  rewrite !(deref_stored self sid _ s Hs). reflexivity.
Qed.

Lemma on_failure_seen sid (seen s : ScheduleConfig.t) start e (self : t)
    (w : World) :
  schedules self !! sid = Some s ->
  on_failure sid seen start e self w = on_failure sid s start e self w.
Proof.
  intros Hs. unfold on_failure.
  rewrite !(deref_stored self sid _ s Hs). reflexivity.
Qed.

(** With a callback that returns every time, the invocations left are
    made one after the other and the firing ends in the statistics
    update; meanwhile the clock is not read. *)
Lemma run_all_returned sid start (s : ScheduleConfig.t) (todo : list string)
    (fuel : nat) (seen : ScheduleConfig.t) (self : t) (w : World) :
  (length todo < fuel)%nat ->
  schedules self !! sid = Some s ->
  (forall callback w' backup_type,
     backup_callback self = Some callback ->
     callback w' backup_type sid = Returned) ->
  exists w1,
    clock w1 = clock w /\ reads w1 = reads w
    /\ bindM (proceed sid seen start todo self)
             (fun r => run fuel r.2 r.1) w
       = ((on_success sid s start self w1).1, Ended,
          (on_success sid s start self w1).2).
Proof.
  intros Hfuel Hs Hcb.
  revert fuel seen w Hfuel.
  induction todo as [| backup_type rest IH]; intros fuel seen w Hfuel.
  - exists w. split; [reflexivity | split; [reflexivity |]].
    unfold proceed, bindM, ret.
    rewrite (on_success_seen sid seen s start self w Hs).
    destruct (on_success sid s start self w) as [self1 w1].
    cbn [fst snd]. destruct fuel; reflexivity.
  - destruct fuel as [| fuel]; [cbn in Hfuel; lia |].
    cbn [length] in Hfuel.
    unfold proceed, bindM at 1, bindM at 1, record_call, ret. cbn [fst snd].
    cbn [run]. unfold bindM at 1. cbn [step]. unfold bindM at 1.
    unfold outcome_of.
    assert (Hout : forall w0,
      (match backup_callback self with
       | Some callback => (callback w0 backup_type sid, w0)
       | None => (Returned, w0)
       end) = (Returned, w0)).
    { intros w0. destruct (backup_callback self) as [callback |] eqn:Hc;
        [rewrite (Hcb callback w0 backup_type eq_refl) |]; reflexivity. }
    rewrite Hout. cbn [resume].
    match goal with
    | |- context [proceed sid ?seen' start rest self ?w0] =>
        destruct (IH fuel seen' w0 ltac:(lia)) as (w1 & Hclock & Hreads & Hrun)
    end.
    exists w1. split; [exact Hclock | split; [exact Hreads |]].
    unfold bindM in Hrun. unfold bindM.
    destruct (proceed sid _ start rest self _) as [[self2 f2] w2].
    cbn [fst snd] in Hrun. exact Hrun.
Qed.
End Run.

(** C4.  For an active schedule that is sequential or has a type to
    back up, the gate open and a callback every invocation of which
    returns, one firing run to
    its end: ends, the gate cleared; leaves the schedule stored and
    active with [last_status] "success", [run_count] one more than
    before, [last_run] the reading of the clock made once the
    invocations have returned, and [next_run] what [_calculate_next_run]
    gives at the reading that follows; and puts exactly one entry, for
    this schedule and with status "success", at the head of the
    history. *)
Theorem successful_firing_updates_statistics `{TriggerLib}
    (schedule_id : string) (self : BackupScheduler.t) (w : World)
    (s : ScheduleConfig.t) :
  BackupScheduler.schedules self !! schedule_id = Some s ->
  ScheduleConfig.status s = ACTIVE ->
  BackupScheduler._running_backup self = false ->
  ScheduleConfig.sequential_execution s = true
  \/ ScheduleConfig.backup_types s <> [] ->
  (forall callback w' backup_type,
     BackupScheduler.backup_callback self = Some callback ->
     callback w' backup_type schedule_id = Returned) ->
  1 <= ScheduleHistory.max_entries (BackupScheduler.history self) ->
  let r := BackupScheduler._execute_scheduled_backup schedule_id self w in
  r.1.2 = BackupScheduler.Ended
  /\ BackupScheduler._running_backup r.1.1 = false
  /\ exists s' e,
       BackupScheduler.schedules r.1.1 !! schedule_id = Some s'
       /\ ScheduleConfig.last_status s' = Some "success"
       /\ ScheduleConfig.run_count s' = ScheduleConfig.run_count s + 1
       /\ ScheduleConfig.last_run s'
          = Some (datetime.isoformat (clock w (S (reads w))))
       /\ ScheduleConfig.next_run s'
          = BackupScheduler.next_fire s' (clock w (S (S (reads w))))
       /\ ScheduleConfig.status s' = ACTIVE
       /\ ScheduleHistory.entries (BackupScheduler.history r.1.1)
          = e :: take (Z.to_nat (ScheduleHistory.max_entries
                                   (BackupScheduler.history self) - 1))
                   (ScheduleHistory.entries (BackupScheduler.history self))
       /\ ScheduleHistory.e_schedule_id e = schedule_id
       /\ ScheduleHistory.e_schedule_name e = ScheduleConfig.name s
       /\ ScheduleHistory.e_backup_types e = ScheduleConfig.backup_types s
       /\ ScheduleHistory.e_status e = "success".
Proof.
  intros Hs Hactive Hgate Htypes Hcb Hmax r. subst r.
  destruct (BackupScheduler._execute_scheduled_backup schedule_id self w)
    as [[self' f'] w'] eqn:Hexec.
  cbn [fst snd].
  unfold BackupScheduler._execute_scheduled_backup in Hexec. rewrite Hs in Hexec.
  set (fuel := S (length (ScheduleConfig.backup_types s))) in Hexec.
  cbn [BackupScheduler.run] in Hexec. unfold bindM at 1 in Hexec.
  cbn [BackupScheduler.step] in Hexec.
  unfold BackupScheduler.begin in Hexec. rewrite Hs, Hactive, Hgate in Hexec.
  rewrite bool_decide_eq_true_2 in Hexec by reflexivity. cbn [negb] in Hexec.
  unfold bindM at 1 in Hexec. unfold now at 1 in Hexec.
  unfold bindM at 1 in Hexec. unfold logger at 1 in Hexec.
  cbn [fst snd] in Hexec.
  set (self1 := BackupScheduler.set_running_backup true self) in Hexec.
  set (wb := mkWorld _ _ _ _ _ _ _ _) in Hexec.
  assert (Hs1 : BackupScheduler.schedules self1 !! schedule_id = Some s) by exact Hs.
  assert (Htodo : exists todo,
            BackupScheduler.invocations self1 s = Ok todo
            /\ (length todo < fuel)%nat).
  { unfold BackupScheduler.invocations, fuel.
    destruct (BackupScheduler.backup_callback self1).
    - destruct (ScheduleConfig.sequential_execution s).
      + eexists. split; [reflexivity | lia].
      + destruct Htypes as [Hseq | Htypes]; [discriminate |].
        destruct (ScheduleConfig.backup_types s) as [| b bs]; [congruence |].
        eexists. split; [reflexivity | cbn; lia].
    - eexists. split; [reflexivity | cbn; lia]. }
  destruct Htodo as (todo & Hinv & Hfuel). rewrite Hinv in Hexec.
  destruct (run_all_returned schedule_id (clock w (reads w)) s todo fuel s self1 wb
              Hfuel Hs1 Hcb) as (w1 & Hclock & Hreads & Hrun).
  unfold bindM in Hrun.
  destruct (BackupScheduler.proceed schedule_id s _ todo self1 wb)
    as [[self2 f2] w2].
  cbn [fst snd] in Hrun. rewrite Hrun in Hexec.
  destruct (on_success_spec schedule_id s (clock w (reads w)) self1 w1 s Hs1 Hmax)
    as (Hg & _ & s' & e & Hs' & H1 & H2 & H3 & H4 & H5 & H6 & H7).
  inversion Hexec; subst self' f' w'; clear Hexec.
  split; [reflexivity | split; [exact Hg |]].
  exists s', e.
  rewrite Hclock, Hreads in H3, H4. cbn [clock reads wb] in H3, H4.
  rewrite H5, Hactive.
  repeat split; assumption || tauto.
Qed.

(** The scenario of section 8: a daily job at 02:00, fired with a
    callback that succeeds. *)
Lemma successful_firing_updates_statistics_witness :
  let lib := SpecTriggers.lib in
  let self := sample_scheduler (Some always_returns) [sample_schedule "a"] in
  let r := BackupScheduler._execute_scheduled_backup "a" self
             (sample_world Missing) in
  r.1.2 = BackupScheduler.Ended
  /\ ScheduleConfig.run_count <$> BackupScheduler.schedules r.1.1 !! "a" = Some 1
  /\ ScheduleConfig.last_status <$> BackupScheduler.schedules r.1.1 !! "a"
     = Some (Some "success")
  /\ ScheduleConfig.next_run <$> BackupScheduler.schedules r.1.1 !! "a"
     = Some (Some "2024-01-02T02:00:00")
  /\ length (ScheduleHistory.entries (BackupScheduler.history r.1.1)) = 1%nat.
Proof.
  intros lib self r.
  assert (Hnext : ScheduleConfig.next_run <$> BackupScheduler.schedules r.1.1 !! "a"
                  = Some (Some "2024-01-02T02:00:00")) by (vm_compute; reflexivity).
  destruct (successful_firing_updates_statistics "a" self (sample_world Missing)
              (sample_schedule "a"))
    as (Hend & _ & s' & e & Hs' & Hstatus & Hcount & _ & _ & _ & Hent & _);
    try (vm_compute; reflexivity).
  - left. reflexivity.
  - intros callback w' backup_type [= <-]. reflexivity.
  - vm_compute. discriminate.
  - fold r in Hend, Hs', Hent.
    split; [exact Hend | split; [| split; [| split; [exact Hnext |]]]].
    + rewrite Hs'. cbn. rewrite Hcount. reflexivity.
    + rewrite Hs'. cbn. rewrite Hstatus. reflexivity.
    + rewrite Hent. reflexivity.
Defined.

(** A callback that raises at its first invocation: the firing ends on
    the failure path.  Of the schedule only [last_status] is assigned;
    [next_run], among the others, keeps the value it had. *)
Lemma failed_firing_records_failure `{TriggerLib}
    (schedule_id : string) (self : BackupScheduler.t) (w : World)
    (s : ScheduleConfig.t) (callback : BackupScheduler.Callback) (err : exn) :
  BackupScheduler.schedules self !! schedule_id = Some s ->
  ScheduleConfig.status s = ACTIVE ->
  BackupScheduler._running_backup self = false ->
  ScheduleConfig.backup_types s <> [] ->
  BackupScheduler.backup_callback self = Some callback ->
  (forall w' backup_type, callback w' backup_type schedule_id = Raised err) ->
  1 <= ScheduleHistory.max_entries (BackupScheduler.history self) ->
  let r := BackupScheduler._execute_scheduled_backup schedule_id self w in
  r.1.2 = BackupScheduler.Ended
  /\ BackupScheduler._running_backup r.1.1 = false
  /\ BackupScheduler.schedules r.1.1 !! schedule_id
     = Some (ScheduleConfig.set_last_status (Some "failed") s)
  /\ exists e,
       ScheduleHistory.entries (BackupScheduler.history r.1.1)
       = e :: take (Z.to_nat (ScheduleHistory.max_entries
                                (BackupScheduler.history self) - 1))
                (ScheduleHistory.entries (BackupScheduler.history self))
       /\ ScheduleHistory.e_schedule_id e = schedule_id
       /\ ScheduleHistory.e_status e = "failed"
       /\ ScheduleHistory.e_message e = exn_str err.
Proof.
  intros Hs Hactive Hgate Htypes Hcb Hraise Hmax r. subst r.
  destruct (BackupScheduler._execute_scheduled_backup schedule_id self w)
    as [[self' f'] w'] eqn:Hexec.
  cbn [fst snd].
  unfold BackupScheduler._execute_scheduled_backup in Hexec. rewrite Hs in Hexec.
  cbn [BackupScheduler.run] in Hexec. unfold bindM at 1 in Hexec.
  cbn [BackupScheduler.step] in Hexec.
  unfold BackupScheduler.begin in Hexec. rewrite Hs, Hactive, Hgate in Hexec.
  rewrite bool_decide_eq_true_2 in Hexec by reflexivity. cbn [negb] in Hexec.
  unfold bindM at 1 in Hexec. unfold now at 1 in Hexec.
  unfold bindM at 1 in Hexec. unfold logger at 1 in Hexec.
  cbn [fst snd] in Hexec.
  set (self1 := BackupScheduler.set_running_backup true self) in Hexec.
  assert (Hs1 : BackupScheduler.schedules self1 !! schedule_id = Some s) by exact Hs.
  assert (Htodo : exists backup_type rest,
            BackupScheduler.invocations self1 s = Ok (backup_type :: rest)).
  { unfold BackupScheduler.invocations.
    change (BackupScheduler.backup_callback self1)
      with (BackupScheduler.backup_callback self).
    rewrite Hcb.
    destruct (ScheduleConfig.backup_types s) as [| b bs]; [congruence |].
    destruct (ScheduleConfig.sequential_execution s); eauto. }
  destruct Htodo as (backup_type & rest & Hinv). rewrite Hinv in Hexec.
  unfold BackupScheduler.proceed, bindM at 1, record_call, ret in Hexec.
  cbn [fst snd] in Hexec.
  destruct (ScheduleConfig.backup_types s) as [| b bs] eqn:Hbt; [congruence |].
  cbn [length BackupScheduler.run] in Hexec.
  unfold bindM at 1 in Hexec. cbn [BackupScheduler.step] in Hexec.
  unfold bindM at 1, BackupScheduler.outcome_of in Hexec.
  change (BackupScheduler.backup_callback self1)
    with (BackupScheduler.backup_callback self) in Hexec.
  rewrite Hcb, Hraise in Hexec. cbn [BackupScheduler.resume] in Hexec.
  unfold bindM at 1, ret in Hexec.
  match type of Hexec with
  | context [BackupScheduler.on_failure ?a ?b ?c ?d ?e ?w0] =>
      rewrite (on_failure_seen a b s c d e w0 Hs1) in Hexec;
      destruct (on_failure_spec a s c d e w0 s Hs1 Hmax)
        as (Hg & _ & Hs' & en & Hent & Hid & _ & _ & Hst & Hmsg);
      destruct (BackupScheduler.on_failure a s c d e w0) as [self2 w2]
  end.
  cbn [fst snd] in *.
  inversion Hexec; subst self' f' w'; clear Hexec.
  split; [reflexivity | split; [exact Hg | split; [exact Hs' |]]].
  exists en. auto.
Qed.

(** C2.  At the failing input, a daily schedule whose callback raises
    when its timer elapses: [last_status] is "failed", the schedule is
    still stored and active, one failure entry carries the message of
    the exception; but [next_run] still holds the instant of this very
    firing, where [_calculate_next_run] asked at that moment gives the
    next day. *)
Theorem failed_firing_leaves_next_run_stale :
  let lib := SpecTriggers.lib in
  let w := world_at (datetime.make 2024 1 1 2 0 0 0) Missing in
  let r := BackupScheduler._execute_scheduled_backup "a"
             (sample_scheduler (Some always_raises) [due_schedule "a"]) w in
  match BackupScheduler.schedules r.1.1 !! "a" with
  | Some s' =>
      ScheduleConfig.status s' = ACTIVE
      /\ ScheduleConfig.last_status s' = Some "failed"
      /\ ScheduleConfig.next_run s' = Some "2024-01-01T02:00:00"
      /\ BackupScheduler.next_fire s' (clock w 1) = Some "2024-01-02T02:00:00"
  | None => False
  end
  /\ (fun e => (ScheduleHistory.e_status e, ScheduleHistory.e_message e))
       <$> ScheduleHistory.entries (BackupScheduler.history r.1.1)
     = [("failed", "backup failed")].
Proof. vm_compute. repeat split; reflexivity. Qed.

(** ** Task dispatch *)

Section Tasks.
Import Main.

(** A dispatch allocates a new dictionary: the records already there
    are not touched. *)
Lemma assign_heap (task : Task) (st : State) (a : nat) (t : Task) :
  heap st !! a = Some t -> heap (assign task st) !! a = Some t.
Proof.
  intros Ha. unfold assign. cbn [heap]. apply lookup_app_l_Some. exact Ha.
Qed.

(** A script writes to the one dictionary it holds: the output of every
    other record is as it was. *)
Lemma script_resume_frame (task : nat) (ev : ProcessEvent) (st : State)
    (w : World) (a : nat) :
  a <> task ->
  heap (script_resume task ev st w).1.1 !! a = heap st !! a.
Proof.
  intros Hne. unfold script_resume.
  destruct ev as [bytes | returncode].
  - destruct (String.eqb _ ""); cbn [fst];
      [reflexivity | unfold mutate; cbn [heap]; apply list_lookup_alter_ne; congruence].
  - unfold complete, bindM, now, ret.
    destruct (returncode =? 0); unfold mutate; cbn [fst snd heap];
      rewrite !list_lookup_alter_ne by congruence; reflexivity.
Qed.
End Tasks.

(** C7.  At the failing input, two manual dispatches of the same backup
    type within one second, both handled before either script starts:
    the two task ids are the same string, the second record replaces the
    first under it, both scripts take that one record as their [task],
    and it accumulates the output lines of both processes. *)
Theorem same_second_dispatches_share_one_task :
  let id := "backup_mongodb_20240101_100000" in
  let d1 := Main.start_backup true true Main.MONGODB Main.empty
              (sample_world Missing) in
  let d2 := Main.start_backup true true Main.MONGODB d1.1.1 d1.2 in
  let b1 := Main.script_begin id (Ok tt) d2.1.1 d2.2 in
  let b2 := Main.script_begin id (Ok tt) b1.1.1 b1.2 in
  let o1 := Main.script_resume 1 (Main.Line "dump of the first process") b2.1.1 b2.2 in
  let o2 := Main.script_resume 1 (Main.Line "dump of the second process") o1.1.1 o1.2 in
  clock (sample_world Missing) 0 < clock (sample_world Missing) 2
  /\ d1.1.2 = Ok (id, Main.Queued id Main.MONGODB)
  /\ d2.1.2 = Ok (id, Main.Queued id Main.MONGODB)
  /\ b1.1.2 = Ok (Main.Streaming 1)
  /\ b2.1.2 = Ok (Main.Streaming 1)
  /\ Main.output <$> Main.get_task id o2.1.1
     = Some ["dump of the first process"; "dump of the second process"]
  /\ size (Main.backup_tasks o2.1.1) = 1%nat.
Proof. vm_compute. repeat split; reflexivity. Qed.

(** ** Timestamps read back *)

Section Digits.

(** A digit and its character. *)
Lemma digit_char_digit (d : Z) :
  0 <= d < 10 -> is_digit (digit_char d) = true /\ digit_val (digit_char d) = d.
Proof.
  intros Hd.
  assert (Hcases : d = 0 \/ d = 1 \/ d = 2 \/ d = 3 \/ d = 4 \/ d = 5 \/ d = 6
                   \/ d = 7 \/ d = 8 \/ d = 9) by lia.
  repeat destruct Hcases as [-> | Hcases]; try subst d; vm_compute; auto.
Qed.

(** The digits that [zfill] writes are those of the number. *)
Lemma digits_val_zfill (w : nat) :
  forall acc n,
    0 <= n ->
    digits_val acc (zfill w n) = Some (acc * 10 ^ Z.of_nat w + n mod 10 ^ Z.of_nat w).
Proof.
  induction w as [| w IH]; intros acc n Hn.
  - cbn [zfill digits_val]. rewrite Z.pow_0_r, Z.mod_1_r. f_equal. lia.
  - cbn [zfill digits_val].
    assert (Hpow : 0 < 10 ^ Z.of_nat w) by (apply Z.pow_pos_nonneg; lia).
    destruct (digit_char_digit ((n / 10 ^ Z.of_nat w) mod 10)) as [Hd Hv].
    { apply Z.mod_pos_bound. lia. }
    rewrite Hd, Hv, IH by exact Hn. f_equal.
    rewrite Nat2Z.inj_succ, Z.pow_succ_r by lia.
    set (p := 10 ^ Z.of_nat w) in *.
    replace (10 * p) with (p * 10) by ring.
    rewrite Z.rem_mul_r by lia. ring.
Qed.

Lemma parse_digits_zfill (w : nat) (n : Z) :
  (0 < w)%nat -> 0 <= n < 10 ^ Z.of_nat w ->
  parse_digits (zfill w n) = Some n.
Proof.
  intros Hw Hn. destruct w as [| w]; [lia |].
  pose proof (digits_val_zfill (S w) 0 n) as H.
  cbn [zfill] in *. unfold parse_digits. rewrite H by lia.
  f_equal. rewrite Z.mod_small by lia. lia.
Qed.

End Digits.

Section Calendar.
Import datetime.

(** The year of the era and the day of the year of a day of the era
    (eras of 400 years, years from the first of March). *)
Lemma year_of_era (doe : Z) :
  0 <= doe < 146097 ->
  let yoe := (doe - doe / 1460 + doe / 36524 - doe / 146096) / 365 in
  let doy := doe - (365 * yoe + yoe / 4 - yoe / 100) in
  0 <= yoe <= 399 /\ 0 <= doy <= 365
  /\ (doy = 365 ->
      (yoe + 1) mod 4 = 0
      /\ ((yoe + 1) mod 100 <> 0 \/ (yoe + 1) mod 400 = 0)).
Proof.
  intros Hdoe. cbv zeta. split; [| split].
  - Z.to_euclidean_division_equations; lia.
  - Z.to_euclidean_division_equations; lia.
  - intros Hdoy. Z.to_euclidean_division_equations; lia.
Qed.

(** The month and the day of a day of the year, by cases on the 366
    days. *)
Lemma month_of_year (doy : Z) :
  0 <= doy <= 365 ->
  let mp := (5 * doy + 2) / 153 in
  let d := doy - (153 * mp + 2) / 5 + 1 in
  let m := if mp <? 10 then mp + 3 else mp - 9 in
  1 <= m <= 12 /\ 1 <= d
  /\ (if 2 <? m then m - 3 else m + 9) = mp
  /\ (m <=? 2) = (10 <=? mp)
  /\ d <= (if m =? 2 then (if doy =? 365 then 29 else 28)
           else if (m =? 4) || (m =? 6) || (m =? 9) || (m =? 11)
                then 30 else 31).
Proof.
  intros Hdoy.
  assert (Hall : forallb
            (fun doy =>
               let mp := (5 * doy + 2) / 153 in
               let d := doy - (153 * mp + 2) / 5 + 1 in
               let m := if mp <? 10 then mp + 3 else mp - 9 in
               (1 <=? m) && (m <=? 12) && (1 <=? d)
               && ((if 2 <? m then m - 3 else m + 9) =? mp)
               && Bool.eqb (m <=? 2) (10 <=? mp)
               && (d <=? (if m =? 2 then (if doy =? 365 then 29 else 28)
                          else if (m =? 4) || (m =? 6) || (m =? 9) || (m =? 11)
                               then 30 else 31)))
            (seqZ 0 366) = true) by (vm_compute; reflexivity).
  rewrite forallb_forall in Hall.
  specialize (Hall doy). cbv zeta in *.
  assert (Hin : In doy (seqZ 0 366)) by (apply list_elem_of_In, elem_of_seqZ; lia).
  specialize (Hall Hin). clear Hin.
  repeat (apply andb_prop in Hall as [Hall ?]).
  repeat match goal with
         | Hb : (_ <=? _) = true |- _ => apply Z.leb_le in Hb
         | Hb : (_ =? _) = true |- _ => apply Z.eqb_eq in Hb
         | Hb : Bool.eqb _ _ = true |- _ => apply Bool.eqb_prop in Hb
         end.
  repeat split; assumption.
Qed.

Lemma is_leap_shift (y k : Z) : is_leap (y + k * 400) = is_leap y.
Proof.
  unfold is_leap.
  replace ((y + k * 400) mod 4) with (y mod 4)
    by (replace (y + k * 400) with (y + (100 * k) * 4) by ring;
        now rewrite Z.mod_add by lia).
  replace ((y + k * 400) mod 100) with (y mod 100)
    by (replace (y + k * 400) with (y + (4 * k) * 100) by ring;
        now rewrite Z.mod_add by lia).
  rewrite Z.mod_add by lia. reflexivity.
Qed.

(** The date of a day is a date of the calendar, and the day of that
    date is the day. *)
Lemma civil_from_days_valid (n : Z) :
  let '(y, m, d) := civil_from_days n in
  1 <= m <= 12 /\ 1 <= d <= days_in_month y m /\ days_from_civil y m d = n.
Proof.
  unfold civil_from_days. cbv zeta.
  set (z := n + 719468).
  set (era := z / 146097).
  set (doe := z - era * 146097).
  assert (Hdoe : 0 <= doe < 146097)
    by (subst doe era; Z.to_euclidean_division_equations; lia).
  destruct (year_of_era doe Hdoe) as (Hyoe & Hdoy & Hleap). cbv zeta in *.
  set (yoe := (doe - doe / 1460 + doe / 36524 - doe / 146096) / 365) in *.
  set (doy := doe - (365 * yoe + yoe / 4 - yoe / 100)) in *.
  destruct (month_of_year doy Hdoy) as (Hm & Hd & Hmp & Hjan & Hlen).
  cbv zeta in *.
  set (mp := (5 * doy + 2) / 153) in *.
  set (d := doy - (153 * mp + 2) / 5 + 1) in *.
  set (m := if mp <? 10 then mp + 3 else mp - 9) in *.
  split; [exact Hm |]. split; [split; [exact Hd |] |].
  - unfold days_in_month.
    destruct (m =? 2) eqn:Hfeb; [| exact Hlen].
    apply Z.eqb_eq in Hfeb.
    assert (Hle : (m <=? 2) = true) by (apply Z.leb_le; lia).
    rewrite Hle.
    replace (yoe + era * 400 + 1) with (yoe + 1 + era * 400) by ring.
    rewrite is_leap_shift.
    destruct (doy =? 365) eqn:Hlast.
    + apply Z.eqb_eq in Hlast. destruct (Hleap Hlast) as [H4 H100].
      unfold is_leap. rewrite H4. cbn [Z.eqb andb].
      destruct H100 as [H100 | H400].
      * apply Z.eqb_neq in H100. rewrite H100. cbn. exact Hlen.
      * rewrite H400. cbn [Z.eqb]. rewrite orb_true_r. exact Hlen.
    + destruct (is_leap (yoe + 1)); lia.
  - unfold days_from_civil. cbv zeta.
    assert (Hy : (if m <=? 2
                  then (if m <=? 2 then yoe + era * 400 + 1 else yoe + era * 400) - 1
                  else (if m <=? 2 then yoe + era * 400 + 1 else yoe + era * 400))
                 = yoe + era * 400)
      by (destruct (m <=? 2); ring).
    rewrite Hy, Hmp.
    replace ((yoe + era * 400) / 400) with era
      by (Z.to_euclidean_division_equations; lia).
    replace (yoe + era * 400 - era * 400) with yoe by ring.
    subst d doy doe z. lia.
Qed.

(** The time of day, recomposed. *)
Lemma time_of_day (dt : t) :
  0 <= hour dt < 24 /\ 0 <= minute dt < 60 /\ 0 <= second dt < 60
  /\ 0 <= microsecond dt < 1000000
  /\ ((hour dt * 60 + minute dt) * 60 + second dt) * usec_per_sec
     + microsecond dt = usec_of_day dt.
Proof.
  unfold hour, minute, second, microsecond, usec_of_day, usec_per_min,
    usec_per_day, usec_per_sec.
  Z.to_euclidean_division_equations; lia.
Qed.


(** [fromisoformat] on a text of the form [YYYY-MM-DDTHH:MM:SS]. *)
Lemma fromisoformat_seconds (y1 y2 y3 y4 m1 m2 d1 d2 h1 h2 i1 i2 s1 s2 : ascii) :
  fromisoformat
    (String y1 (String y2 (String y3 (String y4 (String "-"
    (String m1 (String m2 (String "-" (String d1 (String d2 (String "T"
    (String h1 (String h2 (String ":" (String i1 (String i2 (String ":"
    (String s1 (String s2 EmptyString))))))))))))))))))) =
  y ← parse_digits (String y1 (String y2 (String y3 (String y4 EmptyString))));
  mo ← parse_digits (String m1 (String m2 EmptyString));
  d ← parse_digits (String d1 (String d2 EmptyString));
  h ← parse_digits (String h1 (String h2 EmptyString));
  mi ← parse_digits (String i1 (String i2 EmptyString));
  sec ← parse_digits (String s1 (String s2 EmptyString));
  checked y mo d h mi sec 0.
Proof.
  unfold fromisoformat, field_at, char_at.
  cbn [String.substring String.get String.length Nat.eqb].
  rewrite !bool_decide_eq_true_2 by auto.
  reflexivity.
Qed.

(** [fromisoformat] on a text of the form [YYYY-MM-DDTHH:MM:SS.ffffff]. *)
Lemma fromisoformat_microseconds
    (y1 y2 y3 y4 m1 m2 d1 d2 h1 h2 i1 i2 s1 s2 u1 u2 u3 u4 u5 u6 : ascii) :
  fromisoformat
    (String y1 (String y2 (String y3 (String y4 (String "-"
    (String m1 (String m2 (String "-" (String d1 (String d2 (String "T"
    (String h1 (String h2 (String ":" (String i1 (String i2 (String ":"
    (String s1 (String s2 (String "."
    (String u1 (String u2 (String u3 (String u4 (String u5 (String u6
     EmptyString)))))))))))))))))))))))))) =
  y ← parse_digits (String y1 (String y2 (String y3 (String y4 EmptyString))));
  mo ← parse_digits (String m1 (String m2 EmptyString));
  d ← parse_digits (String d1 (String d2 EmptyString));
  h ← parse_digits (String h1 (String h2 EmptyString));
  mi ← parse_digits (String i1 (String i2 EmptyString));
  sec ← parse_digits (String s1 (String s2 EmptyString));
  us ← parse_digits
         (String u1 (String u2 (String u3 (String u4 (String u5 (String u6
            EmptyString))))));
  checked y mo d h mi sec us.
Proof.
  unfold fromisoformat, field_at, char_at.
  cbn [String.substring String.get String.length Nat.eqb].
  rewrite !bool_decide_eq_true_2 by auto.
  reflexivity.
Qed.

(** The text of a representable instant reads back as that instant. *)
Lemma fromisoformat_isoformat (dt : t) :
  representable dt -> fromisoformat (isoformat dt) = Some dt.
Proof.
  unfold representable. intros Hyear.
  pose proof (civil_from_days_valid (day_of dt)) as Hdate.
  destruct (time_of_day dt) as (Hh & Hmi & Hs & Hus & Htime).
  assert (Hy : year dt = (civil_from_days (day_of dt)).1.1) by reflexivity.
  assert (Hmo : month dt = (civil_from_days (day_of dt)).1.2) by reflexivity.
  assert (Hd : day dt = (civil_from_days (day_of dt)).2) by reflexivity.
  destruct (civil_from_days (day_of dt)) as [[y mo] d].
  cbn [fst snd] in Hy, Hmo, Hd. rewrite <- Hy, <- Hmo, <- Hd in Hdate.
  clear y mo d Hy Hmo Hd. destruct Hdate as (Hmonth & Hday & Hdays).
  assert (Hlen : days_in_month (year dt) (month dt) <= 31).
  { unfold days_in_month.
    repeat match goal with |- context [if ?b then _ else _] => destruct b end;
      lia. }
  pose proof (parse_digits_zfill 4 (year dt) ltac:(lia)
                ltac:(change (10 ^ Z.of_nat 4) with 10000; lia)) as Py.
  pose proof (parse_digits_zfill 2 (month dt) ltac:(lia)
                ltac:(change (10 ^ Z.of_nat 2) with 100; lia)) as Pmo.
  pose proof (parse_digits_zfill 2 (day dt) ltac:(lia)
                ltac:(change (10 ^ Z.of_nat 2) with 100; lia)) as Pd.
  pose proof (parse_digits_zfill 2 (hour dt) ltac:(lia)
                ltac:(change (10 ^ Z.of_nat 2) with 100; lia)) as Ph.
  pose proof (parse_digits_zfill 2 (minute dt) ltac:(lia)
                ltac:(change (10 ^ Z.of_nat 2) with 100; lia)) as Pmi.
  pose proof (parse_digits_zfill 2 (second dt) ltac:(lia)
                ltac:(change (10 ^ Z.of_nat 2) with 100; lia)) as Ps.
  pose proof (parse_digits_zfill 6 (microsecond dt) ltac:(lia)
                ltac:(change (10 ^ Z.of_nat 6) with 1000000; lia)) as Pus.
  assert (Hchecked : forall us,
            us = microsecond dt ->
            checked (year dt) (month dt) (day dt) (hour dt) (minute dt)
              (second dt) us = Some dt).
  { intros us ->. unfold checked.
    assert (Hcond : (1 <=? year dt) && (year dt <=? 9999)
                    && (1 <=? month dt) && (month dt <=? 12)
                    && (1 <=? day dt)
                    && (day dt <=? days_in_month (year dt) (month dt))
                    && (hour dt <? 24) && (minute dt <? 60)
                    && (second dt <? 60) = true).
    { repeat (apply andb_true_intro; split);
        first [apply Z.leb_le | apply Z.ltb_lt]; lia. }
    rewrite Hcond. f_equal. unfold make. rewrite Hdays.
    pose proof (Z.div_mod dt usec_per_day ltac:(discriminate)) as Hsplit.
    fold (day_of dt) in Hsplit. fold (usec_of_day dt) in Hsplit. lia. }
  unfold isoformat.
  destruct (microsecond dt =? 0) eqn:Hzero.
  - apply Z.eqb_eq in Hzero.
    cbv [zfill String.append] in *.
    rewrite fromisoformat_seconds, Py, Pmo, Pd, Ph, Pmi, Ps.
    cbn [mbind option_bind]. apply Hchecked. symmetry. exact Hzero.
  - cbv [zfill String.append] in *.
    rewrite fromisoformat_microseconds, Py, Pmo, Pd, Ph, Pmi, Ps, Pus.
    cbn [mbind option_bind]. apply Hchecked. reflexivity.
Qed.

End Calendar.

(** ** The next run *)

Section ReferenceLibrary.
Import SpecTriggers.

Lemma earliest_elem (l : list Z) (t : Z) : earliest l = Some t -> t ∈ l.
Proof.
  unfold earliest. revert t.
  induction l as [| x l IH]; intros t Hl; [discriminate |].
  cbn [foldr] in Hl.
  destruct (foldr _ None l) as [a |].
  - inversion Hl; subst t.
    destruct (Z.min_spec x a) as [[_ ->] | [_ ->]].
    + left.
    + right. apply IH. reflexivity.
  - inversion Hl; subst t. left.
Qed.

Lemma first_after_gt (f : Fields) (d reference t : Z) :
  first_after f d reference = Some t -> reference < t.
Proof.
  unfold first_after. intros Hfirst.
  apply earliest_elem, list_elem_of_In, List.filter_In in Hfirst as [_ Hlt].
  lia.
Qed.

Lemma search_gt (f : Fields) (dow : Z -> Z) (reference : Z) (horizon : nat)
    (d t : Z) :
  search f dow reference horizon d = Some t -> reference < t.
Proof.
  revert d. induction horizon as [| horizon IH]; intros d Hs; [discriminate |].
  cbn [search] in Hs.
  destruct (day_matches f dow d).
  - destruct (first_after f d reference) as [x |] eqn:Hx.
    + inversion Hs; subst x. exact (first_after_gt f d reference t Hx).
    + exact (IH _ Hs).
  - exact (IH _ Hs).
Qed.

Lemma next_fire_gt (f : Fields) (dow : Z -> Z) (reference t : Z) :
  next_fire f dow reference = Some t -> reference < t.
Proof. unfold next_fire. apply search_gt. Qed.

(** The reference library computes instants strictly after the
    reference time. *)
Lemma lib_strictly_after : strictly_after lib.
Proof.
  split.
  - intros expr start t.
    change (croniter_get_next expr start)
      with (match expr ≫= parse_crontab true 7 with
            | Some f => of_option (next_fire f sunday0 start) rejected
            | None => Raise rejected
            end).
    destruct (expr ≫= parse_crontab true 7) as [f |]; [| discriminate].
    destruct (next_fire f sunday0 start) as [x |] eqn:Hx; [| discriminate].
    intros [= <-]. exact (next_fire_gt _ _ _ _ Hx).
  - intros trigger reference t Hnodate.
    destruct trigger as [expr | [m |] | dw dm h mi | d].
    + change (get_next_fire_time (CronTrigger_from_crontab expr) reference)
        with (match fields_of (CronTrigger_from_crontab expr) with
              | Some f => Ok (next_fire f monday0 reference)
              | None => Raise rejected
              end).
      destruct (fields_of _) as [f |]; [| discriminate].
      intros [= Hx]. exact (next_fire_gt _ _ _ _ Hx).
    + change (get_next_fire_time (IntervalTrigger (Some m)) reference)
        with (if m <? 0 then Raise rejected
              else Ok (Some (reference + Z.max datetime.usec_per_sec
                                           (m * datetime.usec_per_min)))).
      destruct (m <? 0); [discriminate |]. intros [= <-].
      unfold datetime.usec_per_sec. lia.
    + discriminate.
    + change (get_next_fire_time (CronTrigger dw dm h mi) reference)
        with (match fields_of (CronTrigger dw dm h mi) with
              | Some f => Ok (next_fire f monday0 reference)
              | None => Raise rejected
              end).
      destruct (fields_of _) as [f |]; [| discriminate].
      intros [= Hx]. exact (next_fire_gt _ _ _ _ Hx).
    + exfalso. exact (Hnodate d eq_refl).
Qed.
End ReferenceLibrary.

Section NextRun.
Import ScheduleConfig BackupScheduler.
Context `{TriggerLib}.

Lemma construct_Ok (t t' : Trigger) : construct t = Ok t' -> t' = t.
Proof.
  unfold construct. destruct (trigger_init t); cbn; congruence.
Qed.

(** Only a one-shot schedule gets a date trigger. *)
Lemma _get_trigger_not_date (s : ScheduleConfig.t) (trigger : Trigger) :
  schedule_type s <> ONCE ->
  _get_trigger s = Ok trigger -> forall d, trigger <> DateTrigger d.
Proof.
  unfold _get_trigger. intros Hkind Htrig d ->.
  destruct (schedule_type s); try congruence;
    repeat match type of Htrig with
           | bind_result ?r _ = _ =>
               destruct r; cbn [bind_result] in Htrig; [| discriminate]
           end;
    apply construct_Ok in Htrig; discriminate.
Qed.

Lemma next_fire_once (s : ScheduleConfig.t) (reference : datetime.t) :
  schedule_type s = ONCE -> next_fire s reference = run_date s.
Proof.
  intros Hkind. unfold next_fire, _calculate_next_run. rewrite Hkind.
  reflexivity.
Qed.

Lemma next_fire_cron (s : ScheduleConfig.t) (reference : datetime.t) :
  schedule_type s = CRON ->
  next_fire s reference
  = match croniter_get_next (cron_expression s) reference with
    | Ok t => Some (datetime.isoformat t)
    | Raise _ => None
    end.
Proof.
  intros Hkind. unfold next_fire, _calculate_next_run. rewrite Hkind.
  unfold bindM, now. cbn [fst snd clock reads frozen].
  destruct (croniter_get_next _ _); reflexivity.
Qed.

Lemma next_fire_trigger (s : ScheduleConfig.t) (reference : datetime.t) :
  schedule_type s <> ONCE -> schedule_type s <> CRON ->
  next_fire s reference
  = match _get_trigger s with
    | Ok trigger =>
        match get_next_fire_time trigger reference with
        | Ok next_time => datetime.isoformat <$> next_time
        | Raise _ => None
        end
    | Raise _ => None
    end.
Proof.
  intros Honce Hcron. unfold next_fire, _calculate_next_run.
  destruct (schedule_type s); try congruence;
    (destruct (_get_trigger s) as [trigger |]; [| reflexivity];
     unfold bindM, now; cbn [fst snd clock reads frozen];
     destruct (get_next_fire_time _ _); reflexivity).
Qed.
End NextRun.

(** C3, as stated, fails: for a one-shot schedule whose datetime has
    passed and which has fired, [_calculate_next_run] returns that
    datetime, neither none nor an instant after the reference time. *)
Lemma exhausted_one_shot_still_gets_its_run_date :
  ~ next_run_is_after_the_reference_time SpecTriggers.lib.
Proof.
  intros Hclaim.
  destruct (Hclaim (fired_once "a") (datetime.make 2024 1 1 10 0 0 0))
    as [Hnone _].
  assert (Hexhausted : exhausted (fired_once "a") (datetime.make 2024 1 1 10 0 0 0)).
  { split; [reflexivity | split; [vm_compute; eauto |]].
    exists (datetime.make 2024 1 1 2 0 0 0).
    split; [vm_compute; reflexivity | vm_compute; discriminate]. }
  specialize (Hnone Hexhausted). vm_compute in Hnone. discriminate.
Qed.

(** C3, amended.  With libraries that compute instants strictly after
    the reference time: for a schedule of kind cron, interval, daily,
    weekly or monthly, [_calculate_next_run] returns the instant the
    library computes for the reference time whenever it computes one;
    every timestamp it returns is the ISO form of the instant that the
    library computed, that instant is strictly greater than the
    reference time, and the timestamp reads back as that very instant
    (the instant being one that a [datetime] holds); for a one-shot
    schedule it returns the configured [run_date] as it is, whatever
    the reference time and whether or not the schedule has fired. *)
Theorem next_run_by_kind `{TriggerLib}
    (s : ScheduleConfig.t) (reference : datetime.t) :
  strictly_after H ->
  (ScheduleConfig.schedule_type s = ONCE ->
   BackupScheduler.next_fire s reference = ScheduleConfig.run_date s)
  /\ (ScheduleConfig.schedule_type s = CRON ->
      forall t,
        croniter_get_next (ScheduleConfig.cron_expression s) reference = Ok t ->
        BackupScheduler.next_fire s reference = Some (datetime.isoformat t))
  /\ (ScheduleConfig.schedule_type s <> ONCE ->
      ScheduleConfig.schedule_type s <> CRON ->
      forall trigger t,
        BackupScheduler._get_trigger s = Ok trigger ->
        get_next_fire_time trigger reference = Ok (Some t) ->
        BackupScheduler.next_fire s reference = Some (datetime.isoformat t))
  /\ (ScheduleConfig.schedule_type s <> ONCE ->
      forall stamp,
        BackupScheduler.next_fire s reference = Some stamp ->
        exists t,
          library_fire_time s reference t
          /\ stamp = datetime.isoformat t
          /\ reference < t
          /\ (datetime.representable t ->
              datetime.fromisoformat stamp = Some t)).
Proof.
  intros [Hcron Hfire]. split; [| split; [| split]].
  - apply next_fire_once.
  - intros Hkind t Ht. rewrite (next_fire_cron s reference Hkind), Ht.
    reflexivity.
  - intros Honce Hnotcron trigger t Htrig Ht.
    rewrite (next_fire_trigger s reference Honce Hnotcron), Htrig, Ht.
    reflexivity.
  - intros Honce stamp Hstamp.
    destruct (decide (ScheduleConfig.schedule_type s = CRON)) as [Hkind | Hkind].
    + rewrite (next_fire_cron s reference Hkind) in Hstamp.
      destruct (croniter_get_next _ reference) as [t |] eqn:Ht; [| discriminate].
      inversion Hstamp; subst stamp. exists t.
      unfold library_fire_time. rewrite bool_decide_eq_true_2 by exact Hkind.
      split; [exact Ht |]. split; [reflexivity |].
      split; [exact (Hcron _ _ _ Ht) | apply fromisoformat_isoformat].
    + rewrite (next_fire_trigger s reference Honce Hkind) in Hstamp.
      destruct (BackupScheduler._get_trigger s) as [trigger |] eqn:Htrig;
        [| discriminate].
      destruct (get_next_fire_time trigger reference) as [[t |] |] eqn:Ht;
        try discriminate.
      inversion Hstamp; subst stamp. exists t.
      unfold library_fire_time. rewrite bool_decide_eq_false_2 by exact Hkind.
      split; [exists trigger; auto |]. split; [reflexivity |].
      split; [| apply fromisoformat_isoformat].
      apply (Hfire trigger reference t); [| exact Ht].
      exact (_get_trigger_not_date s trigger Honce Htrig).
Qed.

(** The scenario of section 8: daily at 02:00, asked on 2024-01-01 at
    10:00, gives 2024-01-02 at 02:00, which reads back as that instant,
    after the reference time. *)
Lemma next_run_by_kind_witness :
  let reference := datetime.make 2024 1 1 10 0 0 0 in
  let next := datetime.make 2024 1 2 2 0 0 0 in
  strictly_after SpecTriggers.lib
  /\ BackupScheduler.next_fire (H := SpecTriggers.lib) (sample_schedule "a")
       reference = Some "2024-01-02T02:00:00"
  /\ library_fire_time (H := SpecTriggers.lib) (sample_schedule "a")
       reference next
  /\ datetime.fromisoformat "2024-01-02T02:00:00" = Some next
  /\ reference < next.
Proof.
  intros reference next.
  destruct (next_run_by_kind (H := SpecTriggers.lib) (sample_schedule "a")
              reference lib_strictly_after) as (_ & _ & _ & Hafter).
  split; [exact lib_strictly_after | split; [vm_compute; reflexivity |]].
  destruct (Hafter ltac:(discriminate) "2024-01-02T02:00:00"
              ltac:(vm_compute; reflexivity)) as (t & Hlib & _ & Hlt & Hback).
  assert (Ht : t = next).
  { destruct Hlib as (trigger & Htrig & Ht).
    vm_compute in Htrig. inversion Htrig; subst trigger.
    vm_compute in Ht. inversion Ht. reflexivity. }
  subst t. split; [exact Hlib |]. split; [| exact Hlt].
  apply Hback. vm_compute. split; discriminate.
Defined.

(* ===================================================================== *)
(** * Further properties of the scheduler                                 *)
(* ===================================================================== *)

Section Deleting.
Import ScheduleConfig BackupScheduler.
Context `{TriggerLib}.

Lemma _unregister_schedule_jobs (sid : string) (self : t) (w : World) :
  jobs (scheduler (_unregister_schedule sid self w).1)
  = delete sid (jobs (scheduler self)).
Proof.
  unfold _unregister_schedule.
  destruct (jobs (scheduler self) !! sid) eqn:Hjob; cbn.
  - reflexivity.
  - symmetry. apply delete_id. exact Hjob.
Qed.

Lemma _save_schedules_file (self : t) (w : World) :
  file (_save_schedules self w).2
  = if writable w
    then Document (dumped self) (datetime.isoformat (clock w (reads w)))
    else file w.
Proof.
  unfold _save_schedules, bindM, now, write_file, logger. cbn.
  destruct (writable w); reflexivity.
Qed.

End Deleting.

(** X1.  [delete_schedule] answers whether the id was stored.  For an
    unknown id nothing at all changes, not even the file.  For a stored
    id the schedule and its job are gone, every other schedule and job is
    kept, and the file, when writable, holds the remaining job set. *)
Theorem delete_schedule_removes_exactly_one `{TriggerLib}
    (schedule_id : string) (self : BackupScheduler.t) (w : World) :
  let r := BackupScheduler.delete_schedule schedule_id self w in
  match BackupScheduler.schedules self !! schedule_id with
  | None => r = ((self, false), w)
  | Some _ =>
      r.1.2 = true
      /\ BackupScheduler.schedules r.1.1
         = delete schedule_id (BackupScheduler.schedules self)
      /\ BackupScheduler.jobs (BackupScheduler.scheduler r.1.1)
         = delete schedule_id
             (BackupScheduler.jobs (BackupScheduler.scheduler self))
      /\ BackupScheduler.history r.1.1 = BackupScheduler.history self
      /\ file r.2
         = if writable w
           then Document (BackupScheduler.dumped r.1.1)
                  (datetime.isoformat (clock w (reads w)))
           else file w
  end.
Proof.
  intros r. subst r.
  destruct (BackupScheduler.schedules self !! schedule_id) as [s|] eqn:Hs.
  2:{ unfold BackupScheduler.delete_schedule. rewrite Hs. reflexivity. }
  destruct (BackupScheduler.delete_schedule schedule_id self w)
    as [[self' b] w'] eqn:Hrun.
  cbn [fst snd].
  unfold BackupScheduler.delete_schedule in Hrun. rewrite Hs in Hrun.
  unfold bindM in Hrun.
  pose proof (_unregister_schedule_jobs schedule_id self w) as Hjobs.
  pose proof (_unregister_schedule_schedules schedule_id self w) as Hsch.
  assert (Hw : BackupScheduler.history
                 (BackupScheduler._unregister_schedule schedule_id self w).1
               = BackupScheduler.history self
               /\ clock (BackupScheduler._unregister_schedule schedule_id self w).2
                  = clock w
               /\ reads (BackupScheduler._unregister_schedule schedule_id self w).2
                  = reads w
               /\ writable (BackupScheduler._unregister_schedule schedule_id self w).2
                  = writable w
               /\ file (BackupScheduler._unregister_schedule schedule_id self w).2
                  = file w).
  { unfold BackupScheduler._unregister_schedule.
    destruct (BackupScheduler.jobs _ !! schedule_id); cbn; auto. }
  destruct (BackupScheduler._unregister_schedule schedule_id self w)
    as [self1 w1].
  cbn [fst snd] in Hjobs, Hsch, Hw.
  destruct Hw as (Hhist & Hclock & Hreads & Hwr & Hfile).
  pose proof (_save_schedules_file
                (BackupScheduler.set_schedules
                   (delete schedule_id (BackupScheduler.schedules self1)) self1)
                w1) as Hsave.
  destruct (BackupScheduler._save_schedules _ w1) as [[] w2].
  cbn [fst snd] in Hsave. unfold ret in Hrun. inversion Hrun; subst self' b w'.
  rewrite Hsave, Hclock, Hreads, Hwr, Hfile.
  destruct self1 as [cb sch sc hist gate].
  cbn [BackupScheduler.schedules BackupScheduler.scheduler
       BackupScheduler.history BackupScheduler.set_schedules] in *.
  subst sch hist. repeat split; try reflexivity. exact Hjobs.
Qed.

(** X2.  What [_save_schedules] wrote is what a restart loads: a new
    scheduler object, built by [__init__] on the file a successful save
    left, holds the same job set. *)
Theorem saved_job_set_survives_restart
    (self : BackupScheduler.t) (w : World)
    (backup_callback : option BackupScheduler.Callback) :
  writable w = true ->
  (forall k s, BackupScheduler.schedules self !! k = Some s ->
               ScheduleConfig.id s = k) ->
  BackupScheduler.schedules
    (BackupScheduler.init backup_callback
       (BackupScheduler._save_schedules self w).2).1
  = BackupScheduler.schedules self.
Proof.
  intros Hwritable Hids.
  unfold BackupScheduler._save_schedules, bindM, now, write_file.
  cbn [fst snd writable].
  rewrite Hwritable. unfold logger. cbn [snd].
  unfold BackupScheduler.init, BackupScheduler._load_schedules, bindM, read_file.
  cbn [fst snd file].
  unfold BackupScheduler.dumped. rewrite load_records_dumped. cbn [fst snd].
  unfold logger, ret.
  cbn [fst BackupScheduler.schedules BackupScheduler.set_schedules].
  apply map_eq. intros k.
  rewrite foldl_insert_lookup.
  - rewrite list_to_map_to_list, lookup_empty.
    destruct (BackupScheduler.schedules self !! k); reflexivity.
  - apply NoDup_fst_map_to_list.
  - intros k' s Hin. apply elem_of_map_to_list in Hin. exact (Hids k' s Hin).
Qed.

Lemma saved_job_set_survives_restart_witness :
  let self := sample_scheduler None [sample_schedule "a"; sample_schedule "b"] in
  BackupScheduler.schedules
    (BackupScheduler.init (Some always_returns)
       (BackupScheduler._save_schedules self (sample_world Missing)).2).1
  = BackupScheduler.schedules self.
Proof.
  intros self.
  apply (saved_job_set_survives_restart self (sample_world Missing)
           (Some always_returns)).
  - reflexivity.
  - intros k s Hk. subst self. unfold sample_scheduler in Hk.
    cbn [BackupScheduler.schedules fmap list_fmap list_to_map foldr uncurry
         fst snd] in Hk.
    apply lookup_insert_Some in Hk as [[<- <-] | [_ Hk]]; [reflexivity |].
    apply lookup_insert_Some in Hk as [[<- <-] | [_ Hk]]; [reflexivity |].
    rewrite lookup_empty in Hk. discriminate.
Defined.

(** X3.  Pausing a stored schedule stores it as paused and removes its
    job; a firing of the schedule that comes afterwards (from a timer
    that had already elapsed, or from [run_now]) ends at once: it
    invokes no backup, changes nothing of the scheduler and writes no
    file. *)
Theorem paused_schedule_does_not_fire `{TriggerLib}
    (schedule_id : string) (self : BackupScheduler.t) (w : World)
    (s : ScheduleConfig.t) :
  BackupScheduler.schedules self !! schedule_id = Some s ->
  let r := BackupScheduler.pause_schedule schedule_id self w in
  (exists s', r.1.2 = Ok (Some s')
              /\ BackupScheduler.schedules r.1.1 !! schedule_id = Some s'
              /\ ScheduleConfig.status s' = PAUSED)
  /\ BackupScheduler.jobs (BackupScheduler.scheduler r.1.1) !! schedule_id = None
  /\ forall w',
       let f := BackupScheduler._execute_scheduled_backup schedule_id r.1.1 w' in
       f.1 = (r.1.1, BackupScheduler.Ended)
       /\ calls f.2 = calls w' /\ file f.2 = file w'.
Proof.
  intros Hs r. subst r.
  destruct (BackupScheduler.pause_schedule schedule_id self w)
    as [[self' res] w'] eqn:Hrun.
  cbn [fst snd].
  unfold BackupScheduler.pause_schedule, BackupScheduler.update_schedule in Hrun.
  rewrite Hs in Hrun.
  assert (Hupd : BackupScheduler.update_fields [("status", VStatus PAUSED)] s
                 = (ScheduleConfig.set_status PAUSED s, None)) by reflexivity.
  rewrite Hupd in Hrun. clear Hupd.
  unfold bindM at 1 in Hrun. unfold now at 1 in Hrun.
  unfold bindM at 1 in Hrun.
  destruct (BackupScheduler._calculate_next_run _ _) as [next w2] in Hrun.
  set (s' := ScheduleConfig.set_next_run next _) in Hrun.
  assert (Hstatus : ScheduleConfig.status s' = PAUSED) by (destruct s; reflexivity).
  rewrite Hstatus in Hrun.
  rewrite bool_decide_eq_false_2 in Hrun by discriminate.
  cbn [andb] in Hrun. unfold bindM at 1 in Hrun.
  pose proof (_unregister_schedule_jobs schedule_id
                (BackupScheduler.store schedule_id s' self) w2) as Hjobs.
  pose proof (_unregister_schedule_schedules schedule_id
                (BackupScheduler.store schedule_id s' self) w2) as Hsch.
  destruct (BackupScheduler._unregister_schedule schedule_id _ w2)
    as [self1 w3].
  cbn [fst snd] in Hjobs, Hsch.
  unfold bindM in Hrun.
  destruct (BackupScheduler._save_schedules self1 w3) as [[] w4].
  unfold ret in Hrun. inversion Hrun; subst self' res w'. clear Hrun.
  assert (Hstored : BackupScheduler.schedules self1 !! schedule_id = Some s').
  { rewrite Hsch, schedules_store, decide_True by reflexivity.
    rewrite Hs. reflexivity. }
  split; [| split].
  - exists s'. rewrite Hstored. auto.
  - rewrite Hjobs. apply lookup_delete_eq.
  - intros w'.
    destruct (BackupScheduler._execute_scheduled_backup schedule_id self1 w')
      as [[self2 f2] w5] eqn:Hexec.
    cbn [fst snd].
    unfold BackupScheduler._execute_scheduled_backup in Hexec.
    rewrite Hstored in Hexec.
    cbn [BackupScheduler.run BackupScheduler.step] in Hexec.
    unfold bindM at 1 in Hexec.
    unfold BackupScheduler.begin in Hexec. rewrite Hstored, Hstatus in Hexec.
    rewrite bool_decide_eq_false_2 in Hexec by discriminate.
    cbn in Hexec. inversion Hexec; subst. auto.
Qed.

Lemma paused_schedule_does_not_fire_witness :
  let self := sample_scheduler (Some always_returns) [sample_schedule "a"] in
  let r := @BackupScheduler.pause_schedule SpecTriggers.lib "a" self
             (sample_world Missing) in
  BackupScheduler.jobs (BackupScheduler.scheduler r.1.1) !! "a" = None.
Proof.
  intros self r.
  exact (proj1 (proj2 (@paused_schedule_does_not_fire SpecTriggers.lib "a" self
                         (sample_world Missing) (sample_schedule "a")
                         eq_refl))).
Defined.

Section Creating.
Import ScheduleConfig BackupScheduler.
Context `{TriggerLib}.

Lemma foldl_Raise {A B} (step : result A -> B -> result A) (e : exn)
    (l : list B) :
  (forall b, step (Raise e) b = Raise e) -> foldl step (Raise e) l = Raise e.
Proof. intros Hstep. induction l as [| b l IH]; cbn; [| rewrite Hstep]; auto. Qed.

(** The constructor assigns each field from its keyword argument, and
    a field without one keeps its default. *)
Lemma cls_fold_getattr (data : gmap string value) (fs : list Field)
    (acc s : ScheduleConfig.t) (f : Field) :
  foldl (fun acc f =>
           s <-! acc;
           match data !! field_name f with
           | Some v => of_option (setattr f v s) (OutsideModel (field_name f))
           | None => Ok s
           end) (Ok acc) fs = Ok s ->
  NoDup fs ->
  (f ∈ fs -> forall v, data !! field_name f = Some v ->
     exists s1 s2, setattr f v s1 = Some s2 /\ getattr f s = getattr f s2)
  /\ (f ∉ fs -> getattr f s = getattr f acc).
Proof.
  revert acc. induction fs as [| g fs IH]; intros acc Hfold Hnodup.
  - cbn in Hfold. inversion Hfold; subst. split; [| reflexivity].
    intros Hin. apply elem_of_nil in Hin. destruct Hin.
  - apply NoDup_cons in Hnodup as [Hg Hnodup]. cbn [foldl bind_result] in Hfold.
    destruct (data !! field_name g) as [vg|] eqn:Hdata.
    + destruct (setattr g vg acc) as [acc'|] eqn:Hset; cbn [of_option] in Hfold.
      2:{ rewrite foldl_Raise in Hfold by reflexivity. discriminate. }
      destruct (IH acc' Hfold Hnodup) as [Hin Hout]. split.
      * intros Hf v Hv. apply elem_of_cons in Hf as [-> | Hf]; [| eauto].
        exists acc, acc'. rewrite Hdata in Hv. inversion Hv; subst vg.
        split; [exact Hset | apply Hout, Hg].
      * intros Hf. apply not_elem_of_cons in Hf as [Hne Hf].
        rewrite (Hout Hf). apply (setattr_frame g f vg acc acc' Hset Hne).
    + destruct (IH acc Hfold Hnodup) as [Hin Hout]. split.
      * intros Hf v Hv. apply elem_of_cons in Hf as [-> | Hf]; [| eauto].
        congruence.
      * intros Hf. apply not_elem_of_cons in Hf as [_ Hf]. auto.
Qed.

Lemma NoDup_fields : NoDup fields.
Proof. compute_done. Qed.

Lemma elem_of_fields (f : Field) : f ∈ fields.
Proof. destruct f; compute_done. Qed.

(** A string passed for a field that holds a string is the value of
    the field. *)
Lemma from_dict_str (created updated : datetime.t) (data : gmap string value)
    (s : ScheduleConfig.t) (f : Field) (x : string) :
  f = F_id \/ f = F_created_at \/ f = F_updated_at ->
  from_dict created updated data = Ok s ->
  data !! field_name f = Some (VStr x) ->
  getattr f s = VStr x.
Proof.
  intros Hf Hfrom Hdata. unfold from_dict in Hfrom.
  destruct (convert_enum "schedule_type" to_schedule_type data)
    as [data1|] eqn:H1; cbn [bind_result] in Hfrom; [| discriminate].
  destruct (convert_enum "status" to_status data1)
    as [data2|] eqn:H2; cbn [bind_result] in Hfrom; [| discriminate].
  assert (Hdata2 : data2 !! field_name f = Some (VStr x)).
  { unfold convert_enum in H1, H2.
    destruct (data1 !! "status" ≫= str_of) in H2.
    - destruct (to_status _) in H2; cbn in H2; inversion H2; subst data2.
      rewrite lookup_insert_ne by (destruct Hf as [-> | [-> | ->]]; discriminate).
      destruct (data !! "schedule_type" ≫= str_of) in H1.
      + destruct (to_schedule_type _) in H1; cbn in H1; inversion H1; subst data1.
        rewrite lookup_insert_ne
          by (destruct Hf as [-> | [-> | ->]]; discriminate).
        exact Hdata.
      + inversion H1; subst; exact Hdata.
    - inversion H2; subst data2.
      destruct (data !! "schedule_type" ≫= str_of) in H1.
      + destruct (to_schedule_type _) in H1; cbn in H1; inversion H1; subst data1.
        rewrite lookup_insert_ne
          by (destruct Hf as [-> | [-> | ->]]; discriminate).
        exact Hdata.
      + inversion H1; subst; exact Hdata. }
  unfold cls in Hfrom.
  destruct (negb (bool_decide _)) in Hfrom; [discriminate |].
  destruct (negb (forallb _ _)) in Hfrom; [discriminate |].
  destruct (cls_fold_getattr data2 fields _ s f Hfrom NoDup_fields) as [Hin _].
  destruct (Hin (elem_of_fields f) _ Hdata2) as (s1 & s2 & Hset & ->).
  destruct Hf as [-> | [-> | ->]]; cbn in Hset; inversion Hset; subst s2;
    destruct s1; reflexivity.
Qed.

End Creating.

(** X4.  [create_schedule] on a configuration whose values have the
    annotated types either raises (an unknown recurrence kind or status,
    a missing or an unexpected key), and then the scheduler is as it was
    and no file is written; or it returns the new schedule, whose [id]
    is the first 12 characters of a fresh UUID and whose [created_at]
    and [updated_at] are the two clock readings it makes, whatever the
    configuration said of the three.  The schedule is then stored under
    its id, and every other stored schedule is untouched.  (Nothing is
    said of a configuration that the model does not follow.) *)
Theorem create_schedule_assigns_identity `{TriggerLib}
    (config : gmap string value) (self : BackupScheduler.t) (w : World) :
  let r := BackupScheduler.create_schedule config self w in
  match r.1.2 with
  | Raise e => python_exception e -> r.1.1 = self /\ file r.2 = file w
  | Ok schedule =>
      ScheduleConfig.id schedule = String.substring 0 12 (uuids w (draws w))
      /\ ScheduleConfig.created_at schedule
         = datetime.isoformat (clock w (reads w))
      /\ ScheduleConfig.updated_at schedule
         = datetime.isoformat (clock w (S (reads w)))
      /\ BackupScheduler.schedules r.1.1 !! ScheduleConfig.id schedule
         = Some schedule
      /\ forall k, k <> ScheduleConfig.id schedule ->
           BackupScheduler.schedules r.1.1 !! k
           = BackupScheduler.schedules self !! k
  end.
Proof.
  intros r. subst r.
  destruct (BackupScheduler.create_schedule config self w)
    as [[self' res] w'] eqn:Hrun.
  cbn [fst snd].
  unfold BackupScheduler.create_schedule in Hrun.
  unfold bindM at 1 in Hrun. unfold uuid4 at 1 in Hrun.
  unfold bindM at 1 in Hrun. unfold now at 1 in Hrun.
  unfold bindM at 1 in Hrun. unfold now at 1 in Hrun.
  cbn [clock reads uuids draws] in Hrun.
  set (sid := String.substring 0 12 (uuids w (draws w))) in *.
  set (config' := <["updated_at" := _]> _) in Hrun.
  unfold bindM at 1 in Hrun. unfold BackupScheduler.from_dict_now in Hrun.
  destruct (ScheduleConfig.from_dict _ _ config') as [schedule | e] eqn:Hfrom.
  2:{ inversion Hrun; subst. intros _. split; reflexivity. }
  assert (Hid : ScheduleConfig.getattr ScheduleConfig.F_id schedule = VStr sid).
  { eapply (from_dict_str _ _ config' schedule ScheduleConfig.F_id sid);
      [auto | exact Hfrom |].
    subst config'. cbn [ScheduleConfig.field_name].
    rewrite !lookup_insert_ne by discriminate. apply lookup_insert_eq. }
  assert (Hcreated : ScheduleConfig.getattr ScheduleConfig.F_created_at schedule
                     = VStr (datetime.isoformat (clock w (reads w)))).
  { eapply (from_dict_str _ _ config' schedule ScheduleConfig.F_created_at _);
      [auto | exact Hfrom |].
    subst config'. cbn [ScheduleConfig.field_name].
    rewrite lookup_insert_ne by discriminate. apply lookup_insert_eq. }
  assert (Hupdated : ScheduleConfig.getattr ScheduleConfig.F_updated_at schedule
                     = VStr (datetime.isoformat (clock w (S (reads w))))).
  { eapply (from_dict_str _ _ config' schedule ScheduleConfig.F_updated_at _);
      [auto | exact Hfrom |].
    subst config'. cbn [ScheduleConfig.field_name]. apply lookup_insert_eq. }
  clear Hfrom.
  unfold bindM at 1 in Hrun.
  destruct (BackupScheduler._calculate_next_run schedule _) as [next w2] in Hrun.
  set (schedule1 := ScheduleConfig.set_next_run next schedule) in Hrun.
  set (self1 := BackupScheduler.set_schedules _ self) in Hrun.
  assert (Hstored1 : BackupScheduler.schedules self1 !! sid = Some schedule1).
  { subst self1. destruct self. cbn. apply lookup_insert_eq. }
  assert (Hothers1 : forall k, k <> sid ->
            BackupScheduler.schedules self1 !! k
            = BackupScheduler.schedules self !! k).
  { intros k Hk. subst self1. destruct self. cbn.
    apply lookup_insert_ne. congruence. }
  unfold bindM at 1 in Hrun.
  match type of Hrun with
  | context [let '(_, _) := ?c in _] => set (reg := c) in Hrun
  end.
  assert (Hreg : exists s',
            BackupScheduler.schedules reg.1 !! sid = Some s'
            /\ (forall f, f <> ScheduleConfig.F_next_run ->
                  ScheduleConfig.getattr f s' = ScheduleConfig.getattr f schedule1)
            /\ forall k, k <> sid ->
                 BackupScheduler.schedules reg.1 !! k
                 = BackupScheduler.schedules self1 !! k).
  { subst reg. destruct (_ && _).
    - destruct (_register_schedule_frame sid self1 w2 schedule1 Hstored1)
        as [(s' & Hs' & Hframe) Hothers].
      exists s'. auto.
    - exists schedule1. cbn. auto. }
  destruct reg as [self2 w3].
  cbn [fst] in Hreg. destruct Hreg as (s' & Hs' & Hframe & Hothers2).
  unfold bindM in Hrun.
  destruct (BackupScheduler._save_schedules self2 w3) as [[] w4].
  unfold ret in Hrun. rewrite Hs' in Hrun. cbn [of_option] in Hrun.
  inversion Hrun; subst self' res w'. clear Hrun.
  pose proof (Hframe ScheduleConfig.F_id ltac:(discriminate)) as Hid'.
  pose proof (Hframe ScheduleConfig.F_created_at ltac:(discriminate)) as Hcreated'.
  pose proof (Hframe ScheduleConfig.F_updated_at ltac:(discriminate)) as Hupdated'.
  assert (Hn : forall f, f <> ScheduleConfig.F_next_run ->
            ScheduleConfig.getattr f schedule1 = ScheduleConfig.getattr f schedule).
  { intros f Hf. apply getattr_set_next_run, Hf. }
  rewrite Hn in Hid', Hcreated', Hupdated' by discriminate.
  rewrite Hid in Hid'. rewrite Hcreated in Hcreated'.
  rewrite Hupdated in Hupdated'.
  cbn [ScheduleConfig.getattr] in Hid', Hcreated', Hupdated'.
  inversion Hid' as [Hi]. inversion Hcreated' as [Hc].
  inversion Hupdated' as [Hu].
  split; [reflexivity |]. split; [reflexivity |]. split; [reflexivity |].
  fold sid. rewrite Hi. split; [exact Hs' |].
  intros k Hk. rewrite Hothers2, Hothers1 by exact Hk. reflexivity.
Qed.

Lemma create_schedule_assigns_identity_witness :
  let r := @BackupScheduler.create_schedule SpecTriggers.lib (sample_record "x")
             (sample_scheduler None [sample_schedule "a"])
             (sample_world Missing) in
  match r.1.2 with
  | Ok schedule =>
      ScheduleConfig.id schedule = "3f2b8c1e-77a"
      /\ BackupScheduler.schedules r.1.1 !! "3f2b8c1e-77a" = Some schedule
      /\ BackupScheduler.schedules r.1.1 !! "a" = Some (sample_schedule "a")
  | Raise _ => False
  end.
Proof.
  intros r.
  pose proof (@create_schedule_assigns_identity SpecTriggers.lib
                (sample_record "x")
                (sample_scheduler None [sample_schedule "a"])
                (sample_world Missing)) as Hspec.
  cbv zeta in Hspec. fold r in Hspec.
  destruct (r.1.2) as [schedule | e] eqn:Hres.
  - destruct Hspec as (Hid & _ & _ & Hstored & Hothers).
    change (String.substring 0 12 (uuids (sample_world Missing)
                                     (draws (sample_world Missing))))
      with "3f2b8c1e-77a" in Hid.
    rewrite Hid in Hstored, Hothers.
    split; [exact Hid |]. split; [exact Hstored |].
    rewrite Hothers by discriminate. reflexivity.
  - subst r. vm_compute in Hres. discriminate.
Defined.

(** X5.  A configuration whose ['schedule_type'] is a string that names
    none of the six kinds makes [create_schedule] raise the
    [ValueError] of the enumeration: nothing is stored, registered or
    written. *)
Theorem create_schedule_rejects_unknown_kind `{TriggerLib}
    (config : gmap string value) (self : BackupScheduler.t) (w : World)
    (kind : string) (e : exn) :
  config !! "schedule_type" = Some (VStr kind) ->
  ScheduleType_of kind = Raise e ->
  let r := BackupScheduler.create_schedule config self w in
  r.1 = (self, Raise e) /\ file r.2 = file w /\ log r.2 = log w.
Proof.
  intros Hkind Hraise r. subst r.
  unfold BackupScheduler.create_schedule, bindM, uuid4, now,
    BackupScheduler.from_dict_now, ScheduleConfig.from_dict,
    ScheduleConfig.convert_enum.
  cbn [fst snd clock reads].
  rewrite !lookup_insert_ne by discriminate. rewrite Hkind.
  cbn [mbind option_bind str_of]. unfold ScheduleConfig.to_schedule_type.
  rewrite Hraise. cbn. auto.
Qed.

Lemma create_schedule_rejects_unknown_kind_witness :
  let self := sample_scheduler None [sample_schedule "a"] in
  let r := @BackupScheduler.create_schedule SpecTriggers.lib
             (broken_record "b") self (sample_world Missing) in
  r.1 = (self, Raise (ValueError "'hourly' is not a valid ScheduleType"))
  /\ file r.2 = Missing.
Proof.
  intros self r.
  destruct (@create_schedule_rejects_unknown_kind SpecTriggers.lib
              (broken_record "b") self (sample_world Missing) "hourly"
              (ValueError "'hourly' is not a valid ScheduleType")
              eq_refl eq_refl) as (Hr & Hfile & _).
  split; [exact Hr | exact Hfile].
Defined.

Section Statistics.
Import ScheduleConfig BackupScheduler.







End Statistics.


Section Starting.
Import ScheduleConfig BackupScheduler.
Context `{TriggerLib}.



End Starting.


Section Rearming.
Import ScheduleConfig BackupScheduler.
Context `{TriggerLib}.

(** Registration stores the schedule it registers with at most its
    [next_run] assigned. *)
Lemma _register_schedule_stored (sid : string) (self : t) (w : World)
    (s : ScheduleConfig.t) :
  schedules self !! sid = Some s ->
  exists x, schedules (_register_schedule sid self w).1 !! sid
            = Some (set_next_run x s).
Proof.
  intros Hs.
  assert (Hsame : s = set_next_run (next_run s) s) by (destruct s; reflexivity).
  unfold _register_schedule. rewrite Hs.
  destruct (_get_trigger s) as [trigger | e].
  2:{ exists (next_run s). cbn. rewrite Hs. f_equal. exact Hsame. }
  unfold bindM, now, logger, ret; cbn [fst snd].
  destruct (get_next_fire_time trigger _) as [[x |] | e]; cbn [fst snd].
  - eexists. rewrite schedules_store, decide_True by reflexivity.
    cbn [schedules set_scheduler remove_job]. rewrite Hs. reflexivity.
  - exists (next_run s). cbn. rewrite Hs. f_equal. exact Hsame.
  - exists (next_run s). cbn. rewrite Hs. f_equal. exact Hsame.
Qed.



End Rearming.



Section Invocations.
Import ScheduleConfig BackupScheduler.
Context `{TriggerLib}.

(** While the callback returns, the invocations left are made one
    after the other, each one recorded, and the firing ends in the
    statistics update; meanwhile the clock is not read. *)
Lemma run_returned_calls sid start (s : ScheduleConfig.t) (todo : list string)
    (fuel : nat) (seen : ScheduleConfig.t) (self : t) (w : World) :
  (length todo < fuel)%nat ->
  schedules self !! sid = Some s ->
  (forall callback w' backup_type,
     backup_callback self = Some callback ->
     backup_type ∈ todo ->
     callback w' backup_type sid = Returned) ->
  exists w1,
    clock w1 = clock w /\ reads w1 = reads w
    /\ calls w1 = (rev ((fun t => (t, sid)) <$> todo) ++ calls w)%list
    /\ bindM (proceed sid seen start todo self)
             (fun r => run fuel r.2 r.1) w
       = ((on_success sid s start self w1).1, Ended,
          (on_success sid s start self w1).2).
Proof.
  intros Hfuel Hs Hcb.
  revert fuel seen w Hfuel.
  induction todo as [| backup_type rest IH]; intros fuel seen w Hfuel.
  - exists w. split; [reflexivity | split; [reflexivity | split; [reflexivity |]]].
    unfold proceed, bindM, ret.
    rewrite (on_success_seen sid seen s start self w Hs).
    destruct (on_success sid s start self w) as [self1 w1].
    cbn [fst snd]. destruct fuel; reflexivity.
  - destruct fuel as [| fuel]; [cbn in Hfuel; lia |].
    cbn [length] in Hfuel.
    unfold proceed, bindM at 1, bindM at 1, record_call, ret. cbn [fst snd].
    cbn [run]. unfold bindM at 1. cbn [step]. unfold bindM at 1.
    unfold outcome_of.
    assert (Hout : forall w0,
      (match backup_callback self with
       | Some callback => (callback w0 backup_type sid, w0)
       | None => (Returned, w0)
       end) = (Returned, w0)).
    { intros w0. destruct (backup_callback self) as [callback |] eqn:Hc;
        [rewrite (Hcb callback w0 backup_type eq_refl ltac:(left)) |];
        reflexivity. }
    rewrite Hout. cbn [resume].
    match goal with
    | |- context [proceed sid ?seen' start rest self ?w0] =>
        destruct (IH ltac:(intros; eapply Hcb; eauto; right; assumption)
                    fuel seen' w0 ltac:(lia))
          as (w1 & Hclock & Hreads & Hcalls & Hrun)
    end.
    exists w1. split; [exact Hclock | split; [exact Hreads |]].
    split.
    { rewrite Hcalls. cbn [fmap list_fmap rev calls].
      rewrite <- app_assoc. reflexivity. }
    unfold bindM in Hrun. unfold bindM.
    destruct (proceed sid _ start rest self _) as [[self2 f2] w2].
    cbn [fst snd] in Hrun. exact Hrun.
Qed.

(** The same up to an invocation that raises: the types behind it are
    never invoked, and the firing ends on the failure path. *)
Lemma run_raised_calls sid start (s : ScheduleConfig.t)
    (pre : list string) (bad : string) (post : list string)
    (callback : Callback) (err : exn)
    (fuel : nat) (seen : ScheduleConfig.t) (self : t) (w : World) :
  (length pre < fuel)%nat ->
  schedules self !! sid = Some s ->
  backup_callback self = Some callback ->
  (forall w' backup_type, backup_type ∈ pre ->
     callback w' backup_type sid = Returned) ->
  (forall w', callback w' bad sid = Raised err) ->
  exists w1,
    clock w1 = clock w /\ reads w1 = reads w
    /\ calls w1 = ((bad, sid) :: rev ((fun t => (t, sid)) <$> pre) ++ calls w)%list
    /\ bindM (proceed sid seen start (pre ++ bad :: post) self)
             (fun r => run fuel r.2 r.1) w
       = ((on_failure sid s start err self w1).1, Ended,
          (on_failure sid s start err self w1).2).
Proof.
  intros Hfuel Hs Hc Hcb Hbad.
  revert fuel seen w Hfuel.
  induction pre as [| backup_type rest IH]; intros fuel seen w Hfuel.
  - destruct fuel as [| fuel]; [cbn in Hfuel; lia |].
    cbn [app].
    unfold proceed, bindM at 1, bindM at 1, record_call, ret. cbn [fst snd].
    cbn [run]. unfold bindM at 1. cbn [step]. unfold bindM at 1.
    unfold outcome_of. rewrite Hc, Hbad. cbn [resume].
    exists (mkWorld (clock w) (reads w) (uuids w) (draws w) (file w)
              (writable w) (log w) ((bad, sid) :: calls w)).
    split; [reflexivity | split; [reflexivity | split; [reflexivity |]]].
    unfold bindM, ret.
    match goal with
    | |- context [on_failure sid ?seen' start err self ?w0] =>
        rewrite (on_failure_seen sid seen' s start err self w0 Hs);
        destruct (on_failure sid s start err self w0) as [self1 w1]
    end.
    cbn [fst snd]. destruct fuel; reflexivity.
  - destruct fuel as [| fuel]; [cbn in Hfuel; lia |].
    cbn [length] in Hfuel. cbn [app].
    unfold proceed, bindM at 1, bindM at 1, record_call, ret. cbn [fst snd].
    cbn [run]. unfold bindM at 1. cbn [step]. unfold bindM at 1.
    unfold outcome_of. rewrite Hc, (Hcb _ backup_type ltac:(left)).
    cbn [resume].
    match goal with
    | |- context [proceed sid ?seen' start (rest ++ bad :: post) self ?w0] =>
        destruct (IH ltac:(intros; apply Hcb; right; assumption)
                    fuel seen' w0 ltac:(lia))
          as (w1 & Hclock & Hreads & Hcalls & Hrun)
    end.
    exists w1. split; [exact Hclock | split; [exact Hreads |]].
    split.
    { rewrite Hcalls. cbn [fmap list_fmap rev calls].
      rewrite <- app_assoc. reflexivity. }
    unfold bindM in Hrun. unfold bindM.
    destruct (proceed sid _ start (rest ++ bad :: post) self _)
      as [[self2 f2] w2].
    cbn [fst snd] in Hrun. exact Hrun.
Qed.

(** From its entry to the invocations: what a firing of an active
    schedule does when the gate is open. *)
Lemma _execute_scheduled_backup_open sid (s : ScheduleConfig.t) (self : t)
    (w : World) :
  schedules self !! sid = Some s ->
  status s = ACTIVE ->
  _running_backup self = false ->
  let self1 := set_running_backup true self in
  let wb := (logger (info ("Ejecutando backup programado: " +:+ name s))
               (now w).2).2 in
  _execute_scheduled_backup sid self w
  = match invocations self1 s with
    | Ok todo =>
        bindM (proceed sid s (clock w (reads w)) todo self1)
              (fun r => run (S (length (backup_types s))) r.2 r.1) wb
    | Raise e =>
        ((on_failure sid s (clock w (reads w)) e self1 wb).1, Ended,
         (on_failure sid s (clock w (reads w)) e self1 wb).2)
    end.
Proof.
  intros Hs Hactive Hgate self1 wb.
  unfold _execute_scheduled_backup. rewrite Hs.
  cbn [run]. unfold bindM at 1. cbn [step].
  unfold begin. rewrite Hs, Hactive, Hgate.
  rewrite bool_decide_eq_true_2 by reflexivity. cbn [negb].
  unfold bindM at 1. unfold now at 1.
  unfold bindM at 1. unfold logger at 1.
  cbn [fst snd]. fold self1.
  change (mkWorld _ _ _ _ _ _ _ _) with wb.
  destruct (invocations self1 s) as [todo | e].
  - unfold bindM. destruct (proceed sid s _ todo self1 wb) as [[self2 f2] w2].
    reflexivity.
  - unfold bindM, ret.
    destruct (on_failure sid s _ e self1 wb) as [self2 w2]. reflexivity.
Qed.

End Invocations.

(** X9.  A firing of an active schedule, the gate open, all of whose
    invocations return: a sequential schedule has every backup type of
    its list invoked, once each and in the order of the list; a schedule
    that is not sequential has only the first type of its list invoked,
    the others never.  The firing then ends as a success. *)
Theorem firing_invokes_types_in_order `{TriggerLib}
    (schedule_id : string) (self : BackupScheduler.t) (w : World)
    (s : ScheduleConfig.t) (callback : BackupScheduler.Callback) :
  BackupScheduler.schedules self !! schedule_id = Some s ->
  ScheduleConfig.status s = ACTIVE ->
  BackupScheduler._running_backup self = false ->
  BackupScheduler.backup_callback self = Some callback ->
  ScheduleConfig.sequential_execution s = true
  \/ ScheduleConfig.backup_types s <> [] ->
  let invoked :=
    if ScheduleConfig.sequential_execution s
    then ScheduleConfig.backup_types s
    else take 1 (ScheduleConfig.backup_types s) in
  (forall w' backup_type, backup_type ∈ invoked ->
     callback w' backup_type schedule_id = Returned) ->
  1 <= ScheduleHistory.max_entries (BackupScheduler.history self) ->
  let r := BackupScheduler._execute_scheduled_backup schedule_id self w in
  r.1.2 = BackupScheduler.Ended
  /\ calls r.2 = (rev ((fun t => (t, schedule_id)) <$> invoked) ++ calls w)%list
  /\ exists s',
       BackupScheduler.schedules r.1.1 !! schedule_id = Some s'
       /\ ScheduleConfig.last_status s' = Some "success"
       /\ ScheduleConfig.run_count s' = ScheduleConfig.run_count s + 1.
Proof.
  intros Hs Hactive Hgate Hc Htypes invoked Hcb Hmax r. subst r.
  rewrite (_execute_scheduled_backup_open schedule_id s self w Hs Hactive Hgate).
  set (self1 := BackupScheduler.set_running_backup true self).
  set (wb := (logger _ _).2).
  assert (Hs1 : BackupScheduler.schedules self1 !! schedule_id = Some s) by exact Hs.
  assert (Hinv : BackupScheduler.invocations self1 s = Ok invoked).
  { unfold BackupScheduler.invocations, invoked.
    change (BackupScheduler.backup_callback self1)
      with (BackupScheduler.backup_callback self).
    rewrite Hc. destruct (ScheduleConfig.sequential_execution s); [reflexivity |].
    destruct Htypes as [Hseq | Htypes]; [discriminate |].
    destruct (ScheduleConfig.backup_types s); [congruence | reflexivity]. }
  rewrite Hinv.
  assert (Hfuel : (length invoked < S (length (ScheduleConfig.backup_types s)))%nat).
  { unfold invoked. destruct (ScheduleConfig.sequential_execution s); [lia |].
    rewrite length_take. lia. }
  destruct (run_returned_calls schedule_id (clock w (reads w)) s invoked _ s
              self1 wb Hfuel Hs1) as (w1 & _ & _ & Hcalls & Hrun).
  { intros cb w' t Hcb' Ht.
    change (BackupScheduler.backup_callback self1)
      with (BackupScheduler.backup_callback self) in Hcb'.
    rewrite Hc in Hcb'. inversion Hcb'; subst cb. apply Hcb, Ht. }
  rewrite Hrun. cbn [fst snd].
  destruct (on_success_spec schedule_id s (clock w (reads w)) self1 w1 s Hs1 Hmax)
    as (_ & _ & s' & e & Hs' & H1 & H2 & _).
  split; [reflexivity |]. split.
  - destruct (quiet_on_success schedule_id s (clock w (reads w)) self1 w1)
      as [Hq _].
    rewrite Hq, Hcalls. reflexivity.
  - exists s'. auto.
Qed.

Lemma firing_invokes_types_in_order_witness :
  let s := ScheduleConfig.set_backup_types ["mongodb"; "milvus"; "postgres"]
             (sample_schedule "a") in
  let r := @BackupScheduler._execute_scheduled_backup SpecTriggers.lib "a"
             (sample_scheduler (Some always_returns) [s])
             (sample_world Missing) in
  calls r.2 = [("postgres", "a"); ("milvus", "a"); ("mongodb", "a")].
Proof.
  intros s r.
  refine (proj1 (proj2 (@firing_invokes_types_in_order SpecTriggers.lib "a"
            (sample_scheduler (Some always_returns) [s])
            (sample_world Missing) s always_returns
            eq_refl eq_refl eq_refl eq_refl (or_introl eq_refl) _ _))).
  - intros w' backup_type _. reflexivity.
  - vm_compute. discriminate.
Defined.

(** X10.  A sequential schedule whose callback raises at one of the
    types: the types before it have been invoked in order, the types
    behind it are never invoked, and the firing ends as a failure: the
    gate is released, [last_status] is "failed" and nothing else of the
    schedule is assigned (so [run_count] and [last_run] stay), and the
    history entry at the head carries the message of the exception. *)
Theorem failing_type_halts_the_sequence `{TriggerLib}
    (schedule_id : string) (self : BackupScheduler.t) (w : World)
    (s : ScheduleConfig.t) (callback : BackupScheduler.Callback)
    (pre : list string) (bad : string) (post : list string) (err : exn) :
  BackupScheduler.schedules self !! schedule_id = Some s ->
  ScheduleConfig.status s = ACTIVE ->
  BackupScheduler._running_backup self = false ->
  BackupScheduler.backup_callback self = Some callback ->
  ScheduleConfig.sequential_execution s = true ->
  ScheduleConfig.backup_types s = (pre ++ bad :: post)%list ->
  (forall w' backup_type, backup_type ∈ pre ->
     callback w' backup_type schedule_id = Returned) ->
  (forall w', callback w' bad schedule_id = Raised err) ->
  1 <= ScheduleHistory.max_entries (BackupScheduler.history self) ->
  let r := BackupScheduler._execute_scheduled_backup schedule_id self w in
  r.1.2 = BackupScheduler.Ended
  /\ calls r.2
     = ((bad, schedule_id) :: rev ((fun t => (t, schedule_id)) <$> pre)
        ++ calls w)%list
  /\ BackupScheduler._running_backup r.1.1 = false
  /\ BackupScheduler.schedules r.1.1 !! schedule_id
     = Some (ScheduleConfig.set_last_status (Some "failed") s)
  /\ exists e,
       head (ScheduleHistory.entries (BackupScheduler.history r.1.1)) = Some e
       /\ ScheduleHistory.e_schedule_id e = schedule_id
       /\ ScheduleHistory.e_status e = "failed"
       /\ ScheduleHistory.e_message e = exn_str err.
Proof.
  intros Hs Hactive Hgate Hc Hseq Htypes Hcb Hbad Hmax r. subst r.
  rewrite (_execute_scheduled_backup_open schedule_id s self w Hs Hactive Hgate).
  set (self1 := BackupScheduler.set_running_backup true self).
  set (wb := (logger _ _).2).
  assert (Hs1 : BackupScheduler.schedules self1 !! schedule_id = Some s) by exact Hs.
  assert (Hinv : BackupScheduler.invocations self1 s = Ok (pre ++ bad :: post)%list).
  { unfold BackupScheduler.invocations.
    change (BackupScheduler.backup_callback self1)
      with (BackupScheduler.backup_callback self).
    rewrite Hc, Hseq, Htypes. reflexivity. }
  rewrite Hinv.
  assert (Hfuel : (length pre < S (length (ScheduleConfig.backup_types s)))%nat).
  { rewrite Htypes, length_app. lia. }
  destruct (run_raised_calls schedule_id (clock w (reads w)) s pre bad post
              callback err _ s self1 wb Hfuel Hs1 Hc Hcb Hbad)
    as (w1 & _ & _ & Hcalls & Hrun).
  rewrite Hrun. cbn [fst snd].
  destruct (on_failure_spec schedule_id s (clock w (reads w)) err self1 w1 s
              Hs1 Hmax)
    as (Hg & _ & Hs' & e & Hent & Hid & _ & _ & Hst & Hmsg).
  split; [reflexivity |]. split.
  - destruct (quiet_on_failure schedule_id s (clock w (reads w)) err self1 w1)
      as [Hq _].
    rewrite Hq, Hcalls. reflexivity.
  - split; [exact Hg |]. split; [exact Hs' |].
    exists e. rewrite Hent. auto.
Qed.

Lemma failing_type_halts_the_sequence_witness :
  let s := ScheduleConfig.set_backup_types ["mongodb"; "milvus"; "postgres"]
             (sample_schedule "a") in
  let callback : BackupScheduler.Callback :=
    fun _ backup_type _ =>
      if String.eqb backup_type "milvus"
      then Raised (ValueError "milvus is down") else Returned in
  let r := @BackupScheduler._execute_scheduled_backup SpecTriggers.lib "a"
             (sample_scheduler (Some callback) [s]) (sample_world Missing) in
  calls r.2 = [("milvus", "a"); ("mongodb", "a")].
Proof.
  intros s callback r.
  refine (proj1 (proj2 (@failing_type_halts_the_sequence SpecTriggers.lib "a"
            (sample_scheduler (Some callback) [s]) (sample_world Missing)
            s callback ["mongodb"] "milvus" ["postgres"]
            (ValueError "milvus is down")
            eq_refl eq_refl eq_refl eq_refl eq_refl eq_refl _ _ _))).
  - intros w' backup_type Hin. apply list_elem_of_singleton in Hin. subst.
    reflexivity.
  - intros w'. reflexivity.
  - vm_compute. discriminate.
Defined.

(** X11.  A schedule that is not sequential and has an empty list of
    backup types, on a scheduler with a callback: the firing invokes
    nothing and ends as a failure, with the message of the [IndexError]
    of [backup_types[0]] in its history entry. *)
Theorem firing_without_types_fails_when_not_sequential `{TriggerLib}
    (schedule_id : string) (self : BackupScheduler.t) (w : World)
    (s : ScheduleConfig.t) (callback : BackupScheduler.Callback) :
  BackupScheduler.schedules self !! schedule_id = Some s ->
  ScheduleConfig.status s = ACTIVE ->
  BackupScheduler._running_backup self = false ->
  BackupScheduler.backup_callback self = Some callback ->
  ScheduleConfig.sequential_execution s = false ->
  ScheduleConfig.backup_types s = [] ->
  1 <= ScheduleHistory.max_entries (BackupScheduler.history self) ->
  let r := BackupScheduler._execute_scheduled_backup schedule_id self w in
  r.1.2 = BackupScheduler.Ended
  /\ calls r.2 = calls w
  /\ BackupScheduler._running_backup r.1.1 = false
  /\ BackupScheduler.schedules r.1.1 !! schedule_id
     = Some (ScheduleConfig.set_last_status (Some "failed") s)
  /\ exists e,
       head (ScheduleHistory.entries (BackupScheduler.history r.1.1)) = Some e
       /\ ScheduleHistory.e_status e = "failed"
       /\ ScheduleHistory.e_message e = "list index out of range".
Proof.
  intros Hs Hactive Hgate Hc Hseq Htypes Hmax r. subst r.
  rewrite (_execute_scheduled_backup_open schedule_id s self w Hs Hactive Hgate).
  set (self1 := BackupScheduler.set_running_backup true self).
  set (wb := (logger _ _).2).
  assert (Hs1 : BackupScheduler.schedules self1 !! schedule_id = Some s) by exact Hs.
  assert (Hinv : BackupScheduler.invocations self1 s
                 = Raise (IndexError "list index out of range")).
  { unfold BackupScheduler.invocations.
    change (BackupScheduler.backup_callback self1)
      with (BackupScheduler.backup_callback self).
    rewrite Hc, Hseq, Htypes. reflexivity. }
  rewrite Hinv. cbn [fst snd].
  destruct (on_failure_spec schedule_id s (clock w (reads w))
              (IndexError "list index out of range") self1 wb s Hs1 Hmax)
    as (Hg & _ & Hs' & e & Hent & Hid & _ & _ & Hst & Hmsg).
  split; [reflexivity |]. split.
  - destruct (quiet_on_failure schedule_id s (clock w (reads w))
                (IndexError "list index out of range") self1 wb) as [Hq _].
    rewrite Hq. reflexivity.
  - split; [exact Hg |]. split; [exact Hs' |].
    exists e. rewrite Hent. auto.
Qed.

Lemma firing_without_types_fails_when_not_sequential_witness :
  let s := ScheduleConfig.set_sequential_execution false
             (ScheduleConfig.set_backup_types [] (sample_schedule "a")) in
  let r := @BackupScheduler._execute_scheduled_backup SpecTriggers.lib "a"
             (sample_scheduler (Some always_returns) [s])
             (sample_world Missing) in
  calls r.2 = [].
Proof.
  intros s r.
  refine (proj1 (proj2 (@firing_without_types_fails_when_not_sequential
            SpecTriggers.lib "a"
            (sample_scheduler (Some always_returns) [s])
            (sample_world Missing) s always_returns
            eq_refl eq_refl eq_refl eq_refl eq_refl eq_refl _))).
  vm_compute. discriminate.
Defined.

(** X12.  A firing for an id that is not stored, for a schedule that
    is not active, or at a moment the gate is set, is dropped: it ends
    at once with the scheduler as it was (nothing queued for later, no
    history entry), no invocation, no file written and no reading of
    the clock; one log record is all it leaves. *)
Theorem firing_is_dropped_unless_due `{TriggerLib}
    (schedule_id : string) (self : BackupScheduler.t) (w : World) :
  match BackupScheduler.schedules self !! schedule_id with
  | Some s =>
      ScheduleConfig.status s <> ACTIVE
      \/ BackupScheduler._running_backup self = true
  | None => True
  end ->
  let r := BackupScheduler._execute_scheduled_backup schedule_id self w in
  r.1 = (self, BackupScheduler.Ended)
  /\ calls r.2 = calls w /\ file r.2 = file w /\ reads r.2 = reads w
  /\ length (log r.2) = S (length (log w)).
Proof.
  intros Hdue r. subst r.
  unfold BackupScheduler._execute_scheduled_backup.
  cbn [BackupScheduler.run BackupScheduler.step]. unfold bindM at 1.
  unfold BackupScheduler.begin.
  destruct (BackupScheduler.schedules self !! schedule_id) as [s |].
  - case_bool_decide as Hactive; cbn [negb].
    + destruct Hdue as [Hne | Hgate]; [congruence |]. rewrite Hgate.
      cbn. auto.
    + cbn. auto.
  - cbn. auto.
Qed.

Lemma firing_is_dropped_unless_due_witness :
  let self := BackupScheduler.set_running_backup true
                (sample_scheduler (Some always_returns) [sample_schedule "a"]) in
  let r := @BackupScheduler._execute_scheduled_backup SpecTriggers.lib "a"
             self (sample_world Missing) in
  r.1 = (self, BackupScheduler.Ended) /\ calls r.2 = [].
Proof.
  intros self r.
  destruct (@firing_is_dropped_unless_due SpecTriggers.lib "a" self
              (sample_world Missing) (or_intror eq_refl)) as (Hr & Hcalls & _).
  split; [exact Hr | exact Hcalls].
Defined.

Section Scripts.
Import Main.



End Scripts.





(** X14.  A script that cannot start.  For a task id that is not
    registered, [run_backup_script] raises [KeyError] and changes
    nothing.  For a registered task whose subprocess cannot be spawned,
    the script ends with the task failed, the text of the exception as
    its error, its output untouched and [completed_at] stamped, whatever
    events would have followed. *)
Theorem run_backup_script_that_cannot_start
    (id : string) (events : list Main.ProcessEvent) (e : exn)
    (st : Main.State) (w : World) :
  match Main.backup_tasks st !! id with
  | None =>
      forall spawned,
        Main.run_backup_script id spawned events st w
        = ((st, Raise (KeyError id)), w)
  | Some a =>
      let r := Main.run_backup_script id (Raise e) events st w in
      r.1.2 = Ok Main.Finished
      /\ Main.backup_tasks r.1.1 = Main.backup_tasks st
      /\ (forall b, b <> a -> Main.heap r.1.1 !! b = Main.heap st !! b)
      /\ forall t, Main.heap st !! a = Some t ->
           Main.heap r.1.1 !! a
           = Some (Main.mkTask (Main.task_id t) (Main.backup_type t) Main.FAILED
                     (Main.started_at t)
                     (Some (datetime.isoformat (clock w (reads w))))
                     (Main.output t) (Some (exn_str e)) (Main.schedule_id t))
  end.
Proof.
  destruct (Main.backup_tasks st !! id) as [a |] eqn:Hid.
  - intros r. subst r.
    unfold Main.run_backup_script, Main.script_begin. rewrite Hid.
    cbv beta iota zeta delta [bindM ret now Main.complete].
    assert (Hfeed : forall st0 w0,
              Main.script_feed events Main.Finished st0 w0
              = ((st0, Main.Finished), w0))
      by (intros st0 w0; destruct events; reflexivity).
    rewrite Hfeed. cbn [fst snd].
    split; [reflexivity |]. split; [reflexivity |]. split.
    + intros b Hb. cbn. rewrite !list_lookup_alter_ne by congruence. reflexivity.
    + intros t Ht. cbn. rewrite !list_lookup_alter_eq, Ht. reflexivity.
  - intros spawned. unfold Main.run_backup_script, Main.script_begin.
    rewrite Hid. reflexivity.
Qed.

(** X15.  The manual dispatcher [start_backup].  When Docker is down or
    the QNAP share is not mounted it raises the 503 of the first guard
    that fails and leaves no trace: no record, no reading of the clock.
    Otherwise it returns an id made of the type and the first reading of
    the clock, hands that id and type to the script, and a poll of the
    id with [get_task_status] finds the new record, pending, with empty
    output; the records that existed are all kept, under their ids. *)
Theorem start_backup_registers_a_pending_task
    (docker qnap_mounted : bool) (backup_type : Main.BackupType)
    (st : Main.State) (w : World) :
  let r := Main.start_backup docker qnap_mounted backup_type st w in
  match r.1.2 with
  | Raise e =>
      docker && qnap_mounted = false
      /\ e = HTTPException 503
               (if docker then "QNAP no esta montado"
                else "Docker no esta corriendo")
      /\ r.1.1 = st /\ r.2 = w
  | Ok (id, script) =>
      docker && qnap_mounted = true
      /\ id = "backup_" +:+ Main.BackupType_value backup_type +:+ "_"
              +:+ datetime.strftime_Ymd_HMS (clock w (reads w))
      /\ script = Main.Queued id backup_type
      /\ Main.get_task_status id r.1.1
         = Ok (Main.pending id (Main.BackupType_value backup_type)
                 (datetime.isoformat (clock w (S (reads w)))) [] None)
      /\ Main.heap r.1.1 = (Main.heap st ++ [Main.pending id
                 (Main.BackupType_value backup_type)
                 (datetime.isoformat (clock w (S (reads w)))) [] None])%list
      /\ forall id', id' <> id ->
           Main.backup_tasks r.1.1 !! id' = Main.backup_tasks st !! id'
  end.
Proof.
  intros r. subst r. unfold Main.start_backup, Main.guards.
  destruct docker; cbn [negb]; [| cbn; auto].
  destruct qnap_mounted; cbn [negb]; [| cbn; auto].
  unfold bindM, now, ret. cbn [fst snd clock reads andb].
  split; [reflexivity |]. split; [reflexivity |]. split; [reflexivity |].
  split; [| split; [reflexivity |]].
  - unfold Main.get_task_status, Main.assign.
    cbn [Main.backup_tasks Main.heap Main.task_id Main.pending].
    rewrite lookup_insert_eq, lookup_app_r by lia.
    rewrite Nat.sub_diag. reflexivity.
  - intros id' Hne. unfold Main.assign.
    cbn [Main.backup_tasks Main.task_id Main.pending].
    apply lookup_insert_ne. congruence.
Qed.

Section TimeOfDay.
Import ScheduleConfig BackupScheduler.
Context `{TriggerLib}.

Lemma hour_minute_zfill_nat (h m : nat) :
  (h < 100)%nat -> (m < 100)%nat ->
  hour_minute (Some (zfill 2 (Z.of_nat h) +:+ ":" +:+ zfill 2 (Z.of_nat m)))
  = Ok (Z.of_nat h, Z.of_nat m).
Proof.
  intros Hh Hm.
  assert (Hall : forallb (fun h =>
            forallb (fun m =>
              match hour_minute
                      (Some (zfill 2 (Z.of_nat h) +:+ ":" +:+ zfill 2 (Z.of_nat m)))
              with
              | Ok (h', m') => (h' =? Z.of_nat h) && (m' =? Z.of_nat m)
              | Raise _ => false
              end) (seq 0 100)) (seq 0 100) = true)
    by (vm_compute; reflexivity).
  rewrite forallb_forall in Hall.
  specialize (Hall h ltac:(apply in_seq; lia)).
  rewrite forallb_forall in Hall.
  specialize (Hall m ltac:(apply in_seq; lia)).
  destruct (hour_minute _) as [[h' m'] | e]; [| discriminate].
  apply andb_true_iff in Hall as [Hh' Hm'].
  apply Z.eqb_eq in Hh', Hm'. congruence.
Qed.

End TimeOfDay.

(** X16.  A [time_of_day] of the form the API accepts, two digits, a
    colon and two digits, is read by [_get_trigger] as that hour and
    that minute: a daily schedule with such a time gets the cron trigger
    of that hour and minute on every day, if the trigger library takes
    the two numbers. *)
Theorem daily_trigger_reads_time_of_day `{TriggerLib}
    (s : ScheduleConfig.t) (h m : Z) :
  0 <= h < 100 -> 0 <= m < 100 ->
  ScheduleConfig.schedule_type s = DAILY ->
  ScheduleConfig.time_of_day s = Some (zfill 2 h +:+ ":" +:+ zfill 2 m) ->
  BackupScheduler.hour_minute (ScheduleConfig.time_of_day s) = Ok (h, m)
  /\ BackupScheduler._get_trigger s
     = BackupScheduler.construct (CronTrigger None None h m).
Proof.
  intros Hh Hm Hkind Htime.
  assert (Hparse : BackupScheduler.hour_minute (ScheduleConfig.time_of_day s)
                   = Ok (h, m)).
  { rewrite Htime.
    pose proof (hour_minute_zfill_nat (Z.to_nat h) (Z.to_nat m)
                  ltac:(lia) ltac:(lia)) as Hnat.
    rewrite !Z2Nat.id in Hnat by lia. exact Hnat. }
  split; [exact Hparse |].
  unfold BackupScheduler._get_trigger. rewrite Hkind, Hparse. reflexivity.
Qed.

Lemma daily_trigger_reads_time_of_day_witness :
  BackupScheduler.hour_minute (ScheduleConfig.time_of_day (sample_schedule "a"))
  = Ok (2, 0).
Proof.
  exact (proj1 (@daily_trigger_reads_time_of_day SpecTriggers.lib
                  (sample_schedule "a") 2 0 ltac:(lia) ltac:(lia)
                  eq_refl eq_refl)).
Defined.

Section Queries.
Import ScheduleHistory.

Lemma filter_sublist {A} (f : A -> bool) (l : list A) :
  List.filter f l `sublist_of` l.
Proof.
  induction l as [| x l IH]; cbn; [constructor |].
  destruct (f x); [apply sublist_skip | apply sublist_cons]; exact IH.
Qed.

Lemma length_py_slice_to {A} (l : list A) (n : Z) :
  Z.of_nat (length (py_slice_to l n))
  = if 0 <=? n then Z.min n (Z.of_nat (length l))
    else Z.max 0 (Z.of_nat (length l) + n).
Proof.
  unfold py_slice_to.
  destruct (Z.ltb_spec n 0), (Z.leb_spec 0 n); try lia;
    rewrite length_take; lia.
Qed.

End Queries.

(** X17.  [get_history].  Without an id, or with the empty string for
    one, it is [get_recent]; with an id, every entry it returns belongs
    to that schedule.  In both cases the result is a subsequence of the
    history (newest first, nothing invented), and of the [n] entries
    that qualify it holds the first [min(limit, n)] for a limit of zero
    or more, and all but the last [-limit] for a negative one. *)
Theorem get_history_filters_and_limits
    (schedule_id : option string) (limit : Z) (self : BackupScheduler.t) :
  let r := BackupScheduler.get_history schedule_id limit self in
  let all := ScheduleHistory.entries (BackupScheduler.history self) in
  let wanted (e : ScheduleHistory.Entry) :=
    match BackupScheduler.truthy schedule_id with
    | Some x => String.eqb (ScheduleHistory.e_schedule_id e) x
    | None => true
    end in
  r `sublist_of` all
  /\ r `prefix_of` List.filter wanted all
  /\ (forall e, e ∈ r -> wanted e = true)
  /\ Z.of_nat (length r)
     = if 0 <=? limit
       then Z.min limit (Z.of_nat (length (List.filter wanted all)))
       else Z.max 0 (Z.of_nat (length (List.filter wanted all)) + limit).
Proof.
  intros r all wanted.
  assert (Hr : r = py_slice_to (List.filter wanted all) limit).
  { subst r wanted all. unfold BackupScheduler.get_history.
    destruct schedule_id as [[| c x] |]; cbn [BackupScheduler.truthy].
    - unfold ScheduleHistory.get_recent. f_equal.
      induction (ScheduleHistory.entries _) as [| e l IH]; cbn; congruence.
    - reflexivity.
    - unfold ScheduleHistory.get_recent. f_equal.
      induction (ScheduleHistory.entries _) as [| e l IH]; cbn; congruence. }
  assert (Hprefix : r `prefix_of` List.filter wanted all).
  { rewrite Hr. unfold py_slice_to. destruct (limit <? 0); apply prefix_take. }
  split; [| split; [exact Hprefix | split]].
  - transitivity (List.filter wanted all).
    + destruct Hprefix as [k Hk]. rewrite Hk. apply sublist_inserts_r.
      reflexivity.
    + apply filter_sublist.
  - intros e He.
    assert (Hin : e ∈ List.filter wanted all).
    { destruct Hprefix as [k ->]. apply elem_of_app. left. exact He. }
    apply list_elem_of_In, filter_In in Hin. tauto.
  - rewrite Hr. apply length_py_slice_to.
Qed.

(* ===================================================================== *)
(** * Properties of the collection backup script                          *)
(* ===================================================================== *)

Section CollectionBackup.
Import Collections.

Lemma backup_collections_spec (env : Env) (alias : string)
    (collections : list string) :
  (backup_collections env alias collections).1
  = (fun c => (c, match schema env alias c with
                  | Ok n => n
                  | Raise _ => 0
                  end)) <$> collections
  /\ connects alias (backup_collections env alias collections).2 = 0%nat
  /\ disconnects alias (backup_collections env alias collections).2 = 0%nat.
Proof.
  induction collections as [| c rest IH]; [cbn; auto |].
  cbn [backup_collections backup_collection_schema backup_collection_data].
  destruct (backup_collections env alias rest) as [entries ev3].
  cbn [fst snd] in *. destruct IH as (-> & Hc & Hd).
  split; [| split].
  - cbn. destruct (schema env alias c); reflexivity.
  - exact Hc.
  - exact Hd.
Qed.

Lemma backup_instance_status (env : Env) (instance : Instance) :
  String.eqb (r_status (backup_instance env instance).1) "success"
  = backs_up env instance.
Proof.
  unfold backup_instance, backs_up, connect.
  destruct (reachable env (name instance)); cbn [negb andb fst]; [| reflexivity].
  destruct (list_collections env (name instance)) as [| c rest];
    [reflexivity |].
  destruct (instance_dir env (name instance)); [reflexivity |].
  destruct (backup_collections env (name instance) (c :: rest)). reflexivity.
Qed.

Lemma backup_instances_results (env : Env) (instances : list Instance) :
  (backup_instances env instances).1
  = (fun instance => (backup_instance env instance).1) <$> instances.
Proof.
  induction instances as [| instance rest IH]; [reflexivity |].
  cbn [backup_instances fmap list_fmap].
  destruct (backup_instance env instance) as [result ev1].
  destruct (backup_instances env rest) as [results ev2].
  cbn [fst] in *. rewrite IH. reflexivity.
Qed.

End CollectionBackup.

(** X18.  [backup_instance] reports "success" exactly when the instance
    was reached and, if it has collections, its directory could be made;
    a collection whose schema or data could not be exported does not
    make it fail, and is listed with 0 entities when its schema is
    missing.  It makes one connection attempt, and disconnects exactly
    once when the connection was made, as its last call, and never when
    it was not. *)
Theorem backup_instance_reports_and_disconnects
    (env : Collections.Env) (instance : Collections.Instance) :
  let alias := Collections.name instance in
  let r := Collections.backup_instance env instance in
  (Collections.r_status r.1 = "success" <-> backs_up env instance = true)
  /\ (Collections.r_status r.1 = "success"
      \/ Collections.r_status r.1 = "failed")
  /\ (backs_up env instance = true ->
      Collections.r_collections r.1
      = (fun c => (c, match Collections.schema env alias c with
                      | Ok n => n
                      | Raise _ => 0
                      end)) <$> Collections.list_collections env alias)
  /\ head r.2 = Some (Collections.Connect alias)
  /\ connects alias r.2 = 1%nat
  /\ disconnects alias r.2
     = (if Collections.reachable env alias then 1%nat else 0%nat)
  /\ (Collections.reachable env alias = true ->
      last r.2 = Some (Collections.Disconnect alias)).
Proof.
  intros alias r.
  split.
  { rewrite <- (backup_instance_status env instance). subst r.
    split; [intros ->; reflexivity | apply String.eqb_eq]. }
  subst r alias. unfold Collections.backup_instance, backs_up,
    Collections.connect, Collections.disconnect.
  destruct (Collections.reachable env (Collections.name instance));
    cbn [negb andb fst snd].
  2:{ cbn. rewrite String.eqb_refl. repeat split; auto; discriminate. }
  destruct (Collections.list_collections env (Collections.name instance))
    as [| c rest] eqn:Hlist.
  { cbn. rewrite String.eqb_refl. repeat split; auto. }
  destruct (Collections.instance_dir env (Collections.name instance)).
  { cbn. rewrite String.eqb_refl. repeat split; auto; discriminate. }
  destruct (backup_collections_spec env (Collections.name instance) (c :: rest))
    as (Hentries & Hc & Hd).
  destruct (Collections.backup_collections env (Collections.name instance)
              (c :: rest)) as [entries ev1].
  cbn [fst snd] in *.
  split; [auto |]. split; [intros _; exact Hentries |].
  split; [reflexivity |].
  unfold connects, disconnects in *.
  cbn [app List.filter]. rewrite String.eqb_refl.
  rewrite !List.filter_app, !length_app. cbn [List.filter length].
  rewrite String.eqb_refl. cbn [length].
  rewrite ?app_nil_r, ?length_app, Hc, Hd.
  split; [reflexivity |]. split; [reflexivity |].
  intros _. rewrite app_comm_cons. apply last_snoc.
Qed.

(** X19.  The exit status of [main].  Unless the backup directory
    cannot be made or the summary cannot be written, in which cases the
    exception leaves [main], the status is 0 when each of the six
    instances was reached and, if it has collections, got its
    directory, and 1 otherwise.  No outcome of a schema or data export
    has a part in it. *)
Theorem main_exit_status (env : Collections.Env) :
  Collections.main env
  = match Collections.backup_dir env, Collections.summary env with
    | Some e, _ => Raise e
    | None, Some e => Raise e
    | None, None =>
        Ok (if forallb (backs_up env) Collections.MILVUS_INSTANCES
            then 0 else 1)
    end.
Proof.
  unfold Collections.main, Collections.run_full_backup.
  destruct (Collections.backup_dir env); [reflexivity |].
  pose proof (backup_instances_results env Collections.MILVUS_INSTANCES) as Hres.
  destruct (Collections.backup_instances env Collections.MILVUS_INSTANCES)
    as [results events].
  cbn [fst] in Hres.
  destruct (Collections.summary env); [reflexivity |].
  cbn [fst bind_result]. rewrite Hres. f_equal.
  enough (Heq : forall l,
            forallb (fun r => String.eqb (Collections.r_status r) "success")
              ((fun instance => (Collections.backup_instance env instance).1)
                 <$> l)
            = forallb (backs_up env) l) by (rewrite Heq; reflexivity).
  induction l as [| instance l IH]; [reflexivity |].
  cbn [fmap list_fmap forallb]. rewrite IH, backup_instance_status. reflexivity.
Qed.

Section Newest.
Import ScheduleHistory.

Lemma take_app_take {A} (n m : nat) (l k : list A) :
  (n <= length l + m)%nat ->
  take n (l ++ take m k) = take n (l ++ k).
Proof.
  intros Hn. rewrite !take_app, take_take. do 2 f_equal. lia.
Qed.

Lemma add_all_newest (calls : list Args) :
  forall (h : t) (w : World),
    1 <= max_entries h ->
    Z.of_nat (length (entries h)) <= max_entries h ->
    entry_args <$> entries (add_all calls h w).1
    = take (Z.to_nat (max_entries h)) (rev calls ++ (entry_args <$> entries h)).
Proof.
  induction calls as [| a calls IH]; intros h w Hmax Hlen.
  - cbn. rewrite take_ge; [reflexivity |]. rewrite length_fmap. lia.
  - cbn [add_all]. unfold bindM.
    destruct (add_entries a h w Hmax Hlen) as (e & Hentries & Hcap & Hargs).
    destruct (add_args a h w) as [h1 w1]. cbn [fst] in *.
    rewrite IH; cycle 1.
    { lia. }
    { rewrite Hentries, Hcap. cbn [length]. rewrite length_take. lia. }
    rewrite Hentries, Hcap. cbn [fmap list_fmap rev].
    fold (entry_args e). unfold entry_args at 1. rewrite Hargs.
    rewrite fmap_take, <- app_assoc. cbn [app].
    change (a :: take ?m ?k) with ([a] ++ take m k)%list.
    change (a :: ?k) with ([a] ++ k)%list at 2.
    rewrite !app_assoc. apply take_app_take.
    rewrite length_app. cbn [length]. lia.
Qed.

End Newest.

(** X20.  The history keeps the newest entries, newest first: after
    any sequence of [add] calls on an empty history with a cap of at
    least one, its entries are those of the last [cap] calls, the latest
    call first. *)
Theorem history_keeps_the_newest_entries
    (cap : Z) (calls : list ScheduleHistory.Args) (w : World) :
  1 <= cap ->
  entry_args
    <$> ScheduleHistory.entries
          (ScheduleHistory.add_all calls (ScheduleHistory.init cap) w).1
  = take (Z.to_nat cap) (rev calls).
Proof.
  intros Hcap.
  rewrite (add_all_newest calls (ScheduleHistory.init cap) w) by (cbn; lia).
  cbn. rewrite app_nil_r. reflexivity.
Qed.

Lemma history_keeps_the_newest_entries_witness :
  let call (n : Z) : ScheduleHistory.Args :=
    ("a", "nightly", ["global"], "success", n, "ok") in
  entry_args
    <$> ScheduleHistory.entries
          (ScheduleHistory.add_all [call 1; call 2; call 3]
             (ScheduleHistory.init 2) (sample_world Missing)).1
  = [call 3; call 2].
Proof.
  intros call.
  exact (history_keeps_the_newest_entries 2 [call 1; call 2; call 3]
           (sample_world Missing) ltac:(lia)).
Defined.


Section Keys.
Import ScheduleConfig BackupScheduler.
Context `{TriggerLib}.


















End Keys.



Section Endpoint.
Import ScheduleConfig.
Context `{TriggerLib}.

Ltac lookup_dump :=
  repeat first
    [ rewrite lookup_insert_eq
    | rewrite lookup_insert_ne by discriminate
    | rewrite lookup_empty ].

Lemma ScheduleType_of_Ok (v : string) (kind : ScheduleType) :
  ScheduleType_of v = Ok kind -> v = ScheduleType_value kind.
Proof.
  unfold ScheduleType_of.
  destruct (List.find _ _) as [t |] eqn:Hfind; cbn; [| discriminate].
  intros [= <-]. apply find_some in Hfind as [_ Heq].
  apply String.eqb_eq in Heq. congruence.
Qed.

Lemma ScheduleType_of_Raise (v : string) (e : exn) :
  ScheduleType_of v = Raise e ->
  e = ValueError ("'" +:+ v +:+ "' is not a valid ScheduleType").
Proof.
  unfold ScheduleType_of. destruct (List.find _ _); cbn; congruence.
Qed.

(** [from_dict] on the dump of a request, with the three keys that
    [create_schedule] sets. *)
Lemma from_dict_model_dump (c u : datetime.t)
    (request : Handlers.ScheduleCreateRequest) (id ca ua : string) :
  from_dict c u
    (<["updated_at" := VStr ua]>
       (<["created_at" := VStr ca]>
          (<["id" := VStr id]> (Handlers.model_dump request))))
  = bind_result (ScheduleType_of (Handlers.schedule_type request))
      (fun kind => Ok (created request kind id ca ua)).
Proof.
  unfold from_dict, convert_enum, Handlers.model_dump. lookup_dump.
  cbn [mbind option_bind str_of]. unfold to_schedule_type.
  destruct (ScheduleType_of (Handlers.schedule_type request)) as [kind | e];
    cbn [bind_result]; [| reflexivity].
  lookup_dump. cbn [mbind option_bind bind_result].
  set (data := <["schedule_type" := VType kind]> _).
  assert (Hdata : forall f,
            data !! field_name f
            = match f with
              | F_id => Some (VStr id)
              | F_name => Some (VStr (Handlers.name request))
              | F_description => Some (VStr (Handlers.description request))
              | F_backup_types =>
                  Some (of_str_list (Handlers.backup_types request))
              | F_schedule_type => Some (VType kind)
              | F_cron_expression =>
                  Some (of_opt_str (Handlers.cron_expression request))
              | F_interval_minutes =>
                  Some (of_opt_int (Handlers.interval_minutes request))
              | F_time_of_day =>
                  Some (of_opt_str (Handlers.time_of_day request))
              | F_days_of_week =>
                  Some (of_opt_int_list (Handlers.days_of_week request))
              | F_days_of_month =>
                  Some (of_opt_int_list (Handlers.days_of_month request))
              | F_run_date => Some (of_opt_str (Handlers.run_date request))
              | F_created_at => Some (VStr ca)
              | F_updated_at => Some (VStr ua)
              | F_retry_on_failure =>
                  Some (VBool (Handlers.retry_on_failure request))
              | F_max_retries => Some (VInt (Handlers.max_retries request))
              | F_sequential_execution =>
                  Some (VBool (Handlers.sequential_execution request))
              | F_status | F_last_run | F_next_run | F_run_count
              | F_last_status | F_notification_email => None
              end).
  { intros f. subst data. destruct f; cbn [field_name]; lookup_dump;
      reflexivity. }
  assert (Hkeys : map_Forall (fun k _ => is_Some (hasattr k)) data).
  { subst data.
    repeat (apply map_Forall_insert_2; [vm_compute; eauto |]).
    apply map_Forall_empty. }
  clearbody data.
  unfold cls. rewrite bool_decide_eq_true_2 by exact Hkeys.
  cbn [negb required forallb]. rewrite !Hdata.
  rewrite !bool_decide_eq_true_2 by eauto. cbn [andb negb].
  unfold fields. cbn [foldl]. rewrite !Hdata.
  destruct request. unfold created.
  cbn -[as_str_list as_opt_str as_opt_int as_opt_int_list of_str_list
        of_opt_str of_opt_int of_opt_int_list].
  rewrite ?as_str_list_of, ?as_opt_str_of, ?as_opt_int_of, ?as_opt_int_list_of.
  reflexivity.
Qed.

(** The two ways [create_schedule] ends, by what [from_dict] makes of
    the configuration. *)
Lemma create_schedule_Ok (config : gmap string value)
    (self : BackupScheduler.t) (w : World) (schedule : ScheduleConfig.t) :
  let sid := String.substring 0 12 (uuids w (draws w)) in
  (forall c u,
     from_dict c u
       (<["updated_at" := VStr (datetime.isoformat (clock w (S (reads w))))]>
          (<["created_at" := VStr (datetime.isoformat (clock w (reads w)))]>
             (<["id" := VStr sid]> config)))
     = Ok schedule) ->
  id schedule = sid ->
  exists x,
    (BackupScheduler.create_schedule config self w).1.2
    = Ok (set_next_run x schedule)
    /\ BackupScheduler.schedules
         (BackupScheduler.create_schedule config self w).1.1 !! sid
       = Some (set_next_run x schedule).
Proof.
  intros sid Hfrom Hid.
  destruct (BackupScheduler.create_schedule config self w)
    as [[self' res] w'] eqn:Hrun.
  cbn [fst snd].
  unfold BackupScheduler.create_schedule in Hrun.
  unfold bindM at 1 in Hrun. unfold uuid4 at 1 in Hrun.
  unfold bindM at 1 in Hrun. unfold now at 1 in Hrun.
  unfold bindM at 1 in Hrun. unfold now at 1 in Hrun.
  cbn [clock reads uuids draws] in Hrun. fold sid in Hrun.
  unfold bindM at 1 in Hrun. unfold BackupScheduler.from_dict_now in Hrun.
  rewrite Hfrom in Hrun.
  unfold bindM at 1 in Hrun.
  destruct (BackupScheduler._calculate_next_run schedule _) as [next w2] in Hrun.
  set (schedule1 := set_next_run next schedule) in Hrun.
  set (self1 := BackupScheduler.set_schedules _ self) in Hrun.
  assert (Hstored1 : BackupScheduler.schedules self1 !! sid = Some schedule1).
  { subst self1. destruct self. cbn. apply lookup_insert_eq. }
  unfold bindM at 1 in Hrun.
  match type of Hrun with
  | context [let '(_, _) := ?c in _] => set (reg := c) in Hrun
  end.
  assert (Hreg : exists x,
            BackupScheduler.schedules reg.1 !! sid
            = Some (set_next_run x schedule)).
  { subst reg. destruct (_ && _).
    - destruct (_register_schedule_stored sid self1 w2 schedule1 Hstored1)
        as [x Hx].
      exists x. rewrite Hx. subst schedule1. destruct schedule; reflexivity.
    - exists next. exact Hstored1. }
  destruct reg as [self2 w3]. cbn [fst] in Hreg. destruct Hreg as [x Hx].
  unfold bindM in Hrun.
  destruct (BackupScheduler._save_schedules self2 w3) as [[] w4].
  unfold ret in Hrun. rewrite Hx in Hrun. cbn [of_option] in Hrun.
  inversion Hrun; subst self' res w'. eauto.
Qed.

Lemma create_schedule_Raise (config : gmap string value)
    (self : BackupScheduler.t) (w : World) (e : exn) :
  (forall c u,
     from_dict c u
       (<["updated_at" := VStr (datetime.isoformat (clock w (S (reads w))))]>
          (<["created_at" := VStr (datetime.isoformat (clock w (reads w)))]>
             (<["id" := VStr (String.substring 0 12 (uuids w (draws w)))]>
                config)))
     = Raise e) ->
  (BackupScheduler.create_schedule config self w).1 = (self, Raise e)
  /\ file (BackupScheduler.create_schedule config self w).2 = file w.
Proof.
  intros Hfrom.
  unfold BackupScheduler.create_schedule, bindM, uuid4, now,
    BackupScheduler.from_dict_now.
  cbn [fst snd clock reads uuids draws]. rewrite Hfrom. cbn. auto.
Qed.

Lemma validate_Raise (request : Handlers.ScheduleCreateRequest) (e : exn) :
  Handlers.validate request = Raise e ->
  exists detail, e = HTTPException 400 detail.
Proof.
  unfold Handlers.validate.
  destruct (List.find _ _); [intros [= <-]; eauto |].
  repeat match goal with
         | |- context [if ?b then _ else _] => destruct b
         end;
    intros [= <-]; eauto.
Qed.

Lemma validate_Ok (request : Handlers.ScheduleCreateRequest)
    (kind : ScheduleType) (id ca ua : string) (x : option string) :
  Handlers.validate request = Ok tt ->
  ScheduleType_of (Handlers.schedule_type request) = Ok kind ->
  has_its_parameter (set_next_run x (created request kind id ca ua))
  /\ Forall (fun bt => bt ∈ Handlers.valid_types)
            (Handlers.backup_types request).
Proof.
  intros Hv Hkind. apply ScheduleType_of_Ok in Hkind.
  unfold Handlers.validate in Hv.
  destruct (List.find _ _) eqn:Hfind; [discriminate |].
  split.
  - unfold has_its_parameter. cbn [schedule_type set_next_run created
      cron_expression interval_minutes time_of_day days_of_week days_of_month
      run_date].
    rewrite Hkind in Hv.
    destruct kind; cbn [ScheduleType_value] in Hv;
      cbn [existsb String.eqb Ascii.eqb Bool.eqb orb andb] in Hv;
      repeat match type of Hv with
             | context [if ?b then _ else _] => destruct b eqn:?
             end;
      try discriminate; auto.
  - apply Forall_forall. intros bt Hin.
    apply list_elem_of_In in Hin.
    pose proof (find_none _ _ Hfind bt Hin) as Hbt.
    apply negb_false_iff, existsb_exists in Hbt as (v & Hv' & Heq).
    apply String.eqb_eq in Heq. subst v. apply list_elem_of_In. exact Hv'.
Qed.

End Endpoint.

(** X23.  The endpoint that creates a schedule.  When it answers with
    a schedule, that schedule is the one stored under its id; its fields
    are those of the request, its kind is one of the six, it is active
    and has never run; it has the parameter its kind needs, and all its
    backup types are among the five valid ones.  When it raises, it is
    a 400 (a refused request, or a kind that is not one of the six),
    and the scheduler and the file are as they were. *)
Theorem create_endpoint_stores_what_was_asked `{TriggerLib}
    (self : BackupScheduler.t) (request : Handlers.ScheduleCreateRequest)
    (w : World) :
  let r := Handlers.create_schedule (Some self) request w in
  match r.1.2 with
  | Ok schedule =>
      (exists kind x,
         ScheduleType_of (Handlers.schedule_type request) = Ok kind
         /\ schedule
            = ScheduleConfig.set_next_run x
                (created request kind
                   (String.substring 0 12 (uuids w (draws w)))
                   (datetime.isoformat (clock w (reads w)))
                   (datetime.isoformat (clock w (S (reads w))))))
      /\ has_its_parameter schedule
      /\ Forall (fun bt => bt ∈ Handlers.valid_types)
                (ScheduleConfig.backup_types schedule)
      /\ exists self',
           r.1.1 = Some self'
           /\ BackupScheduler.schedules self' !! ScheduleConfig.id schedule
              = Some schedule
  | Raise e =>
      (exists detail, e = HTTPException 400 detail)
      /\ r.1.1 = Some self /\ file r.2 = file w
  end.
Proof.
  intros r. subst r. unfold Handlers.create_schedule.
  destruct (Handlers.validate request) as [[] | e] eqn:Hv.
  2:{ cbn. split; [exact (validate_Raise request e Hv) | auto]. }
  unfold bindM.
  pose proof (fun c u =>
                from_dict_model_dump c u request
                  (String.substring 0 12 (uuids w (draws w)))
                  (datetime.isoformat (clock w (reads w)))
                  (datetime.isoformat (clock w (S (reads w))))) as Hfrom.
  destruct (ScheduleType_of (Handlers.schedule_type request))
    as [kind | e] eqn:Hkind; cbn [bind_result] in Hfrom.
  - destruct (create_schedule_Ok (Handlers.model_dump request) self w _ Hfrom
                eq_refl) as (x & Hres & Hstored).
    destruct (BackupScheduler.create_schedule _ self w) as [[self' res] w'].
    cbn [fst snd] in Hres, Hstored. subst res. cbn [fst snd ret].
    destruct (validate_Ok request kind
                (String.substring 0 12 (uuids w (draws w)))
                (datetime.isoformat (clock w (reads w)))
                (datetime.isoformat (clock w (S (reads w)))) x Hv Hkind)
      as [Hparam Htypes].
    split; [eauto |]. split; [exact Hparam |]. split; [exact Htypes |].
    exists self'. split; [reflexivity | exact Hstored].
  - destruct (create_schedule_Raise (Handlers.model_dump request) self w e Hfrom)
      as [Hres Hfile].
    destruct (BackupScheduler.create_schedule _ self w) as [[self' res] w'].
    cbn [fst snd] in Hres, Hfile. inversion Hres; subst self' res.
    rewrite (ScheduleType_of_Raise _ e Hkind). cbn. eauto.
Qed.

Lemma create_endpoint_stores_what_was_asked_witness :
  let request := Handlers.mkCreate "nightly" "" ["global"] "daily" None None
                   (Some "02:00") None None None true true 3 in
  let r := @Handlers.create_schedule SpecTriggers.lib
             (Some (sample_scheduler None [])) request (sample_world Missing) in
  match r.1.2 with
  | Ok schedule =>
      ScheduleConfig.name schedule = "nightly"
      /\ ScheduleConfig.schedule_type schedule = DAILY
      /\ ScheduleConfig.status schedule = ACTIVE
      /\ has_its_parameter schedule
  | Raise _ => False
  end.
Proof.
  intros request r.
  pose proof (@create_endpoint_stores_what_was_asked SpecTriggers.lib
                (sample_scheduler None []) request (sample_world Missing))
    as Hspec.
  cbv zeta in Hspec. fold request r in Hspec.
  destruct (r.1.2) as [schedule | e] eqn:Hres.
  - destruct Hspec as ((kind & x & Hkind & ->) & Hparam & _).
    vm_compute in Hkind. inversion Hkind; subst kind.
    split; [reflexivity |]. split; [reflexivity |].
    split; [reflexivity | exact Hparam].
  - subst r request. vm_compute in Hres. discriminate.
Defined.

Section Restoring.
Import Main.

Lemma extends_refl (t : Task) : extends t t [].
Proof. unfold extends. rewrite app_nil_r. repeat split; reflexivity. Qed.

Lemma extends_append (t t' : Task) (line : string) (lines : list string) :
  extends (append_output line t) t' lines -> extends t t' (line :: lines).
Proof.
  unfold extends. cbn. intros (Ho & H1 & H2 & H3 & H4 & H5 & H6 & H7).
  rewrite Ho, <- app_assoc. repeat split; assumption.
Qed.

Lemma restore_archives_returns (env : Volumes) (actual_path : string)
    (files : list string) :
  (forall cmd, exists returncode, subprocess env cmd = Ok returncode) ->
  forall task,
    exists lines,
      (restore_archives env actual_path files task).2 = None
      /\ extends task (restore_archives env actual_path files task).1 lines
      /\ length lines = length files.
Proof.
  intros Hsub. induction files as [| file rest IH]; intros task.
  - exists []. cbn. split; [reflexivity |]. split; [apply extends_refl | reflexivity].
  - cbn [restore_archives].
    destruct (Hsub ("docker volume create "
                    +:+ remove_from ".tar" 0 (stem file))) as [c1 ->].
    match goal with
    | |- context [subprocess env ?cmd] => destruct (Hsub cmd) as [c2 ->]
    end.
    match goal with
    | |- context [restore_archives env actual_path rest ?t1] =>
        destruct (IH t1) as (lines & Hnone & Hext & Hlen)
    end.
    eexists. split; [exact Hnone |].
    split; [apply extends_append; exact Hext | cbn; lia].
Qed.

Lemma restore_components_returns (env : Volumes)
    (backup_base timestamp : string) (components : list string) :
  (forall cmd, exists returncode, subprocess env cmd = Ok returncode) ->
  forall task,
    exists lines,
      (restore_components env backup_base timestamp components task).2 = None
      /\ extends task
           (restore_components env backup_base timestamp components task).1
           lines
      /\ announced <$> components `sublist_of` lines
      /\ ((forall path, isdir env path = false) ->
          lines
          = mjoin ((fun component =>
                      announced component
                      :: if backup_path_of backup_base timestamp component
                           is Some _
                         then [not_found component timestamp] else [])
                     <$> components)).
Proof.
  intros Hsub. induction components as [| component rest IH]; intros task.
  - exists []. cbn. split; [reflexivity |]. split; [apply extends_refl |].
    split; [constructor | reflexivity].
  - cbn [restore_components]. fold (announced component).
    destruct (backup_path_of backup_base timestamp component) as [path |]
      eqn:Hpath.
    2:{ destruct (IH (append_output (announced component) task))
          as (lines & Hnone & Hext & Hsubl & Hlines).
        exists (announced component :: lines).
        split; [exact Hnone |]. split; [apply extends_append, Hext |].
        split; [cbn; apply sublist_skip, Hsubl |].
        intros Hno. cbn. rewrite Hpath, (Hlines Hno). reflexivity. }
    destruct (isdir env path) eqn:Hdir; cbn [negb].
    2:{ fold (not_found component timestamp).
        destruct (IH (append_output (not_found component timestamp)
                        (append_output (announced component) task)))
          as (lines & Hnone & Hext & Hsubl & Hlines).
        exists (announced component :: not_found component timestamp :: lines).
        split; [exact Hnone |].
        split; [apply extends_append, extends_append, Hext |].
        split; [cbn; apply sublist_skip, sublist_cons, Hsubl |].
        intros Hno. cbn. rewrite Hpath, (Hlines Hno). reflexivity. }
    set (chosen := if isdir env (path +:+ "/volumes") then _ else _).
    assert (Hchosen : exists pre,
              extends (append_output (announced component) task) chosen.2 pre).
    { subst chosen. destruct (isdir env (path +:+ "/volumes")); cbn [snd].
      - eexists. apply extends_append, extends_refl.
      - eexists. apply extends_refl. }
    destruct chosen as [actual_path task1]. cbn [snd] in Hchosen.
    destruct Hchosen as [pre Hpre].
    destruct (restore_archives_returns env actual_path
                (glob_tar_gz env actual_path) Hsub task1)
      as (lines1 & Hnone1 & Hext1 & _).
    destruct (restore_archives env actual_path _ task1) as [task2 raised].
    cbn [fst snd] in Hnone1, Hext1. subst raised.
    match goal with
    | |- context [restore_components env backup_base timestamp rest ?t3] =>
        destruct (IH t3) as (lines & Hnone & Hext & Hsubl & Hlines)
    end.
    exists (announced component
            :: pre ++ lines1 ++ ("✅ " +:+ component +:+ " restaurado") :: lines)%list.
    split; [exact Hnone |]. split.
    + apply extends_append.
      unfold extends in *.
      destruct Hpre as (Ho1 & ? & ? & ? & ? & ? & ? & ?).
      destruct Hext1 as (Ho2 & ? & ? & ? & ? & ? & ? & ?).
      destruct Hext as (Ho3 & ? & ? & ? & ? & ? & ? & ?).
      cbn [append_output task_id backup_type status started_at completed_at
           error schedule_id output] in *.
      rewrite Ho3, Ho2, Ho1, <- !app_assoc. cbn [app].
      repeat split; congruence.
    + split.
      * cbn. apply sublist_skip.
        apply sublist_inserts_l, sublist_inserts_l, sublist_cons, Hsubl.
      * intros Hno. rewrite Hno in Hdir. discriminate.
Qed.

End Restoring.

(** X24.  A restore whose subprocesses can all be started ends as
    completed, whatever their return codes and whether any of the
    backups is there at all: the return code of an extraction only
    chooses the mark of its line.  The record keeps its other fields and
    its earlier output, every component is announced in the order
    asked, and [completed_at] is stamped.  When no directory of the
    backup exists, the output gains, per component, its announcement
    and, for the four known names, the line that its backup was not
    found, and nothing else. *)
Theorem restore_completes_unless_a_subprocess_raises
    (env : Main.Volumes) (backup_base id timestamp : string)
    (components : list string) (st : Main.State) (w : World)
    (a : nat) (t : Main.Task) :
  Main.backup_tasks st !! id = Some a ->
  Main.heap st !! a = Some t ->
  (forall cmd, exists returncode, Main.subprocess env cmd = Ok returncode) ->
  let r := Main.run_restore_script env backup_base id timestamp components
             st w in
  r.1.2 = Ok tt
  /\ exists t' lines,
       Main.heap r.1.1 !! a = Some t'
       /\ Main.status t' = Main.COMPLETED
       /\ Main.error t' = Main.error t
       /\ Main.completed_at t' = Some (datetime.isoformat (clock w (reads w)))
       /\ Main.output t' = (Main.output t ++ lines)%list
       /\ announced <$> components `sublist_of` lines
       /\ ((forall path, Main.isdir env path = false) ->
           lines
           = mjoin ((fun component =>
                       announced component
                       :: if Main.backup_path_of backup_base timestamp component
                            is Some _
                          then [not_found component timestamp] else [])
                      <$> components)).
Proof.
  intros Hid Ht Hsub r. subst r.
  unfold Main.run_restore_script. rewrite Hid, Ht.
  destruct (restore_components_returns env backup_base timestamp components
              Hsub (Main.set_status Main.RUNNING t))
    as (lines & Hnone & Hext & Hsubl & Hlines).
  destruct (Main.restore_components env backup_base timestamp components _)
    as [t1 raised].
  cbn [fst snd] in Hnone, Hext. subst raised.
  unfold bindM, Main.complete, now, ret. cbn [fst snd].
  split; [reflexivity |].
  destruct Hext as (Ho & _ & _ & _ & _ & _ & Herr & _). cbn in Ho, Herr.
  eexists _, lines. split.
  { cbn. rewrite !list_lookup_alter_eq, Ht. cbn. reflexivity. }
  cbn. auto 10.
Qed.

Lemma restore_completes_unless_a_subprocess_raises_witness :
  let env := Main.mkVolumes
               (fun path => String.eqb path "/backups/mongodb/mongodb_backup_20240101")
               (fun _ => ["mongo_data.tar.gz"])
               (fun _ => Ok 1) in
  let t := Main.pending "restore_20240101_20240102_100000" "restore"
             "2024-01-02T10:00:00" [] None in
  let r := Main.run_restore_script env "/backups"
             "restore_20240101_20240102_100000" "20240101"
             ["mongodb"; "redis"] (Main.assign t Main.empty)
             (sample_world Missing) in
  exists t' lines,
    Main.heap r.1.1 !! 0%nat = Some t'
    /\ Main.status t' = Main.COMPLETED
    /\ Main.output t' = lines.
Proof.
  intros env t r.
  destruct (restore_completes_unless_a_subprocess_raises env "/backups"
              "restore_20240101_20240102_100000" "20240101"
              ["mongodb"; "redis"] (Main.assign t Main.empty)
              (sample_world Missing) 0%nat t eq_refl eq_refl
              (fun cmd => ex_intro _ 1 eq_refl))
    as (_ & t' & lines & Ht' & Hstatus & _ & _ & Hout & _).
  exists t', lines. split; [exact Ht' |]. split; [exact Hstatus | exact Hout].
Defined.
